(** * Quota ledger, enrichment gate, retry loop and deduplication filter

    A shallow embedding of [scraper.py] and [parse_resume_with_ai.py]:
    the persisted rate-limit state ([load_quota_state], [save_quota_state],
    [check_and_enforce_quota]), the failure-path decrement of the two
    text-generation callers, the HTTP 429 retry loops, the paginated board
    search and the two filters that decide which job identifiers are new. *)

From Stdlib Require Import ZArith Lia List Ascii String Bool.
From stdpp Require Import base decidable option list gmap strings.
Import ListNotations.

Local Open Scope Z_scope.

(* ===================================================================== *)
(** ** Calendar values: [datetime.date] and [datetime.datetime]           *)
(* ===================================================================== *)

Module Calendar.

(** A Python [date] stores its three fields. *)
Record date := mkdate { year : Z; month : Z; day : Z }.

(** A naive Python [datetime]: the date fields and the time of day. *)
Record datetime := mkdatetime {
  dt_date : date;          (* [dt.date()] *)
  hour : Z;
  minute : Z;
  second : Z;
  microsecond : Z
}.

Definition is_leap (y : Z) : bool :=
  (y mod 4 =? 0) && (negb (y mod 100 =? 0) || (y mod 400 =? 0)).

Definition days_in_month (y m : Z) : Z :=
  if m =? 2 then (if is_leap y then 29 else 28)
  else if (m =? 4) || (m =? 6) || (m =? 9) || (m =? 11) then 30
  else 31.

(** [_days_before_year]: days before January 1st of year [y]. *)
Definition days_before_year (y : Z) : Z :=
  let p := y - 1 in p * 365 + p / 4 - p / 100 + p / 400.

(** [_days_before_month]: days in year [y] before the first of month [m]. *)
Definition days_before_month (y m : Z) : Z :=
  let common :=
    match m with
    | 1 => 0 | 2 => 31 | 3 => 59 | 4 => 90 | 5 => 120 | 6 => 151
    | 7 => 181 | 8 => 212 | 9 => 243 | 10 => 273 | 11 => 304 | _ => 334
    end in
  if (2 <? m) && is_leap y then common + 1 else common.

(** [_ymd2ord]: the proleptic Gregorian ordinal, 0001-01-01 being day 1. *)
Definition ymd2ord (d : date) : Z :=
  days_before_year (year d) + days_before_month (year d) (month d) + day d.

(** The instant of a datetime in microseconds; [a - b] on datetimes is
    the difference of these, and [timedelta.total_seconds()] is that
    difference divided by 10^6. *)
Definition to_micros (t : datetime) : Z :=
  ((ymd2ord (dt_date t) * 86400
    + hour t * 3600 + minute t * 60 + second t) * 1000000)
  + microsecond t.

(** The range checks of the [date] and [datetime] constructors. *)
Definition valid_date (d : date) : bool :=
  (1 <=? year d) && (year d <=? 9999)
  && (1 <=? month d) && (month d <=? 12)
  && (1 <=? day d) && (day d <=? days_in_month (year d) (month d)).

Definition valid_time (h m s us : Z) : bool :=
  (0 <=? h) && (h <? 24) && (0 <=? m) && (m <? 60)
  && (0 <=? s) && (s <? 60) && (0 <=? us) && (us <? 1000000).

Definition valid_datetime (t : datetime) : bool :=
  valid_date (dt_date t)
  && valid_time (hour t) (minute t) (second t) (microsecond t).

(** [date.__gt__]: the field triples are compared lexicographically. *)
Definition date_gtb (a b : date) : bool :=
  (year b <? year a)
  || ((year a =? year b)
      && ((month b <? month a)
          || ((month a =? month b) && (day b <? day a)))).

(** *** ISO 8601 text *)

Definition digit (n : Z) : ascii := ascii_of_nat (Z.to_nat (48 + n)).

Definition digit_val (c : ascii) : option Z :=
  let n := Z.of_nat (nat_of_ascii c) in
  if (48 <=? n) && (n <=? 57) then Some (n - 48) else None.

Definition pad2 (n : Z) : list ascii := [digit (n / 10); digit (n mod 10)].

Definition pad4 (n : Z) : list ascii :=
  [digit (n / 1000); digit (n / 100 mod 10);
   digit (n / 10 mod 10); digit (n mod 10)].

Definition pad6 (n : Z) : list ascii :=
  [digit (n / 100000); digit (n / 10000 mod 10); digit (n / 1000 mod 10);
   digit (n / 100 mod 10); digit (n / 10 mod 10); digit (n mod 10)].

(** The value of a run of decimal digits, [None] when a character is not
    a digit. *)
Fixpoint number_from (acc : Z) (l : list ascii) : option Z :=
  match l with
  | [] => Some acc
  | c :: r =>
      match digit_val c with
      | Some v => number_from (10 * acc + v) r
      | None => None
      end
  end.

Definition number (l : list ascii) : option Z := number_from 0 l.

Definition dash : ascii := "-"%char.
Definition colon : ascii := ":"%char.
Definition dot : ascii := "."%char.
Definition letter_T : ascii := "T"%char.

(** [date.isoformat()]: [YYYY-MM-DD]. *)
Definition date_chars (d : date) : list ascii :=
  pad4 (year d) ++ dash :: pad2 (month d) ++ dash :: pad2 (day d).

Definition date_isoformat (d : date) : string :=
  string_of_list_ascii (date_chars d).

(** [datetime.isoformat()]: [YYYY-MM-DDTHH:MM:SS], followed by [.ffffff]
    when the microsecond field is not zero. *)
Definition datetime_chars (t : datetime) : list ascii :=
  date_chars (dt_date t)
  ++ letter_T :: pad2 (hour t) ++ colon :: pad2 (minute t)
  ++ colon :: pad2 (second t)
  ++ (if microsecond t =? 0 then [] else dot :: pad6 (microsecond t)).

Definition datetime_isoformat (t : datetime) : string :=
  string_of_list_ascii (datetime_chars t).

(** The leading [YYYY-MM-DD] of an ISO string and what follows it. *)
Definition parse_date_part (l : list ascii) : option (date * list ascii) :=
  match l with
  | y1 :: y2 :: y3 :: y4 :: s1 :: m1 :: m2 :: s2 :: d1 :: d2 :: rest =>
      if Ascii.eqb s1 dash && Ascii.eqb s2 dash then
        match number [y1; y2; y3; y4], number [m1; m2], number [d1; d2] with
        | Some y, Some m, Some d =>
            let r := mkdate y m d in
            if valid_date r then Some (r, rest) else None
        | _, _, _ => None
        end
      else None
  | _ => None
  end.

(** The fraction after the seconds: absent, three or six digits. *)
Definition parse_fraction (l : list ascii) : option Z :=
  match l with
  | [] => Some 0
  | [p; f1; f2; f3] =>
      if Ascii.eqb p dot
      then option_map (Z.mul 1000) (number [f1; f2; f3]) else None
  | [p; f1; f2; f3; f4; f5; f6] =>
      if Ascii.eqb p dot then number [f1; f2; f3; f4; f5; f6] else None
  | _ => None
  end.

(** The time of day [HH[:MM[:SS[.fff[fff]]]]] (no UTC offset: the
    program only handles naive datetimes). *)
Definition parse_time_part (l : list ascii) : option (Z * Z * Z * Z) :=
  let checked h m s us :=
    if valid_time h m s us then Some (h, m, s, us) else None in
  match l with
  | [h1; h2] =>
      match number [h1; h2] with
      | Some h => checked h 0 0 0
      | None => None
      end
  | [h1; h2; c1; m1; m2] =>
      if Ascii.eqb c1 colon then
        match number [h1; h2], number [m1; m2] with
        | Some h, Some m => checked h m 0 0
        | _, _ => None
        end
      else None
  | h1 :: h2 :: c1 :: m1 :: m2 :: c2 :: s1 :: s2 :: frac =>
      if Ascii.eqb c1 colon && Ascii.eqb c2 colon then
        match number [h1; h2], number [m1; m2], number [s1; s2],
              parse_fraction frac with
        | Some h, Some m, Some s, Some us => checked h m s us
        | _, _, _, _ => None
        end
      else None
  | _ => None
  end.

(** [datetime.fromisoformat] on a string: a date, alone (midnight) or
    followed by one separator character and a time of day. [None] stands
    for the [ValueError] Python raises on any other text. *)
Definition datetime_fromisoformat (s : string) : option datetime :=
  match parse_date_part (list_ascii_of_string s) with
  | Some (d, []) => Some (mkdatetime d 0 0 0 0)
  | Some (d, _ :: time) =>
      match parse_time_part time with
      | Some (h, m, sec, us) => Some (mkdatetime d h m sec us)
      | None => None
      end
  | None => None
  end.

End Calendar.

(* ===================================================================== *)
(** ** The world the program runs in                                      *)
(* ===================================================================== *)

Module Runtime.
Import Calendar.

(** Exceptions the modelled code can raise. *)
Inductive exn :=
| ValueError      (* [fromisoformat] on text that is not an ISO date *)
| TypeError       (* an operation applied to a value of the wrong type *)
| AttributeError  (* [.get] on a value that is not an object *)
| ServiceError.   (* the text-generation call failed *)

Inductive outcome (A : Type) :=
| Returned (a : A)
| Raised (e : exn).
Arguments Returned {A} a.
Arguments Raised {A} e.

(** The JSON object kept in the quota state file: what [json.load]
    gives back for a file [json.dump] wrote. *)
Record stored := mkstored {
  st_daily_request_count : Z;
  st_daily_reset_date : option string;     (* an ISO date or [null] *)
  st_request_timestamps : list string      (* ISO datetimes *)
}.

(** A file that exists: not loadable (unreadable or not JSON), or
    holding a JSON object. *)
Inductive content :=
| Garbage
| Json (j : stored).

(** A response to an HTTP GET, or the failure of the transport
    (connection error, timeout: a [RequestException] that is not an
    [HTTPError]). *)
Inductive http_result :=
| Response (status_code : Z) (text : string)
| TransportFailure.

(** One entry of the [results] array of the board search. *)
Record job_item := mkitem {
  item_uuid : option string;                   (* [job_item.get('uuid')] *)
  item_title : option string;                  (* [job_item.get('title')] *)
  item_hiringCompany : option (option string); (* a dict, and its ['name'] *)
  item_postedCompany : option (option string)
}.

Inductive search_entry :=
| NotADict
| Dict (j : job_item).

Record next_link := mknext { href : option string }.
Record links := mklinks { next : option next_link }.

(** The JSON body of one page of the board search. *)
Record search_page := mkpage {
  results : list search_entry;
  total : option Z;
  _links : option links
}.

(** The outcome of one search POST: a page, one of the failures the
    loop catches ([HTTPError], [RequestException], [JSONDecodeError]),
    or a 200 response whose JSON body the loop cannot walk. Each of the
    last three raises where the loop reads the body, and none of the
    [except] clauses catches what it raises. *)
Inductive search_result :=
| Page (p : search_page)
| SearchFailed
| NotAnObject          (* the body is a list, a string, a number or
                          null: [.get('results', [])] raises
                          [AttributeError] (line 644) *)
| ResultsNotIterable   (* ['results'] is null or a number: [extend]
                          raises [TypeError] (line 645) *)
| LinksNotAnObject (total : option Z).
                       (* ['_links'] is null or no object, or ['next']
                          is true and no object: [.get] raises
                          [AttributeError] (lines 655-656), after the
                          total was logged *)

(** The outcome of the skill-suggestions POST: the uuids the
    comprehension of line 600 collects, one of the failures caught
    (lines 606-618), or a 200 response whose JSON body lines 598-600
    cannot walk, which raise what no [except] clause there catches. *)
Inductive suggestions_result :=
| Skills (skillUuids : list string)
| SuggestionsFailed
| SkillsNotAnObject    (* the body is no object: [.get('skills', [])]
                          raises [AttributeError] (line 599) *)
| SkillsNotIterable.   (* ['skills'] is null or a number, or one of
                          its entries cannot be searched or indexed:
                          [TypeError] (line 600) *)

(** The JSON body of the board detail endpoint, as far as the program
    reads it: the fields it shares with a search entry and the HTML
    description. *)
Record job_data := mkdata {
  data_fields : job_item;
  data_description : string     (* [job_data.get('description', '')] *)
}.

(** What a detail fetch returns for a job. *)
Record job_details := mkdetails {
  job_id : option string;
  company : option string;
  job_title : option string;
  description : option string
}.

(** What the program does to the outside, in order. *)
Inductive event :=
| Slept (micros : Z)                        (* [time.sleep] *)
| Generated (prompt : string)               (* [generate_content] *)
| Requested (url : string) (agent : option nat)
                                            (* [requests.get], with the
                                               user agent it names *)
| Posted (url : string)                     (* [requests.post] *)
| LoggedTotal (n : Z).                      (* "API reports total ..." *)

(** The outside: every answer is indexed by how many were asked
    before, so successive calls may differ. The clock is any sequence
    of readings; it is not assumed to follow the sleeps. *)
Record env := mkenv {
  clock : nat -> datetime;                 (* [datetime.now()] *)
  disk_writable : nat -> bool;             (* does [open(.., 'w')] succeed *)
  generate_content : nat -> string -> option string;
                                           (* [None]: the call raises *)
  http_get : nat -> string -> http_result;
  search_post : nat -> string -> search_result;
  skill_suggestions : nat -> string -> suggestions_result;
  decode_job : string -> option job_data;  (* [response.json()];
                                              [None]: not JSON *)
  html2text : string -> string;            (* [html2text.html2text] *)
  existing_jobs : option (gset string * gset (string * string));
                                           (* [None]: the store raised *)
  random_uniform : nat -> Z;               (* a draw, in microseconds *)
  random_choice : nat -> nat               (* an index in USER_AGENTS *)
}.

Record world := mkworld {
  fs : gmap string content;   (* the files, by name *)
  reads : nat;            (* clock readings taken *)
  writes : nat;           (* attempts to write a file *)
  calls : nat;            (* text-generation calls made *)
  requests : nat;         (* HTTP requests sent *)
  draws : nat;            (* random draws taken *)
  trace : list event      (* oldest first *)
}.

(** Computations read the outside, change the world and return or
    raise; the world reached when an exception is raised is kept. *)
Definition M (A : Type) : Type := env -> world -> outcome A * world.

Definition ret {A} (a : A) : M A := fun _ w => (Returned a, w).

Definition raise {A} (e : exn) : M A := fun _ w => (Raised e, w).

Definition bind {A B} (m : M A) (k : A -> M B) : M B :=
  fun E w =>
    match m E w with
    | (Returned a, w') => k a E w'
    | (Raised e, w') => (Raised e, w')
    end.

(** [try: body except Exception as e: handler e]. *)
Definition try_except {A} (body : M A) (handler : exn -> M A) : M A :=
  fun E w =>
    match body E w with
    | (Returned a, w') => (Returned a, w')
    | (Raised e, w') => handler e E w'
    end.

(** A pure computation that may raise. *)
Definition lift {A} (o : outcome A) : M A := fun _ w => (o, w).

(** Reading the outside. *)
Definition ask : M env := fun E w => (Returned E, w).

Notation "x <- c1 ;; c2" := (bind c1 (fun x => c2))
  (at level 100, c1 at next level, right associativity).
Notation "c1 ;; c2" := (bind c1 (fun _ => c2))
  (at level 100, right associativity).

Definition emit (ev : event) : M unit :=
  fun _ w =>
    (Returned tt,
     mkworld (fs w) (reads w) (writes w) (calls w) (requests w) (draws w)
             (trace w ++ [ev])).

(** [datetime.now()]. *)
Definition now : M datetime :=
  fun E w =>
    (Returned (clock E (reads w)),
     mkworld (fs w) (S (reads w)) (writes w) (calls w) (requests w)
             (draws w) (trace w)).

(** [time.sleep(d)], [d] in microseconds. *)
Definition sleep (micros : Z) : M unit := emit (Slept micros).

(** [os.path.exists(name)] and the content found there. *)
Definition read_file (name : string) : M (option content) :=
  fun _ w => (Returned (fs w !! name), w).

(** [with open(name, 'w') as f: json.dump(state, f)]; the result tells
    whether the file could be opened. A file that cannot be opened is
    left as it was. *)
Definition write_file (name : string) (j : stored) : M bool :=
  fun E w =>
    let ok := disk_writable E (writes w) in
    (Returned ok,
     mkworld (if ok then <[name := Json j]> (fs w) else fs w)
             (reads w) (S (writes w))
             (calls w) (requests w) (draws w) (trace w)).

(** [client.models.generate_content(...)], returning [response.text]. *)
Definition generate (prompt : string) : M string :=
  fun E w =>
    let w' := mkworld (fs w) (reads w) (writes w) (S (calls w))
                      (requests w) (draws w)
                      (trace w ++ [Generated prompt]) in
    match generate_content E (calls w) prompt with
    | Some text => (Returned text, w')
    | None => (Raised ServiceError, w')
    end.

(** [requests.get(url, headers={'User-Agent': USER_AGENTS[agent]})],
    or [requests.get(url)] without a user agent. *)
Definition get (url : string) (agent : option nat) : M http_result :=
  fun E w =>
    (Returned (http_get E (requests w) url),
     mkworld (fs w) (reads w) (writes w) (calls w) (S (requests w))
             (draws w) (trace w ++ [Requested url agent])).

(** [requests.post(url, json=search_payload)] and the decoding of its
    body. *)
Definition post (url : string) : M search_result :=
  fun E w =>
    (Returned (search_post E (requests w) url),
     mkworld (fs w) (reads w) (writes w) (calls w) (S (requests w))
             (draws w) (trace w ++ [Posted url])).

(** [requests.post(careers_future_suggestions_api_url,
    data={'jobTitle': search_query})] and the reading of its body. *)
Definition post_suggestions (url search_query : string)
  : M suggestions_result :=
  fun E w =>
    (Returned (skill_suggestions E (requests w) search_query),
     mkworld (fs w) (reads w) (writes w) (calls w) (S (requests w))
             (draws w) (trace w ++ [Posted url])).

Definition uniform : M Z :=
  fun E w =>
    (Returned (random_uniform E (draws w)),
     mkworld (fs w) (reads w) (writes w) (calls w) (requests w)
             (S (draws w)) (trace w)).

Definition choice : M nat :=
  fun E w =>
    (Returned (random_choice E (draws w)),
     mkworld (fs w) (reads w) (writes w) (calls w) (requests w)
             (S (draws w)) (trace w)).

(** A list comprehension whose element expression may raise: the first
    exception ends it. *)
Fixpoint comprehension {A B} (f : A -> outcome B) (l : list A)
  : outcome (list B) :=
  match l with
  | [] => Returned []
  | x :: r =>
      match f x with
      | Raised e => Raised e
      | Returned y =>
          match comprehension f r with
          | Raised e => Raised e
          | Returned ys => Returned (y :: ys)
          end
      end
  end.

(** *** Python strings *)

(** Truthiness of a [str]: the empty string is false. *)
Definition truthy (s : string) : bool :=
  match s with EmptyString => false | _ => true end.

(** ASCII whitespace as [str.strip()] sees it. *)
Definition is_space (c : ascii) : bool :=
  let n := nat_of_ascii c in
  (((9 <=? n) && (n <=? 13)) || ((28 <=? n) && (n <=? 32)))%nat.

Fixpoint lstrip (l : list ascii) : list ascii :=
  match l with
  | c :: r => if is_space c then lstrip r else l
  | [] => []
  end.

Definition strip (s : string) : string :=
  string_of_list_ascii
    (rev (lstrip (rev (lstrip (list_ascii_of_string s))))).

(** [str.lower()] on ASCII letters. *)
Definition lower_char (c : ascii) : ascii :=
  let n := nat_of_ascii c in
  if ((65 <=? n) && (n <=? 90))%nat then ascii_of_nat (n + 32) else c.

Definition lower (s : string) : string :=
  string_of_list_ascii (map lower_char (list_ascii_of_string s)).

End Runtime.

(* ===================================================================== *)
(** ** Quota tracking                                                     *)
(* ===================================================================== *)

(** [scraper.py] and [parse_resume_with_ai.py] each carry a copy of the
    quota code; the copies differ in [MAX_REQUESTS_PER_DAY] and in how
    they log ([logging] against [print]). The code is embedded once,
    over the two module constants, and instantiated per module below. *)
Module Quota.
Import Calendar Runtime.

(** The dict [load_quota_state] returns: the reset date is still the
    text found in the file, the timestamps are [datetime] objects. *)
Record quota_state := mkstate {
  daily_request_count : Z;
  daily_reset_date : option string;
  request_timestamps : list datetime
}.

(** A value handed to [datetime.fromisoformat]. *)
Inductive pyval :=
| PyStr (s : string)
| PyDatetime (t : datetime).

(** [datetime.fromisoformat(v)]: [TypeError] ("argument must be str")
    unless [v] is a string, [ValueError] on a string that is not an ISO
    datetime. *)
Definition fromisoformat (v : pyval) : outcome datetime :=
  match v with
  | PyStr s =>
      match datetime_fromisoformat s with
      | Some t => Returned t
      | None => Raised ValueError
      end
  | PyDatetime _ => Raised TypeError
  end.

(** The value of the local [daily_reset_date] once the stored text has
    been looked at. *)
Inductive reset_value :=
| ResetNone
| ResetDate (d : date)
| ResetText (s : string).

Definition MAX_REQUESTS_PER_MINUTE : Z := 4.

(** [60 / MAX_REQUESTS_PER_MINUTE] seconds, in microseconds. *)
Definition SECONDS_BETWEEN_REQUESTS : Z := 60000000 / MAX_REQUESTS_PER_MINUTE.

(** The state used when there is no loadable file. *)
Definition zero_state : quota_state := mkstate 0 None [].

(** [min(request_timestamps)] and [max(request_timestamps)], as
    instants; [ValueError] on an empty list. *)
Definition oldest_request (l : list datetime) : outcome Z :=
  match l with
  | [] => Raised ValueError
  | t :: r => Returned (fold_left Z.min (map to_micros r) (to_micros t))
  end.

Definition last_request (l : list datetime) : outcome Z :=
  match l with
  | [] => Raised ValueError
  | t :: r => Returned (fold_left Z.max (map to_micros r) (to_micros t))
  end.

Section Ledger.

Variable QUOTA_STATE_FILE : string.
Variable MAX_REQUESTS_PER_DAY : Z.

(** What the [try] block of [load_quota_state] makes of the file: the
    timestamp texts are converted, and any exception falls back to the
    zero state. *)
Definition decode_state (f : option content) : quota_state :=
  match f with
  | None => zero_state
  | Some Garbage => zero_state
  | Some (Json state) =>
      match comprehension (fun ts => fromisoformat (PyStr ts))
                          (st_request_timestamps state) with
      | Returned timestamps =>
          mkstate (st_daily_request_count state)
                  (st_daily_reset_date state) timestamps
      | Raised _ => zero_state
      end
  end.

Definition load_quota_state : M quota_state :=
  f <- read_file QUOTA_STATE_FILE ;;
  ret (decode_state f).

Definition save_quota_state (daily_count : Z) (reset_date : option date)
    (timestamps : list datetime) : M unit :=
  let state :=
    mkstored daily_count
             (option_map date_isoformat reset_date)
             (map datetime_isoformat timestamps) in
  _ <- write_file QUOTA_STATE_FILE state ;;
  ret tt.

(** [if daily_reset_date: daily_reset_date =
    datetime.fromisoformat(daily_reset_date).date()]; an empty string is
    false and stays as it is. *)
Definition parse_reset_date (text : option string) : outcome reset_value :=
  match text with
  | None => Returned ResetNone
  | Some s =>
      if truthy s then
        match fromisoformat (PyStr s) with
        | Returned t => Returned (ResetDate (dt_date t))
        | Raised e => Raised e
        end
      else Returned (ResetText s)
  end.

(** The new-day step: the count, reset date and timestamps the rest of
    the check works with. Comparing a date with a string raises. *)
Definition reset_if_new_day (current_time : datetime) (count : Z)
    (reset : reset_value) (timestamps : list datetime)
  : outcome (Z * date * list datetime) :=
  match reset with
  | ResetNone => Returned (0, dt_date current_time, [])
  | ResetDate d =>
      if date_gtb (dt_date current_time) d
      then Returned (0, dt_date current_time, [])
      else Returned (count, d, timestamps)
  | ResetText _ => Raised TypeError
  end.

(** [[ts for ts in request_timestamps if ts > one_minute_ago]]. *)
Definition prune (current_time : datetime) (timestamps : list datetime)
  : list datetime :=
  List.filter (fun ts => to_micros current_time - 60000000 <? to_micros ts)
              timestamps.

(** The wait for the per-minute ceiling. *)
Definition enforce_rpm (current_time : datetime)
    (timestamps : list datetime) : M datetime :=
  if MAX_REQUESTS_PER_MINUTE <=? Z.of_nat (length timestamps) then
    oldest <- lift (oldest_request timestamps) ;;
    let wait_time := 60000000 - (to_micros current_time - oldest) in
    if 0 <? wait_time then
      sleep (wait_time + 1000000) ;;
      now
    else ret current_time
  else ret current_time.

(** The minimum spacing between two requests. *)
Definition enforce_spacing (current_time : datetime)
    (timestamps : list datetime) : M datetime :=
  match timestamps with
  | [] => ret current_time
  | _ :: _ =>
      last <- lift (last_request timestamps) ;;
      let elapsed := to_micros current_time - last in
      if elapsed <? SECONDS_BETWEEN_REQUESTS then
        sleep (SECONDS_BETWEEN_REQUESTS - elapsed) ;;
        now
      else ret current_time
  end.

Definition check_and_enforce_quota : M bool :=
  state <- load_quota_state ;;
  reset <- lift (parse_reset_date (daily_reset_date state)) ;;
  current_time <- now ;;
  today <- lift (reset_if_new_day current_time (daily_request_count state)
                                  reset (request_timestamps state)) ;;
  let '(count, reset_date, timestamps) := today in
  if MAX_REQUESTS_PER_DAY <=? count then ret false
  else
    let timestamps := prune current_time timestamps in
    current_time <- enforce_rpm current_time timestamps ;;
    current_time <- enforce_spacing current_time timestamps ;;
    save_quota_state (count + 1) (Some reset_date)
                     (timestamps ++ [current_time]) ;;
    ret true.

(** [reset_date = state["daily_reset_date"]; if reset_date: reset_date
    = datetime.fromisoformat(reset_date).date()], and what
    [save_quota_state] then makes of it: a false value is saved as
    [null]. *)
Definition reparse_reset_date (text : option string) : outcome (option date) :=
  match text with
  | None => Returned None
  | Some s =>
      if truthy s then
        match fromisoformat (PyStr s) with
        | Returned t => Returned (Some (dt_date t))
        | Raised e => Raised e
        end
      else Returned None
  end.

(** The body both callers run in their [except] block ("Decrement
    counter since request failed"): reload, lower the count, convert the
    date and the timestamps back, save. The timestamps of the reloaded
    state are the [datetime] objects [load_quota_state] made. *)
Definition decrement_after_failure : M unit :=
  state <- load_quota_state ;;
  let count := Z.max 0 (daily_request_count state - 1) in
  reset_date <- lift (reparse_reset_date (daily_reset_date state)) ;;
  timestamps <-
    lift (comprehension (fun ts => fromisoformat (PyDatetime ts))
                        (request_timestamps state)) ;;
  save_quota_state count reset_date timestamps.

End Ledger.

End Quota.

(* ===================================================================== *)
(** ** [scraper.py]                                                       *)
(* ===================================================================== *)

Module Scraper.
Import Calendar Runtime.

Definition MAX_REQUESTS_PER_MINUTE : Z := Quota.MAX_REQUESTS_PER_MINUTE.
Definition MAX_REQUESTS_PER_DAY : Z := 20.
Definition QUOTA_STATE_FILE : string := "quota_state.json".

Definition load_quota_state : M Quota.quota_state :=
  Quota.load_quota_state QUOTA_STATE_FILE.

Definition save_quota_state := Quota.save_quota_state QUOTA_STATE_FILE.

Definition check_and_enforce_quota : M bool :=
  Quota.check_and_enforce_quota QUOTA_STATE_FILE MAX_REQUESTS_PER_DAY.

(** Lines 200-209, the decrement in the [except] block. *)
Definition decrement_after_failure : M unit :=
  Quota.decrement_after_failure QUOTA_STATE_FILE.

(** The f-string [prompt]. *)
Definition markdown_prompt (text : string) : string :=
  "You are a Markdown formatter.
    Convert the following job description into Markdown format:

    ---
    " +:+ text +:+ "
    ---
    ".

Definition convert_plain_text_to_markdown_with_ai (text : string)
  : M string :=
  if negb (truthy text) then ret ""%string
  else
    allowed <- check_and_enforce_quota ;;
    if negb allowed then ret text
    else
      try_except
        (response_text <- generate (markdown_prompt text) ;;
         let markdown_content := strip response_text in
         if negb (truthy markdown_content) then ret text
         else ret markdown_content)
        (fun _ =>
           decrement_after_failure ;;
           ret text).

(** [res.raise_for_status()] raises [HTTPError] on 4xx and 5xx. *)
Definition is_http_error (status_code : Z) : bool :=
  (400 <=? status_code) && (status_code <? 600).

(** *** The retry loop of the two guest-source fetches *)

Section Fetch.

(** [config.MAX_RETRIES] and [config.RETRY_DELAY_SECONDS] (the latter in
    microseconds); [config.py] is not part of the sources. *)
Variable MAX_RETRIES : Z.
Variable RETRY_DELAY_SECONDS : Z.

(** [while retries <= config.MAX_RETRIES: ...] of
    [_fetch_linkedin_job_ids] (lines 255-283) and of
    [_fetch_linkedin_job_details] (lines 356-381): the response text, or
    [None], and the final [retries]. Each iteration either leaves the
    loop or adds one to [retries], so [fuel] bounds the iterations. *)
Fixpoint retry_loop (fuel : nat) (url : string) (agent : nat)
    (retries : Z) : M (option string * Z) :=
  match fuel with
  | O => ret (None, retries)
  | S fuel' =>
      if retries <=? MAX_RETRIES then
        res <- get url (Some agent) ;;
        match res with
        | Response status_code text =>
            if is_http_error status_code then
              if (status_code =? 429) && (retries <? MAX_RETRIES) then
                jitter <- uniform ;;
                sleep (RETRY_DELAY_SECONDS + jitter) ;;
                agent' <- choice ;;
                retry_loop fuel' url agent' (retries + 1)
              else ret (None, retries)
            else ret (Some text, retries)
        | TransportFailure => ret (None, retries)
        end
      else ret (None, retries)
  end.

(** The delay, the choice of a user agent and the loop, as both
    functions run them for one URL. *)
Definition fetch_with_retries (url : string) : M (option string * Z) :=
  sleep_time <- uniform ;;
  sleep sleep_time ;;
  agent <- choice ;;
  retry_loop (Z.to_nat (MAX_RETRIES + 1)) url agent 0.

End Fetch.

(** *** The board search *)

Definition careers_future_suggestions_api_url : string :=
  "https://api.mycareersfuture.gov.sg/v2/skills/suggestions".

Definition careers_future_search_api_base_url : string :=
  "https://api.mycareersfuture.gov.sg/v2/search".

(** [search_results_data.get("_links", {}).get("next", {})] and then
    [.get("href")] unless that dict is empty. *)
Definition next_page_url (p : search_page) : option string :=
  match _links p with
  | None => None
  | Some l =>
      match next l with
      | None => None
      | Some info => href info
      end
  end.

(** Truthiness of [current_search_url]: [None] and the empty string end
    the loop. *)
Definition has_url (u : option string) : bool :=
  match u with
  | Some s => truthy s
  | None => false
  end.

Inductive loop_exit :=
| NoMorePages      (* the [while] condition became false *)
| RequestFailed    (* an exception left the loop and was logged *)
| OutOfFuel.       (* the model stopped; the program would go on *)

(** [if 'total' in search_results_data and total_api_calls_for_search
    == 1: logging.info(...)]. *)
Definition log_total (p : search_page) (total_api_calls_for_search : Z)
  : M unit :=
  match total p with
  | Some n =>
      if total_api_calls_for_search =? 1 then emit (LoggedTotal n)
      else ret tt
  | None => ret tt
  end.

(** [while current_search_url: ...] (lines 637-675). The server decides
    how long the loop runs, so the model takes [fuel]. What the body
    raises on a response it cannot walk leaves the loop and the
    function; the entries collected so far go with it. *)
Fixpoint search_loop (fuel : nat) (current_search_url : option string)
    (total_api_calls_for_search : Z) (all_job_items : list search_entry)
  : M (list search_entry * loop_exit) :=
  match current_search_url with
  | None => ret (all_job_items, NoMorePages)
  | Some url =>
      if truthy url then
        match fuel with
        | O => ret (all_job_items, OutOfFuel)
        | S fuel' =>
            let total_api_calls_for_search :=
              total_api_calls_for_search + 1 in
            search_response <- post url ;;
            match search_response with
            | SearchFailed => ret (all_job_items, RequestFailed)
            | NotAnObject => raise AttributeError
            | ResultsNotIterable => raise TypeError
            | LinksNotAnObject reported =>
                log_total (mkpage [] reported None)
                          total_api_calls_for_search ;;
                raise AttributeError
            | Page search_results_data =>
                let all_job_items :=
                  all_job_items ++ results search_results_data in
                log_total search_results_data total_api_calls_for_search ;;
                search_loop fuel' (next_page_url search_results_data)
                            total_api_calls_for_search all_job_items
            end
        end
      else ret (all_job_items, NoMorePages)
  end.

(** Lines 563-683: the skill suggestions first, whose uuids only enter
    the payload of the search, then the search loop. *)
Definition _fetch_careers_future_jobs (fuel : nat) (search_query : string)
  : M (list search_entry * loop_exit) :=
  skills <- post_suggestions careers_future_suggestions_api_url
                             search_query ;;
  match skills with
  | SuggestionsFailed => ret ([], RequestFailed)
  | SkillsNotAnObject => raise AttributeError
  | SkillsNotIterable => raise TypeError
  | Skills skillUuids =>
      search_loop fuel
        (Some (careers_future_search_api_base_url +:+ "?limit=100&page=0"))
        0 []
  end.

(** *** Filtering against the store *)

Definition _get_careers_future_job_company_name (job_item : search_entry)
  : option string :=
  match job_item with
  | NotADict => None
  | Dict j =>
      match item_hiringCompany j with
      | Some (Some name) =>
          if truthy name then Some name
          else
            match item_postedCompany j with
            | Some (Some name') => if truthy name' then Some name' else None
            | _ => None
            end
      | _ =>
          match item_postedCompany j with
          | Some (Some name') => if truthy name' then Some name' else None
          | _ => None
          end
      end
  end.

(** [str(job_item.get('uuid'))]; [str(None)] is ["None"]. *)
Definition str_uuid (j : job_item) : string :=
  match item_uuid j with
  | Some u => u
  | None => "None"
  end.

(** [x.strip().lower()] when [x] is true, else [None]. *)
Definition normalized (x : option string) : option string :=
  match x with
  | Some s => if truthy s then Some (lower (strip s)) else None
  | None => None
  end.

(** One pass of the loop of lines 781-818: the identifier appended to
    [new_job_ids_to_process], or [None] when the item is skipped. *)
Definition new_job_id (job_ids_set_supabase : gset string)
    (company_title_set_supabase : gset (string * string))
    (job_item : search_entry) : option string :=
  match job_item with
  | NotADict => None
  | Dict j =>
      let job_uuid := str_uuid j in
      if truthy job_uuid && bool_decide (job_uuid ∈ job_ids_set_supabase)
      then None
      else
        let normalized_company :=
          normalized (_get_careers_future_job_company_name job_item) in
        let normalized_title := normalized (item_title j) in
        match normalized_company, normalized_title with
        | Some c, Some t =>
            if truthy c && truthy t
               && bool_decide ((c, t) ∈ company_title_set_supabase)
            then None
            else Some job_uuid
        | _, _ => Some job_uuid
        end
  end.

Definition new_job_ids_to_process (careers_future_jobs : list search_entry)
    (job_ids_set_supabase : gset string)
    (company_title_set_supabase : gset (string * string)) : list string :=
  omap (new_job_id job_ids_set_supabase company_title_set_supabase)
       careers_future_jobs.

(** The f-string [api_url]. *)
Definition job_api_url (job_id : string) : string :=
  "https://api.mycareersfuture.gov.sg/v2/jobs/" +:+ job_id.

(** Nothing is requested for an empty identifier. The [except] clauses
    catch the exceptions of [requests] and of the JSON decoding, which
    all end in [return None]; an exception raised by the conversion of
    the description is not among them and leaves the function. *)
Definition _fetch_careers_future_job_details (job_id : string)
  : M (option job_details) :=
  if negb (truthy job_id) then ret None
  else
    response <- get (job_api_url job_id) None ;;
    match response with
    | TransportFailure => ret None
    | Response status_code text =>
        if is_http_error status_code then ret None
        else
          E <- ask ;;
          match decode_job E text with
          | None => ret None
          | Some job_data =>
              let plain_text_description :=
                html2text E (data_description job_data) in
              markdown_description <-
                (if truthy (strip plain_text_description) then
                   markdown <- convert_plain_text_to_markdown_with_ai
                                 plain_text_description ;;
                   ret (Some markdown)
                 else ret None) ;;
              ret (Some (mkdetails
                           (item_uuid (data_fields job_data))
                           (_get_careers_future_job_company_name
                              (Dict (data_fields job_data)))
                           (item_title (data_fields job_data))
                           markdown_description))
          end
    end.

(** [description and description.strip()]. *)
Definition has_description (d : job_details) : bool :=
  match description d with
  | Some s => truthy s && truthy (strip s)
  | None => false
  end.

(** Phase 4 (lines 825-842). *)
Fixpoint fetch_new_details (ids : list string) : M (list job_details) :=
  match ids with
  | [] => ret []
  | id :: rest =>
      details <- _fetch_careers_future_job_details id ;;
      detailed <- fetch_new_details rest ;;
      match details with
      | Some d =>
          if has_description d && bool_decide (is_Some (job_id d))
          then ret (d :: detailed) else ret detailed
      | None => ret detailed
      end
  end.

Definition process_careers_future_query (fuel : nat)
    (search_query : string) : M (list job_details) :=
  found <- _fetch_careers_future_jobs fuel search_query ;;
  match fst found with
  | [] => ret []
  | careers_future_jobs =>
      E <- ask ;;
      let known :=
        match existing_jobs E with
        | Some sets => sets
        | None => (∅, ∅)
        end in
      fetch_new_details
        (new_job_ids_to_process careers_future_jobs (fst known) (snd known))
  end.

(** The comprehension of [process_linkedin_query] (lines 517-520); the
    scraped identifiers are strings already. *)
Definition linkedin_new_job_ids (unique_linkedin_job_ids : list string)
    (job_ids_set : gset string) : list string :=
  filter (λ job_id, job_id ∉ job_ids_set) unique_linkedin_job_ids.

End Scraper.

(* ===================================================================== *)
(** ** [parse_resume_with_ai.py]                                          *)
(* ===================================================================== *)

Module ParseResume.
Import Calendar Runtime.

Definition MAX_REQUESTS_PER_MINUTE : Z := Quota.MAX_REQUESTS_PER_MINUTE.
Definition MAX_REQUESTS_PER_DAY : Z := 19.
Definition QUOTA_STATE_FILE : string := "quota_state.json".

Definition load_quota_state : M Quota.quota_state :=
  Quota.load_quota_state QUOTA_STATE_FILE.

Definition save_quota_state := Quota.save_quota_state QUOTA_STATE_FILE.

Definition check_and_enforce_quota : M bool :=
  Quota.check_and_enforce_quota QUOTA_STATE_FILE MAX_REQUESTS_PER_DAY.

(** Lines 167-179, the decrement in the [except] block. *)
Definition decrement_after_failure : M unit :=
  Quota.decrement_after_failure QUOTA_STATE_FILE.

Definition resume_prompt (resume_text : string) : string :=
  "Extract and return the structured resume information from the text below. Only use what is explicitly stated in the text and do not infer or invent any details.
    Resume text:
    " +:+ resume_text +:+ "
    ".

(** [None] is returned when the quota check refuses; the [except] block
    ends in a bare [raise]. *)
Definition parse_resume_with_ai (resume_text : string)
  : M (option string) :=
  allowed <- check_and_enforce_quota ;;
  if negb allowed then ret None
  else
    try_except
      (response_text <- generate (resume_prompt resume_text) ;;
       ret (Some response_text))
      (fun e =>
         decrement_after_failure ;;
         raise e).

End ParseResume.

(* ===================================================================== *)
(** ** [scraper.py], the guest source                                     *)
(* ===================================================================== *)

From Stdlib Require DecimalString.

Module ScraperGuest.
Import Calendar Runtime.

(** *** Python strings, continued *)

(** [sub in s]. *)
Fixpoint contains (sub s : string) : bool :=
  String.prefix sub s
  || match s with
     | EmptyString => false
     | String _ rest => contains sub rest
     end.

(** [s.split(sep)] for a separator of one character: the pieces between
    the separators, empty ones included. *)
Fixpoint split_chars (sep : ascii) (current : list ascii) (l : list ascii)
  : list string :=
  match l with
  | [] => [string_of_list_ascii (rev current)]
  | c :: rest =>
      if Ascii.eqb c sep
      then string_of_list_ascii (rev current) :: split_chars sep [] rest
      else split_chars sep (c :: current) rest
  end.

Definition split (sep : ascii) (s : string) : list string :=
  split_chars sep [] (list_ascii_of_string s).

(** [s.replace(' ', '%2B')]. *)
Fixpoint replace_spaces (s : string) : string :=
  match s with
  | EmptyString => EmptyString
  | String c rest =>
      if Ascii.eqb c " "%char
      then ("%2B" +:+ replace_spaces rest)%string
      else String c (replace_spaces rest)
  end.

(** [str(n)] for an integer. *)
Definition str_int (n : Z) : string :=
  DecimalString.NilZero.string_of_int (Z.to_int n).

(** *** The listing pages *)

(** An [li] element of a listing page, as the loop looks at it: whether
    it holds a [div] of class [base-card], and the [data-entity-urn]
    attribute of that [div] when it has one. *)
Definition li_element : Type := option (option string).

(** The identifier the loop reads from one element:
    [job_urn.split(":")[3]] when the URN is not empty and holds
    ["jobPosting:"]; [None] when the element is skipped, an [IndexError]
    included. *)
Definition job_id_of (job_element : li_element) : option string :=
  match job_element with
  | Some (Some job_urn) =>
      if truthy job_urn && contains "jobPosting:" job_urn
      then nth_error (split ":"%char job_urn) 3
      else None
  | _ => None
  end.

(** The [for job_element in all_jobs_on_this_page] loop: the list of
    identifiers and the count of those this page added. *)
Fixpoint scan_page (all_jobs_on_this_page : list li_element)
    (job_ids_list : list string) (jobs_found_this_iteration : Z)
  : list string * Z :=
  match all_jobs_on_this_page with
  | [] => (job_ids_list, jobs_found_this_iteration)
  | job_element :: rest =>
      match job_id_of job_element with
      | Some jobid =>
          if bool_decide (jobid ∈ job_ids_list)
          then scan_page rest job_ids_list jobs_found_this_iteration
          else scan_page rest (job_ids_list ++ [jobid])
                         (jobs_found_this_iteration + 1)
      | None => scan_page rest job_ids_list jobs_found_this_iteration
      end
  end.

(** What a posting page gives once [BeautifulSoup] and the selectors of
    [_fetch_linkedin_job_details] have gone over it: each field is the
    result of its chain of selectors, [None] when none matches or one
    raises; the description is the text of the markup [div] with its
    blank lines removed, empty when there is none. *)
Record posting := mkposting {
  posting_company : option string;
  posting_job_title : option string;
  posting_raw_description_text : string
}.

Section Guest.

(** Values of [config.py], which is not part of the sources; the four
    filters are given as the text the f-string makes of them. *)
Variable LINKEDIN_MAX_START : Z.
Variable LINKEDIN_GEO_ID : string.
Variable LINKEDIN_JOB_POSTING_DATE : string.
Variable LINKEDIN_JOB_TYPE : string.
Variable LINKEDIN_F_WT : string.
Variable MAX_RETRIES : Z.
Variable RETRY_DELAY_SECONDS : Z.

(** [BeautifulSoup(res.text, 'html.parser').find_all('li')], with what
    the loop reads of each element. *)
Variable find_all_li : string -> list li_element.

(** The posting page read by the selectors; [None] when building the
    soup raises. *)
Variable read_posting : string -> option posting.

(** The order in which [list(set(ids))] lists the identifiers. *)
Variable list_of_set : list string -> list string.

(** The exception [get_existing_jobs_from_supabase] raises when the
    store fails; [supabase_utils.py] is not part of the sources. *)
Variable store_failure : exn.

(** The f-string [target_url]. *)
Definition target_url (search_query location : string) (start : Z)
  : string :=
  "https://www.linkedin.com/jobs-guest/jobs/api/seeMoreJobPostings/search?keywords="
  +:+ replace_spaces search_query
  +:+ "&location=" +:+ location
  +:+ "&geoId=" +:+ LINKEDIN_GEO_ID
  +:+ "&f_TPR=" +:+ LINKEDIN_JOB_POSTING_DATE
  +:+ "&f_JT=" +:+ LINKEDIN_JOB_TYPE
  +:+ "&f_WT=" +:+ LINKEDIN_F_WT
  +:+ "&start=" +:+ str_int start.

(** [while start <= max_start: ...] (lines 238-329). Each turn adds 10
    to [start], so [fuel] bounds the turns. *)
Fixpoint listing_loop (fuel : nat) (search_query location : string)
    (start : Z) (job_ids_list : list string) : M (list string) :=
  match fuel with
  | O => ret job_ids_list
  | S fuel' =>
      if start <=? LINKEDIN_MAX_START then
        fetched <- Scraper.fetch_with_retries MAX_RETRIES RETRY_DELAY_SECONDS
                     (target_url search_query location start) ;;
        match fst fetched with
        | None => ret job_ids_list
        | Some text =>
            if negb (truthy text) then ret job_ids_list
            else
              match find_all_li text with
              | [] => ret job_ids_list
              | all_jobs_on_this_page =>
                  let scanned :=
                    scan_page all_jobs_on_this_page job_ids_list 0 in
                  if snd scanned =? 0 then ret (fst scanned)
                  else listing_loop fuel' search_query location
                                    (start + 10) (fst scanned)
              end
        end
      else ret job_ids_list
  end.

Definition _fetch_linkedin_job_ids (search_query location : string)
  : M (list string) :=
  listing_loop (Z.to_nat (LINKEDIN_MAX_START / 10 + 1))
               search_query location 0 [].

(** The f-string [job_detail_url]. *)
Definition job_detail_url (job_id : string) : string :=
  "https://www.linkedin.com/jobs-guest/jobs/api/jobPosting/" +:+ job_id.

(** The fetch returns [None] when the request fails; what follows it is
    inside [try: ... except Exception: return None]. *)
Definition _fetch_linkedin_job_details (job_id : string)
  : M (option job_details) :=
  fetched <- Scraper.fetch_with_retries MAX_RETRIES RETRY_DELAY_SECONDS
               (job_detail_url job_id) ;;
  match fst fetched with
  | None => ret None
  | Some text =>
      try_except
        (match read_posting text with
         | None => ret None
         | Some page =>
             let raw_description_text :=
               posting_raw_description_text page in
             description <-
               (if truthy (strip raw_description_text) then
                  markdown <- Scraper.convert_plain_text_to_markdown_with_ai
                                raw_description_text ;;
                  ret (Some markdown)
                else ret None) ;;
             ret (Some (mkdetails (Some job_id) (posting_company page)
                                  (posting_job_title page) description))
         end)
        (fun _ => ret None)
  end.

(** Phase 2 (lines 541-557). *)
Fixpoint fetch_new_details (ids_to_fetch : list string)
  : M (list job_details) :=
  match ids_to_fetch with
  | [] => ret []
  | job_id :: rest =>
      details <- _fetch_linkedin_job_details job_id ;;
      detailed <- fetch_new_details rest ;;
      match details with
      | Some d =>
          if Scraper.has_description d
             && bool_decide (is_Some (Runtime.job_id d))
          then ret (d :: detailed) else ret detailed
      | None => ret detailed
      end
  end.

Definition process_linkedin_query (search_query location : string)
  : M (list job_details) :=
  scraped_job_ids <- _fetch_linkedin_job_ids search_query location ;;
  match scraped_job_ids with
  | [] => ret []
  | _ :: _ =>
      let unique_linkedin_job_ids := list_of_set scraped_job_ids in
      E <- ask ;;
      match existing_jobs E with
      | None => raise store_failure
      | Some (job_ids_set, company_title_set) =>
          let new_job_ids_to_process :=
            Scraper.linkedin_new_job_ids unique_linkedin_job_ids
                                         job_ids_set in
          match new_job_ids_to_process with
          | [] => ret []
          | _ :: _ => fetch_new_details new_job_ids_to_process
          end
      end
  end.

End Guest.

End ScraperGuest.

(* ===================================================================== *)
(** ** [resume_parser.py]                                                 *)
(* ===================================================================== *)

Module ResumeParser.
Import Calendar Runtime.

(** [extract_text_from_pdf], on the pages of the opened PDF, each given
    by what [page.extract_text()] returns for it: adding ["\n"] to
    [None] raises. *)
Fixpoint extract_text (text : string) (pages : list (option string))
  : outcome string :=
  match pages with
  | [] => Returned text
  | Some page_text :: rest =>
      extract_text (text +:+ page_text +:+ String "010"%char EmptyString)
                   rest
  | None :: _ => Raised TypeError
  end.

Definition extract_text_from_pdf (pages : list (option string))
  : outcome string :=
  extract_text ""%string pages.

Section Main.

(** The type of decoded resumes, and [json.loads]: [None] stands for
    [JSONDecodeError]. *)
Variable resume : Type.
Variable json_loads : string -> option resume.

(** [main]: the resume handed to [save_resume_to_supabase], [None] when
    the function returns before saving. *)
Definition main (pages : list (option string)) : M (option resume) :=
  resume_text <- lift (extract_text_from_pdf pages) ;;
  if negb (truthy resume_text) then ret None
  else
    parsed_resume_details_str <-
      ParseResume.parse_resume_with_ai resume_text ;;
    match parsed_resume_details_str with
    | None => ret None
    | Some answer =>
        if negb (truthy answer) then ret None
        else
          match json_loads answer with
          | None => ret None
          | Some resume_data_dict => ret (Some resume_data_dict)
          end
    end.

End Main.

End ResumeParser.

(* ===================================================================== *)
(** ** Observations used to state the properties                          *)
(* ===================================================================== *)

Module Views.
Import Calendar Runtime.

(** The world after one reading of the clock and nothing else. *)
Definition tick (w : world) : world :=
  mkworld (fs w) (S (reads w)) (writes w) (calls w) (requests w)
          (draws w) (trace w).

(** The world after one text-generation call with [prompt]. *)
Definition called (prompt : string) (w : world) : world :=
  mkworld (fs w) (reads w) (writes w) (S (calls w)) (requests w)
          (draws w) (trace w ++ [Generated prompt]).

(** The daily count found in the state file; no loadable file counts as
    zero, as [load_quota_state] has it. *)
Definition persisted_count (name : string) (w : world) : Z :=
  match fs w !! name with
  | Some (Json j) => st_daily_request_count j
  | _ => 0
  end.

(** The file [save_quota_state] writes for a state. *)
Definition saved (count : Z) (reset_date : option date)
    (timestamps : list datetime) : content :=
  Json (mkstored count (option_map date_isoformat reset_date)
                 (map datetime_isoformat timestamps)).

(** The world after an attempt to write [c] under [name]. *)
Definition wrote (name : string) (c : content) (E : env) (w : world)
  : world :=
  mkworld (if disk_writable E (writes w) then <[name := c]> (fs w)
           else fs w)
          (reads w) (S (writes w)) (calls w) (requests w) (draws w)
          (trace w).

(** The world after [n] successive calls of the scraper's check, whatever
    each of them returns or raises. *)
Fixpoint successive_checks (n : nat) (E : env) (w : world) : world :=
  match n with
  | O => w
  | S k => successive_checks k E (snd (Scraper.check_and_enforce_quota E w))
  end.

(** The sleeps recorded in a trace. *)
Definition sleeps (tr : list event) : list Z :=
  omap (fun ev => match ev with Slept d => Some d | _ => None end) tr.

(** The totals logged in a trace. *)
Definition logged_totals (tr : list event) : list Z :=
  omap (fun ev => match ev with LoggedTotal n => Some n | _ => None end) tr.

(** The URLs posted to, in order. *)
Definition posted (tr : list event) : list string :=
  omap (fun ev => match ev with Posted u => Some u | _ => None end) tr.

(** The URLs of the GET requests sent, in order. *)
Definition requested (tr : list event) : list string :=
  omap (fun ev => match ev with Requested u _ => Some u | _ => None end) tr.

(** A computation that sends no GET request. *)
Definition sends_no_request {A} (m : M A) : Prop :=
  forall (E : env) (w : world),
    requested (trace (snd (m E w))) = requested (trace w).

(** A search page with another reported total, and a server that
    reports [f] of each total it would have reported. *)
Definition with_total (n : option Z) (p : search_page) : search_page :=
  mkpage (results p) n (_links p).

Definition retotal (f : nat -> option Z -> option Z) (E : env) : env :=
  mkenv (clock E) (disk_writable E) (generate_content E) (http_get E)
        (fun k url =>
           match search_post E k url with
           | Page p => Page (with_total (f k (total p)) p)
           | LinksNotAnObject reported => LinksNotAnObject (f k reported)
           | other => other
           end)
        (skill_suggestions E) (decode_job E) (html2text E) (existing_jobs E)
        (random_uniform E) (random_choice E).

(** Timestamps that pass the range checks of [datetime]. *)
Definition all_valid (l : list datetime) : Prop :=
  Forall (fun t => valid_datetime t = true) l.

(** A reset date that passes the range checks of [date], or none. *)
Definition valid_reset (d : option date) : Prop :=
  match d with
  | Some x => valid_date x = true
  | None => True
  end.

(** Worlds that differ in the clock readings taken and in the trace
    only. *)
Definition same_store (w w' : world) : Prop :=
  fs w' = fs w /\ writes w' = writes w /\ calls w' = calls w
  /\ requests w' = requests w /\ draws w' = draws w.

(** The world after the POST of one turn of the search loop. *)
Definition after_post (url : string) (w : world) : world :=
  mkworld (fs w) (reads w) (writes w) (calls w) (S (requests w)) (draws w)
          (trace w ++ [Posted url]).

(** A normalized company or title the pair check can use. *)
Definition usable (x : option string) : bool :=
  match x with
  | Some s => truthy s
  | None => false
  end.



End Views.

(* ===================================================================== *)
(** ** Concrete runs                                                      *)
(* ===================================================================== *)

Module Scenario.
Import Calendar Runtime Views.

Definition today : date := mkdate 2025 1 15.

(** A clock that advances twenty seconds at each reading, from noon. *)
Definition noon_clock (k : nat) : datetime :=
  let s := 20 * Z.of_nat k in
  mkdatetime today 12 (s / 60 mod 60) (s mod 60) 0.

(** An outside where the disk accepts writes when [disk] says so, the
    text generation answers [answer], every GET is answered [reply] and
    every search POST [found]; the skill suggestions come back
    without any skill; the body of a detail response is read as the
    job it names, with that body as description. *)
Definition outside (disk : nat -> bool) (answer : option string)
    (reply : nat -> http_result) (found : nat -> search_result)
    (known : option (gset string * gset (string * string))) : env :=
  mkenv noon_clock disk (fun _ _ => answer) (fun k _ => reply k)
        (fun k _ => found k) (fun _ _ => Skills [])
        (fun body =>
           Some (mkdata (mkitem (Some body) (Some "Engineer"%string)
                                (Some (Some "Initech"%string)) None)
                        body))
        (fun html => html)
        known (fun _ => 0) (fun _ => 0%nat).

(** The text generation fails; the disk is writable. *)
Definition failing_service : env :=
  outside (fun _ => true) None (fun _ => TransportFailure)
          (fun _ => SearchFailed) None.


(** The text generation fails; the first write of the state file fails
    and the later ones succeed. *)
Definition failing_service_late_disk : env :=
  outside (fun k => negb (Nat.eqb k 0)) None (fun _ => TransportFailure)
          (fun _ => SearchFailed) None.

(** Every GET is answered 429. *)
Definition throttled : env :=
  outside (fun _ => true) None (fun _ => Response 429 ""%string)
          (fun _ => SearchFailed) None.

(** Every GET is answered 404. *)
Definition not_found : env :=
  outside (fun _ => true) None (fun _ => Response 404 ""%string)
          (fun _ => SearchFailed) None.

Definition first_page_url : string :=
  "https://api.mycareersfuture.gov.sg/v2/search?limit=100&page=0".

Definition second_page_url : string :=
  "https://api.mycareersfuture.gov.sg/v2/search?limit=100&page=1".

(** A board search of two pages: the first reports a total of 250 and
    links to the second, the second reports 999 and links nowhere. *)
Definition two_pages : env :=
  let base :=
    outside (fun _ => true) None (fun _ => TransportFailure)
            (fun _ => SearchFailed)
            (Some ({[ "A"%string; "B"%string ]}, ∅)) in
  mkenv (clock base) (disk_writable base) (generate_content base)
        (http_get base)
        (fun _ url =>
           if String.eqb url first_page_url then
             Page (mkpage
                     [Dict (mkitem (Some "C"%string) (Some "Welder"%string)
                                   None None)]
                     (Some 250)
                     (Some (mklinks (Some (mknext (Some second_page_url))))))
           else
             Page (mkpage
                     [Dict (mkitem (Some "D"%string) None
                                   (Some (Some "Initech"%string)) None)]
                     (Some 999) None))
        (skill_suggestions base) (decode_job base) (html2text base)
        (existing_jobs base) (random_uniform base) (random_choice base).

(** The same board search, with every GET answered 200 and a body
    naming job C; the text generation answers [answer]. *)
Definition two_pages_served (answer : option string) : env :=
  mkenv (clock two_pages) (disk_writable two_pages) (fun _ _ => answer)
        (fun _ _ => Response 200 "C"%string) (search_post two_pages)
        (skill_suggestions two_pages) (decode_job two_pages)
        (html2text two_pages) (existing_jobs two_pages)
        (random_uniform two_pages) (random_choice two_pages).





Definition no_files : world := mkworld ∅ 0 0 0 0 0 [].

(** A world whose only file is the quota state [c]. *)
Definition with_state (c : content) : world :=
  mkworld {[ Scraper.QUOTA_STATE_FILE := c ]} 0 0 0 0 0 [].

(** A guest listing page with the postings 101, 102 and 103, whatever
    the response text. *)
Definition three_postings (text : string) : list ScraperGuest.li_element :=
  [Some (Some "urn:li:jobPosting:101"%string); None;
   Some (Some "urn:li:jobPosting:102"%string);
   Some (Some "urn:li:jobPosting:103"%string)].

(** Every posting page reads as a job of Initech described by the
    response text. *)
Definition posting_of (text : string) : option ScraperGuest.posting :=
  Some (ScraperGuest.mkposting (Some "Initech"%string)
                               (Some "Welder"%string) text).

(** The store knows 101; the request for the posting 102 fails, every
    other GET is answered 200; the text generation answers. *)
Definition guest_run : env :=
  mkenv noon_clock (fun _ => true) (fun _ _ => Some "**Welder**"%string)
        (fun _ url =>
           if String.eqb url (ScraperGuest.job_detail_url "102")
           then TransportFailure
           else Response 200 "We weld."%string)
        (fun _ _ => SearchFailed) (fun _ _ => Skills [])
        (fun _ => None) (fun html => html)
        (Some ({[ "101"%string ]}, ∅))
        (fun _ => 0) (fun _ => 0%nat).

End Scenario.

(* ===================================================================== *)
(** ** Further observations                                               *)
(* ===================================================================== *)

Module MoreViews.
Import Calendar Runtime Views.

(** A sleep of a positive duration. *)
Definition positive_sleep (ev : event) : Prop :=
  exists d, ev = Slept d /\ 0 < d.

(** The four operations the two modules run on the shared state file. *)
Inductive ledger_op :=
| ScraperCheck      (* [check_and_enforce_quota] of [scraper.py] *)
| ScraperRelease    (* the [except] block of [scraper.py] *)
| ResumeCheck       (* [check_and_enforce_quota] of the resume parser *)
| ResumeRelease.    (* the [except] block of the resume parser *)

Definition ledger_step (op : ledger_op) (E : env) (w : world) : world :=
  match op with
  | ScraperCheck => snd (Scraper.check_and_enforce_quota E w)
  | ScraperRelease => snd (Scraper.decrement_after_failure E w)
  | ResumeCheck => snd (ParseResume.check_and_enforce_quota E w)
  | ResumeRelease => snd (ParseResume.decrement_after_failure E w)
  end.

(** The world after a sequence of such operations, in any order,
    whatever each returns or raises. *)
Fixpoint ledger_run (ops : list ledger_op) (E : env) (w : world) : world :=
  match ops with
  | [] => w
  | op :: rest => ledger_run rest E (ledger_step op E w)
  end.

(** The world after one GET request. *)
Definition after_get (url : string) (agent : option nat) (w : world)
  : world :=
  mkworld (fs w) (reads w) (writes w) (calls w) (S (requests w)) (draws w)
          (trace w ++ [Requested url agent]).





End MoreViews.

(* ===================================================================== *)
(** ** ISO text of dates and datetimes reads back                         *)
(* ===================================================================== *)

Module CalendarFacts.
Import Calendar.

(** Case analysis on the scrutinee of a match or an [if] in a hypothesis
    or in the goal. *)
Ltac break_match_hyp H :=
  match type of H with
  | context [match ?x with _ => _ end] =>
      let Heq := fresh "Hm" in destruct x eqn:Heq
  end.

Ltac break_match_goal :=
  match goal with
  | |- context [match ?x with _ => _ end] =>
      let Heq := fresh "Hm" in destruct x eqn:Heq
  end.

(** Linear arithmetic with division and remainder by constants. *)
Ltac dlia := Z.div_mod_to_equations; lia.

Lemma digit_val_digit (k : Z) :
  0 <= k <= 9 -> digit_val (digit k) = Some k.
Proof.
  intros Hk.
  assert (k = 0 \/ k = 1 \/ k = 2 \/ k = 3 \/ k = 4 \/ k = 5 \/ k = 6
          \/ k = 7 \/ k = 8 \/ k = 9) as Hcases by lia.
  repeat (destruct Hcases as [-> | Hcases]; [reflexivity |]).
  subst k. reflexivity.
Qed.

Lemma number2 (n : Z) :
  0 <= n < 100 -> number [digit (n / 10); digit (n mod 10)] = Some n.
Proof.
  intros Hn. unfold number. cbn [number_from].
  rewrite digit_val_digit by dlia.
  rewrite digit_val_digit by dlia.
  f_equal. dlia.
Qed.

Lemma number4 (n : Z) :
  0 <= n < 10000 ->
  number [digit (n / 1000); digit (n / 100 mod 10);
          digit (n / 10 mod 10); digit (n mod 10)] = Some n.
Proof.
  intros Hn. unfold number. cbn [number_from].
  rewrite digit_val_digit by dlia.
  rewrite digit_val_digit by dlia.
  rewrite digit_val_digit by dlia.
  rewrite digit_val_digit by dlia.
  f_equal. dlia.
Qed.

Lemma number6 (n : Z) :
  0 <= n < 1000000 ->
  number [digit (n / 100000); digit (n / 10000 mod 10);
          digit (n / 1000 mod 10); digit (n / 100 mod 10);
          digit (n / 10 mod 10); digit (n mod 10)] = Some n.
Proof.
  intros Hn. unfold number. cbn [number_from].
  do 6 (rewrite digit_val_digit by dlia).
  f_equal. dlia.
Qed.

Lemma days_in_month_le (y m : Z) : days_in_month y m <= 31.
Proof.
  unfold days_in_month.
  repeat (break_match_goal; try lia).
Qed.

Lemma valid_date_bounds (d : date) :
  valid_date d = true ->
  1 <= year d <= 9999 /\ 1 <= month d <= 12 /\ 1 <= day d <= 31.
Proof.
  unfold valid_date. intros H.
  pose proof (days_in_month_le (year d) (month d)).
  lia.
Qed.

Lemma valid_time_bounds (h m s us : Z) :
  valid_time h m s us = true ->
  0 <= h < 24 /\ 0 <= m < 60 /\ 0 <= s < 60 /\ 0 <= us < 1000000.
Proof. unfold valid_time. lia. Qed.

(** The date at the head of an ISO text is read back, whatever follows. *)
Lemma parse_date_part_chars (d : date) (rest : list ascii) :
  valid_date d = true ->
  parse_date_part (date_chars d ++ rest) = Some (d, rest).
Proof.
  intros Hv. destruct (valid_date_bounds d Hv) as (Hy & Hm & Hd).
  destruct d as [y m dd]; cbn [year month day] in *.
  unfold date_chars, pad4, pad2; cbn [year month day app].
  unfold parse_date_part.
  change (Ascii.eqb dash dash) with true. cbn [andb].
  rewrite number4 by lia. rewrite !number2 by lia.
  rewrite Hv. reflexivity.
Qed.

Lemma parse_date_part_valid (l rest : list ascii) (d : date) :
  parse_date_part l = Some (d, rest) -> valid_date d = true.
Proof.
  unfold parse_date_part. intros H.
  repeat (break_match_hyp H; try discriminate).
  congruence.
Qed.

Lemma parse_time_part_valid (l : list ascii) (h m s us : Z) :
  parse_time_part l = Some (h, m, s, us) -> valid_time h m s us = true.
Proof.
  unfold parse_time_part. intros H.
  repeat (break_match_hyp H; try discriminate); congruence.
Qed.

(** [datetime.fromisoformat] only builds datetimes that pass the range
    checks. *)
Lemma datetime_fromisoformat_valid (s : string) (t : datetime) :
  datetime_fromisoformat s = Some t -> valid_datetime t = true.
Proof.
  unfold datetime_fromisoformat. intros H.
  destruct (parse_date_part (list_ascii_of_string s)) as [[d r]|] eqn:Hd;
    [|discriminate].
  apply parse_date_part_valid in Hd.
  destruct r as [|c time].
  - injection H as <-. unfold valid_datetime. cbn. rewrite Hd. reflexivity.
  - destruct (parse_time_part time) as [[[[h m] sec] us]|] eqn:Ht;
      [|discriminate].
    apply parse_time_part_valid in Ht.
    injection H as <-. unfold valid_datetime. cbn. rewrite Hd, Ht.
    reflexivity.
Qed.

(** [datetime.fromisoformat(t.isoformat()) == t]. *)
Lemma datetime_roundtrip (t : datetime) :
  valid_datetime t = true ->
  datetime_fromisoformat (datetime_isoformat t) = Some t.
Proof.
  unfold valid_datetime. intros Hv.
  apply andb_true_iff in Hv as [Hd Ht].
  destruct (valid_time_bounds _ _ _ _ Ht) as (Hh & Hm & Hs & Hus).
  unfold datetime_fromisoformat, datetime_isoformat.
  rewrite list_ascii_of_string_of_list_ascii.
  unfold datetime_chars. rewrite parse_date_part_chars by exact Hd.
  destruct t as [d h m s us]; cbn [dt_date hour minute second microsecond] in *.
  unfold pad2; cbn [app].
  unfold parse_time_part.
  change (Ascii.eqb colon colon) with true. cbn [andb].
  rewrite !number2 by lia.
  destruct (us =? 0) eqn:Hz.
  - apply Z.eqb_eq in Hz. subst us. cbn [parse_fraction].
    rewrite Ht. reflexivity.
  - unfold pad6, parse_fraction.
    change (Ascii.eqb dot dot) with true. cbn iota.
    rewrite number6 by lia. rewrite Ht. reflexivity.
Qed.

(** [datetime.fromisoformat(d.isoformat()).date() == d]. *)
Lemma date_roundtrip (d : date) :
  valid_date d = true ->
  datetime_fromisoformat (date_isoformat d) = Some (mkdatetime d 0 0 0 0).
Proof.
  intros Hv. unfold datetime_fromisoformat, date_isoformat.
  rewrite list_ascii_of_string_of_list_ascii.
  rewrite <- (app_nil_r (date_chars d)).
  rewrite parse_date_part_chars by exact Hv. reflexivity.
Qed.

Lemma date_isoformat_truthy (d : date) :
  Runtime.truthy (date_isoformat d) = true.
Proof. reflexivity. Qed.

End CalendarFacts.

(* ===================================================================== *)
(** ** The quota ledger                                                   *)
(* ===================================================================== *)

Module QuotaFacts.
Import Calendar Runtime Quota Views CalendarFacts.

(** Texts written by [isoformat] convert back, in order. *)
Lemma comprehension_isoformat (tss : list datetime) :
  all_valid tss ->
  comprehension (fun ts => fromisoformat (PyStr ts))
                (map datetime_isoformat tss) = Returned tss.
Proof.
  induction 1 as [|t r Ht _ IH]; [reflexivity|].
  cbn [map comprehension]. unfold fromisoformat at 1.
  rewrite datetime_roundtrip by exact Ht. rewrite IH. reflexivity.
Qed.

Lemma comprehension_valid (l : list string) (tss : list datetime) :
  comprehension (fun ts => fromisoformat (PyStr ts)) l = Returned tss ->
  all_valid tss.
Proof.
  revert tss. induction l as [|s r IH]; intros tss H; cbn in H.
  - injection H as <-. constructor.
  - destruct (datetime_fromisoformat s) as [t|] eqn:Hs; [|discriminate].
    destruct (comprehension _ r) as [ys|] eqn:Hr; [|discriminate].
    injection H as <-. constructor.
    + eapply datetime_fromisoformat_valid; eassumption.
    + apply IH. reflexivity.
Qed.

(** Converting [datetime] objects with [fromisoformat] raises as soon as
    there is one. *)
Lemma comprehension_datetime (l : list datetime) :
  comprehension (fun ts => fromisoformat (PyDatetime ts)) l
  = match l with [] => Returned [] | _ :: _ => Raised TypeError end.
Proof. destruct l; reflexivity. Qed.

Lemma decode_saved (count : Z) (d : option date) (tss : list datetime) :
  all_valid tss ->
  decode_state (Some (saved count d tss))
  = mkstate count (option_map date_isoformat d) tss.
Proof.
  intros Hv. unfold decode_state, saved. cbn.
  rewrite comprehension_isoformat by exact Hv. reflexivity.
Qed.

Lemma decode_valid (f : option content) :
  all_valid (request_timestamps (decode_state f)).
Proof.
  destruct f as [[|j]|]; cbn; try constructor.
  destruct (comprehension _ _) eqn:Hc; cbn; [|constructor].
  eapply comprehension_valid; eassumption.
Qed.

Lemma load_eq (F : string) (E : env) (w : world) :
  load_quota_state F E w = (Returned (decode_state (fs w !! F)), w).
Proof. reflexivity. Qed.

Lemma prune_valid (t : datetime) (l : list datetime) :
  all_valid l -> all_valid (prune t l).
Proof.
  unfold all_valid, prune. rewrite !List.Forall_forall.
  intros H x Hx. apply List.filter_In in Hx as [Hx _]. auto.
Qed.

Lemma same_store_refl (w : world) : same_store w w.
Proof. repeat split. Qed.

Lemma same_store_tick (w : world) : same_store w (tick w).
Proof. repeat split. Qed.

Lemma same_store_trans (a b c : world) :
  same_store a b -> same_store b c -> same_store a c.
Proof. unfold same_store. intuition congruence. Qed.

(** Each of the two waits returns a clock reading or the time it was
    given, and leaves the store alone. *)
Lemma enforce_rpm_spec (t : datetime) (ts : list datetime) (E : env)
    (w : world) :
  exists t' w',
    enforce_rpm t ts E w = (Returned t', w')
    /\ same_store w w'
    /\ (t' = t /\ trace w' = trace w \/ exists k, t' = clock E k).
Proof.
  unfold enforce_rpm.
  destruct (MAX_REQUESTS_PER_MINUTE <=? Z.of_nat (length ts)) eqn:Hlen.
  - destruct ts as [|t0 r]; [discriminate|].
    unfold bind, lift, oldest_request.
    destruct (0 <? _).
    + eexists _, _. split; [reflexivity|].
      split; [repeat split|]. right. eexists. reflexivity.
    + eexists _, _. split; [reflexivity|].
      split; [apply same_store_refl|]. left. split; reflexivity.
  - eexists _, _. split; [reflexivity|].
    split; [apply same_store_refl|]. left. split; reflexivity.
Qed.

Lemma enforce_spacing_spec (t : datetime) (ts : list datetime) (E : env)
    (w : world) :
  exists t' w',
    enforce_spacing t ts E w = (Returned t', w')
    /\ same_store w w'
    /\ (t' = t /\ trace w' = trace w \/ exists k, t' = clock E k).
Proof.
  unfold enforce_spacing.
  destruct ts as [|t0 r].
  - eexists _, _. split; [reflexivity|].
    split; [apply same_store_refl|]. left. split; reflexivity.
  - unfold bind, lift, last_request.
    destruct (_ <? SECONDS_BETWEEN_REQUESTS).
    + eexists _, _. split; [reflexivity|].
      split; [repeat split|]. right. eexists. reflexivity.
    + eexists _, _. split; [reflexivity|].
      split; [apply same_store_refl|]. left. split; reflexivity.
Qed.

(** What one call of the check does, by the state it loads. *)
Lemma check_cases (F : string) (MAX : Z) (E : env) (w : world) :
  let st := decode_state (fs w !! F) in
  match parse_reset_date (daily_reset_date st) with
  | Raised e => check_and_enforce_quota F MAX E w = (Raised e, w)
  | Returned reset =>
      match reset_if_new_day (clock E (reads w)) (daily_request_count st)
                             reset (request_timestamps st) with
      | Raised e => check_and_enforce_quota F MAX E w = (Raised e, tick w)
      | Returned (count, d, ts) =>
          if MAX <=? count
          then check_and_enforce_quota F MAX E w = (Returned false, tick w)
          else
            exists t w',
              check_and_enforce_quota F MAX E w = (Returned true, w')
              /\ (exists k, t = clock E k)
              /\ fs w' =
                   (if disk_writable E (writes w)
                    then <[F := saved (count + 1) (Some d)
                                      (prune (clock E (reads w)) ts ++ [t])]>
                           (fs w)
                    else fs w)
              /\ writes w' = S (writes w)
              /\ calls w' = calls w
              /\ requests w' = requests w
              /\ draws w' = draws w
      end
  end.
Proof.
  intros st.
  unfold check_and_enforce_quota, load_quota_state, read_file.
  unfold bind, lift, now, ret. fold st.
  destruct (parse_reset_date (daily_reset_date st)) as [reset|e];
    [|reflexivity].
  destruct (reset_if_new_day _ _ reset _) as [[[count d] ts]|e];
    [|reflexivity].
  destruct (MAX <=? count); [reflexivity|].
  match goal with
  | |- context [enforce_rpm ?t ?l ?E ?w0] =>
      destruct (enforce_rpm_spec t l E w0) as (t1 & w1 & Heq1 & Hs1 & Ht1)
  end.
  match goal with
  | |- context [enforce_spacing _ ?l ?E _] =>
      destruct (enforce_spacing_spec t1 l E w1)
        as (t2 & w2 & Heq2 & Hs2 & Ht2)
  end.
  pose proof (same_store_trans _ _ _ Hs1 Hs2) as (Hfs & Hwr & Hca & Hre & Hdr).
  cbn in Hfs, Hwr, Hca, Hre, Hdr.
  eexists t2, _. split.
  { rewrite Heq1, Heq2. unfold save_quota_state, write_file, bind, ret.
    reflexivity. }
  split.
  { destruct Ht2 as [[-> _]|Hk]; [|exact Hk].
    destruct Ht1 as [[-> _]|Hk]; [|exact Hk]. eexists. reflexivity. }
  cbn. rewrite Hfs, Hwr, Hca, Hre, Hdr.
  repeat split; reflexivity.
Qed.

(** What the failure-path decrement does, by the state it loads. *)
Lemma decrement_cases (F : string) (E : env) (w : world) :
  let st := decode_state (fs w !! F) in
  decrement_after_failure F E w =
  match reparse_reset_date (daily_reset_date st) with
  | Raised e => (Raised e, w)
  | Returned d =>
      match request_timestamps st with
      | [] =>
          (Returned tt,
           wrote F (saved (Z.max 0 (daily_request_count st - 1)) d []) E w)
      | _ :: _ => (Raised TypeError, w)
      end
  end.
Proof.
  intros st.
  unfold decrement_after_failure, load_quota_state, read_file.
  unfold bind, lift, ret. fold st.
  destruct (reparse_reset_date (daily_reset_date st)) as [d|e];
    [|reflexivity].
  rewrite comprehension_datetime.
  destruct (request_timestamps st); reflexivity.
Qed.

Lemma valid_datetime_date (t : datetime) :
  valid_datetime t = true -> valid_date (dt_date t) = true.
Proof. unfold valid_datetime. intros H. apply andb_true_iff in H. tauto. Qed.

Lemma parse_reset_date_valid (text : option string) (d : date) :
  parse_reset_date text = Returned (ResetDate d) -> valid_date d = true.
Proof.
  destruct text as [s|]; cbn; [|discriminate].
  destruct (truthy s); [|discriminate].
  destruct (datetime_fromisoformat s) as [t|] eqn:Ht; [|discriminate].
  intros [= <-]. apply valid_datetime_date.
  eapply datetime_fromisoformat_valid; eassumption.
Qed.

(** The date and timestamps the check goes on with are well formed when
    the clock is. *)
Lemma reset_if_new_day_valid (now0 : datetime) (count c : Z)
    (text : option string) (reset : reset_value) (l ts : list datetime)
    (d : date) :
  valid_datetime now0 = true ->
  all_valid l ->
  parse_reset_date text = Returned reset ->
  reset_if_new_day now0 count reset l = Returned (c, d, ts) ->
  valid_date d = true /\ all_valid ts.
Proof.
  intros Hnow Hl Hp Hr. destruct reset as [|d0|s]; cbn in Hr.
  - injection Hr as <- <- <-. split; [|constructor].
    apply valid_datetime_date, Hnow.
  - destruct (date_gtb _ _); injection Hr as <- <- <-.
    + split; [|constructor]. apply valid_datetime_date, Hnow.
    + split; [|exact Hl]. eapply parse_reset_date_valid; eassumption.
  - discriminate.
Qed.

Lemma reparse_isoformat (d : option date) :
  match d with Some x => valid_date x = true | None => True end ->
  reparse_reset_date (option_map date_isoformat d) = Returned d.
Proof.
  destruct d as [x|]; [|reflexivity].
  intros Hv. unfold reparse_reset_date, fromisoformat. cbn [option_map].
  rewrite date_isoformat_truthy.
  rewrite date_roundtrip by exact Hv. reflexivity.
Qed.

(** After a call that was admitted and saved, the decrement finds the
    timestamp of that call as a [datetime] object, raises on it and
    writes nothing. *)
Lemma decrement_after_grant (F : string) (MAX : Z) (E : env)
    (w w' : world) :
  (forall k, valid_datetime (clock E k) = true) ->
  disk_writable E (writes w) = true ->
  check_and_enforce_quota F MAX E w = (Returned true, w') ->
  decrement_after_failure F E w' = (Raised TypeError, w')
  /\ request_timestamps (decode_state (fs w' !! F)) <> [].
Proof.
  intros Hclock Hdisk Hcheck.
  pose proof (check_cases F MAX E w) as Hc. cbn zeta in Hc.
  destruct (parse_reset_date _) as [reset|e] eqn:Hp; [|congruence].
  destruct (reset_if_new_day _ _ reset _) as [[[count d] ts]|e] eqn:Hr;
    [|congruence].
  destruct (MAX <=? count); [congruence|].
  destruct Hc as (t & w1 & Heq & [k ->] & Hfs & _).
  assert (w1 = w') as -> by congruence.
  rewrite Hdisk in Hfs.
  destruct (reset_if_new_day_valid _ _ _ _ _ _ _ _ (Hclock _)
              (decode_valid _) Hp Hr) as [Hd Hts].
  assert (all_valid (prune (clock E (reads w)) ts ++ [clock E k])) as Hall.
  { apply Forall_app. split; [apply prune_valid, Hts|].
    constructor; [apply Hclock|constructor]. }
  assert (decode_state (fs w' !! F)
          = mkstate (count + 1) (Some (date_isoformat d))
                    (prune (clock E (reads w)) ts ++ [clock E k])) as Hst.
  { rewrite Hfs, lookup_insert_eq. apply (decode_saved _ (Some d)), Hall. }
  rewrite decrement_cases. cbn zeta. rewrite Hst.
  cbn [daily_reset_date request_timestamps daily_request_count].
  pose proof (reparse_isoformat (Some d) Hd) as Hre.
  cbn [option_map] in Hre. rewrite Hre.
  destruct (prune (clock E (reads w)) ts); cbn; split;
    (reflexivity || discriminate).
Qed.

End QuotaFacts.

(* ===================================================================== *)
(** ** Which computations send requests                                   *)
(* ===================================================================== *)

Module TraceFacts.
Import Calendar Runtime Quota Views.

Lemma requested_app (a b : list event) :
  requested (a ++ b) = requested a ++ requested b.
Proof. unfold requested. apply omap_app. Qed.

Lemma quiet_ret {A} (a : A) : sends_no_request (ret a).
Proof. intros E w. reflexivity. Qed.

Lemma quiet_raise {A} (e : exn) : sends_no_request (@raise A e).
Proof. intros E w. reflexivity. Qed.

Lemma quiet_lift {A} (o : outcome A) : sends_no_request (lift o).
Proof. intros E w. reflexivity. Qed.

Lemma quiet_ask : sends_no_request ask.
Proof. intros E w. reflexivity. Qed.

Lemma quiet_now : sends_no_request now.
Proof. intros E w. reflexivity. Qed.

Lemma quiet_sleep (d : Z) : sends_no_request (sleep d).
Proof.
  intros E w. unfold sleep, emit. cbn. rewrite requested_app. cbn.
  apply app_nil_r.
Qed.

Lemma quiet_read_file (name : string) : sends_no_request (read_file name).
Proof. intros E w. reflexivity. Qed.

Lemma quiet_write_file (name : string) (j : stored) :
  sends_no_request (write_file name j).
Proof. intros E w. reflexivity. Qed.

Lemma quiet_generate (prompt : string) : sends_no_request (generate prompt).
Proof.
  intros E w. unfold generate.
  destruct (generate_content E (calls w) prompt); cbn;
    rewrite requested_app; cbn; apply app_nil_r.
Qed.

Lemma quiet_bind {A B} (m : M A) (k : A -> M B) :
  sends_no_request m -> (forall a, sends_no_request (k a)) ->
  sends_no_request (bind m k).
Proof.
  intros Hm Hk E w. unfold bind. specialize (Hm E w).
  destruct (m E w) as [[a|e] w1]; cbn [snd] in *.
  - rewrite Hk. exact Hm.
  - exact Hm.
Qed.

Lemma quiet_try_except {A} (body : M A) (handler : exn -> M A) :
  sends_no_request body -> (forall e, sends_no_request (handler e)) ->
  sends_no_request (try_except body handler).
Proof.
  intros Hb Hh E w. unfold try_except. specialize (Hb E w).
  destruct (body E w) as [[a|e] w1]; cbn [snd] in *.
  - exact Hb.
  - rewrite Hh. exact Hb.
Qed.

Create HintDb quiet.
#[export] Hint Resolve quiet_ret quiet_raise quiet_lift quiet_ask quiet_now
  quiet_sleep quiet_read_file quiet_write_file quiet_generate : quiet.

(** Splits a computation along its binds and branches. *)
Ltac quiet :=
  repeat first
    [ progress auto with quiet
    | apply quiet_bind; [|intros]
    | apply quiet_try_except; [|intros]
    | match goal with
      | |- sends_no_request (if ?b then _ else _) => destruct b
      | |- sends_no_request (match ?x with _ => _ end) => destruct x
      | |- sends_no_request (let '(_, _) := ?x in _) => destruct x
      end ].

Lemma quiet_load (F : string) : sends_no_request (load_quota_state F).
Proof. unfold load_quota_state. quiet. Qed.

Lemma quiet_save (F : string) (count : Z) (d : option date)
    (ts : list datetime) :
  sends_no_request (save_quota_state F count d ts).
Proof. unfold save_quota_state. quiet. Qed.

Lemma quiet_enforce_rpm (t : datetime) (ts : list datetime) :
  sends_no_request (enforce_rpm t ts).
Proof. unfold enforce_rpm. quiet. Qed.

Lemma quiet_enforce_spacing (t : datetime) (ts : list datetime) :
  sends_no_request (enforce_spacing t ts).
Proof. unfold enforce_spacing. quiet. Qed.

#[export] Hint Resolve quiet_load quiet_save quiet_enforce_rpm
  quiet_enforce_spacing : quiet.

Lemma quiet_check (F : string) (MAX : Z) :
  sends_no_request (check_and_enforce_quota F MAX).
Proof. unfold check_and_enforce_quota. quiet. Qed.

Lemma quiet_decrement (F : string) :
  sends_no_request (decrement_after_failure F).
Proof. unfold decrement_after_failure. quiet. Qed.

#[export] Hint Resolve quiet_check quiet_decrement : quiet.

(** The conversion of a description talks to the text generation and to
    the state file only. *)
Lemma quiet_convert (text : string) :
  sends_no_request (Scraper.convert_plain_text_to_markdown_with_ai text).
Proof.
  unfold Scraper.convert_plain_text_to_markdown_with_ai,
    Scraper.check_and_enforce_quota, Scraper.decrement_after_failure.
  quiet.
Qed.

#[export] Hint Resolve quiet_convert : quiet.


End TraceFacts.

(* ===================================================================== *)
(** ** Properties of the quota ledger                                     *)
(* ===================================================================== *)

Module QuotaProperties.
Import Calendar Runtime Quota Views CalendarFacts QuotaFacts.

Lemma persisted_count_tick (F : string) (w : world) :
  persisted_count F (tick w) = persisted_count F w.
Proof. reflexivity. Qed.

(** One call keeps the stored count under the cap. *)
Lemma check_keeps_cap (F : string) (MAX : Z) (E : env) (w : world) :
  persisted_count F w <= MAX ->
  persisted_count F (snd (check_and_enforce_quota F MAX E w)) <= MAX.
Proof.
  intros Hle.
  pose proof (check_cases F MAX E w) as Hc. cbn zeta in Hc.
  destruct (parse_reset_date _) as [reset|e]; [|rewrite Hc; exact Hle].
  destruct (reset_if_new_day _ _ reset _) as [[[count d] ts]|e];
    [|rewrite Hc; exact Hle].
  destruct (MAX <=? count) eqn:Hcap; [rewrite Hc; exact Hle|].
  destruct Hc as (t & w' & -> & _ & Hfs & _). cbn [snd].
  unfold persisted_count. rewrite Hfs.
  destruct (disk_writable E (writes w)); [|exact Hle].
  rewrite lookup_insert_eq. cbn. lia.
Qed.

Lemma rejected_world (F : string) (MAX : Z) (E : env) (w w' : world) :
  check_and_enforce_quota F MAX E w = (Returned false, w') -> w' = tick w.
Proof.
  intros H.
  pose proof (check_cases F MAX E w) as Hc. cbn zeta in Hc.
  destruct (parse_reset_date _) as [reset|e]; [|congruence].
  destruct (reset_if_new_day _ _ reset _) as [[[count d] ts]|e];
    [|congruence].
  destruct (MAX <=? count); [congruence|].
  destruct Hc as (t & w1 & Heq & _). congruence.
Qed.

(** C1: over any number of successive calls of [check_and_enforce_quota]
    the daily count kept in the state file stays at or below
    [MAX_REQUESTS_PER_DAY]; and when the count the call loads, after the
    new-day reset, has reached the cap, the call returns [False] having
    only read the clock: the file is as it was and nothing was slept. *)
Theorem daily_count_never_exceeds_cap :
  (forall (E : env) (w : world) (n : nat),
      persisted_count Scraper.QUOTA_STATE_FILE w
        <= Scraper.MAX_REQUESTS_PER_DAY ->
      persisted_count Scraper.QUOTA_STATE_FILE (successive_checks n E w)
        <= Scraper.MAX_REQUESTS_PER_DAY)
  /\ (forall (E : env) (w : world) (reset : reset_value) (count : Z)
             (d : date) (ts : list datetime),
         let st := decode_state (fs w !! Scraper.QUOTA_STATE_FILE) in
         parse_reset_date (daily_reset_date st) = Returned reset ->
         reset_if_new_day (clock E (reads w)) (daily_request_count st)
                          reset (request_timestamps st)
           = Returned (count, d, ts) ->
         Scraper.MAX_REQUESTS_PER_DAY <= count ->
         Scraper.check_and_enforce_quota E w = (Returned false, tick w)
         /\ fs (tick w) = fs w
         /\ writes (tick w) = writes w
         /\ trace (tick w) = trace w).
Proof.
  split.
  - intros E w n. revert w.
    induction n as [|n IH]; intros w Hle; cbn [successive_checks]; [exact Hle|].
    apply IH. apply check_keeps_cap. exact Hle.
  - intros E w reset count d ts st Hp Hr Hcap.
    pose proof (check_cases Scraper.QUOTA_STATE_FILE
                  Scraper.MAX_REQUESTS_PER_DAY E w) as Hc.
    cbn zeta in Hc. fold st in Hc. rewrite Hp, Hr in Hc.
    apply Z.leb_le in Hcap. rewrite Hcap in Hc.
    split; [exact Hc|]. repeat split.
Qed.

Lemma daily_count_never_exceeds_cap_witness :
  persisted_count Scraper.QUOTA_STATE_FILE
    (successive_checks 3 Scenario.failing_service
       (Scenario.with_state (saved 19 (Some Scenario.today) [])))
    <= Scraper.MAX_REQUESTS_PER_DAY
  /\ Scraper.check_and_enforce_quota Scenario.failing_service
       (Scenario.with_state (saved 20 (Some Scenario.today) []))
     = (Returned false,
        tick (Scenario.with_state (saved 20 (Some Scenario.today) []))).
Proof.
  split.
  - apply (proj1 daily_count_never_exceeds_cap).
    apply Z.leb_le. vm_compute. reflexivity.
  - eapply (proj2 daily_count_never_exceeds_cap Scenario.failing_service
              (Scenario.with_state (saved 20 (Some Scenario.today) []))
              (ResetDate Scenario.today) 20 Scenario.today []).
    + vm_compute. reflexivity.
    + vm_compute. reflexivity.
    + apply Z.leb_le. vm_compute. reflexivity.
Defined.

(** The stored count after an admitted and saved call is one above the
    count the call went on with. *)
Lemma granted_count (F : string) (MAX : Z) (E : env) (w w' : world) :
  disk_writable E (writes w) = true ->
  check_and_enforce_quota F MAX E w = (Returned true, w') ->
  exists reset count d ts,
    parse_reset_date (daily_reset_date (decode_state (fs w !! F)))
      = Returned reset
    /\ reset_if_new_day (clock E (reads w))
         (daily_request_count (decode_state (fs w !! F))) reset
         (request_timestamps (decode_state (fs w !! F)))
       = Returned (count, d, ts)
    /\ persisted_count F w' = count + 1.
Proof.
  intros Hdisk Hcheck.
  pose proof (check_cases F MAX E w) as Hc. cbn zeta in Hc.
  destruct (parse_reset_date _) as [reset|e] eqn:Hp; [|congruence].
  destruct (reset_if_new_day _ _ reset _) as [[[count d] ts]|e] eqn:Hr;
    [|congruence].
  destruct (MAX <=? count); [congruence|].
  destruct Hc as (t & w1 & Heq & _ & Hfs & _).
  assert (w1 = w') as -> by congruence.
  exists reset, count, d, ts.
  split; [reflexivity|]. split; [exact Hr|].
  unfold persisted_count. rewrite Hfs, Hdisk, lookup_insert_eq. reflexivity.
Qed.

(** C2: what the code does where the release is claimed to restore the
    count. After a call of [check_and_enforce_quota] that was admitted
    and saved, the stored count is one above the count the call started
    from, and the decrement of the [except] block, in [scraper.py] as in
    [parse_resume_with_ai.py], raises [TypeError] when it hands the
    reloaded timestamp to [fromisoformat]; it writes nothing, so the
    stored count stays one above. *)
Theorem decrement_after_grant_leaves_count (E : env) (w w' : world) :
  (forall k, valid_datetime (clock E k) = true) ->
  disk_writable E (writes w) = true ->
  Scraper.check_and_enforce_quota E w = (Returned true, w') ->
  (exists reset count d ts,
      parse_reset_date
        (daily_reset_date (decode_state (fs w !! Scraper.QUOTA_STATE_FILE)))
        = Returned reset
      /\ reset_if_new_day (clock E (reads w))
           (daily_request_count
              (decode_state (fs w !! Scraper.QUOTA_STATE_FILE)))
           reset
           (request_timestamps
              (decode_state (fs w !! Scraper.QUOTA_STATE_FILE)))
         = Returned (count, d, ts)
      /\ persisted_count Scraper.QUOTA_STATE_FILE w' = count + 1
      /\ persisted_count Scraper.QUOTA_STATE_FILE
           (snd (Scraper.decrement_after_failure E w')) = count + 1)
  /\ Scraper.decrement_after_failure E w' = (Raised TypeError, w')
  /\ ParseResume.decrement_after_failure E w' = (Raised TypeError, w').
Proof.
  intros Hclock Hdisk Hcheck.
  destruct (decrement_after_grant _ _ _ _ _ Hclock Hdisk Hcheck)
    as [Hdec _].
  destruct (granted_count _ _ _ _ _ Hdisk Hcheck)
    as (reset & count & d & ts & Hp & Hr & Hcount).
  split; [|split; exact Hdec].
  exists reset, count, d, ts. repeat split; try assumption.
  unfold Scraper.decrement_after_failure. rewrite Hdec. exact Hcount.
Qed.

Lemma noon_clock_valid (k : nat) :
  valid_datetime (Scenario.noon_clock k) = true.
Proof.
  unfold Scenario.noon_clock, valid_datetime, valid_time.
  cbn [dt_date hour minute second microsecond].
  change (valid_date Scenario.today) with true.
  cbn [andb]. dlia.
Qed.

Lemma decrement_after_grant_leaves_count_witness :
  Scraper.decrement_after_failure Scenario.failing_service
    (snd (Scraper.check_and_enforce_quota Scenario.failing_service
            Scenario.no_files))
  = (Raised TypeError,
     snd (Scraper.check_and_enforce_quota Scenario.failing_service
            Scenario.no_files)).
Proof.
  apply (decrement_after_grant_leaves_count Scenario.failing_service
           Scenario.no_files).
  - exact noon_clock_valid.
  - reflexivity.
  - vm_compute. reflexivity.
Defined.

(** The first admission of a day followed by the decrement: the count
    goes to 1 and stays there. *)
Example first_grant_then_decrement :
  let w1 := snd (Scraper.check_and_enforce_quota Scenario.failing_service
                   Scenario.no_files) in
  fst (Scraper.check_and_enforce_quota Scenario.failing_service
         Scenario.no_files) = Returned true
  /\ persisted_count Scraper.QUOTA_STATE_FILE Scenario.no_files = 0
  /\ persisted_count Scraper.QUOTA_STATE_FILE w1 = 1
  /\ fst (Scraper.decrement_after_failure Scenario.failing_service w1)
     = Raised TypeError
  /\ persisted_count Scraper.QUOTA_STATE_FILE
       (snd (Scraper.decrement_after_failure Scenario.failing_service w1))
     = 1.
Proof. vm_compute. repeat split. Qed.

(** Where the decrement does get to write, on a state without
    timestamps, it is a plain decrement floored at zero; a second one
    lowers the count again. *)
Example decrement_twice_without_timestamps :
  let w0 := Scenario.with_state (saved 5 (Some Scenario.today) []) in
  let w1 := snd (Scraper.decrement_after_failure Scenario.failing_service
                   w0) in
  let w2 := snd (Scraper.decrement_after_failure Scenario.failing_service
                   w1) in
  persisted_count Scraper.QUOTA_STATE_FILE w1 = 4
  /\ persisted_count Scraper.QUOTA_STATE_FILE w2 = 3.
Proof. vm_compute. split; reflexivity. Qed.

(** C7: a state written by [save_quota_state] is read back by
    [load_quota_state] with the same daily count, the same timestamps in
    the same order, and a reset date text that converts back to the
    same date. *)
Theorem save_then_load (E : env) (w : world) (count : Z)
    (d : option date) (ts : list datetime) :
  valid_reset d ->
  all_valid ts ->
  disk_writable E (writes w) = true ->
  let w' := snd (Scraper.save_quota_state count d ts E w) in
  exists st,
    Scraper.load_quota_state E w' = (Returned st, w')
    /\ daily_request_count st = count
    /\ request_timestamps st = ts
    /\ reparse_reset_date (daily_reset_date st) = Returned d
    /\ parse_reset_date (daily_reset_date st)
       = Returned (match d with
                   | Some x => ResetDate x
                   | None => ResetNone
                   end).
Proof.
  intros Hd Hts Hdisk w'.
  exists (mkstate count (option_map date_isoformat d) ts).
  assert (fs w' !! Scraper.QUOTA_STATE_FILE = Some (saved count d ts)) as Hf.
  { subst w'. unfold Scraper.save_quota_state, save_quota_state, write_file.
    unfold bind, ret. cbn. rewrite Hdisk. apply lookup_insert_eq. }
  split.
  { unfold Scraper.load_quota_state. rewrite load_eq, Hf.
    rewrite decode_saved by exact Hts. reflexivity. }
  cbn [daily_request_count request_timestamps daily_reset_date].
  repeat split.
  - apply reparse_isoformat. exact Hd.
  - destruct d as [x|]; [|reflexivity].
    unfold parse_reset_date, fromisoformat. cbn [option_map].
    rewrite date_isoformat_truthy. rewrite date_roundtrip by exact Hd.
    reflexivity.
Qed.

Lemma save_then_load_witness :
  exists st,
    Scraper.load_quota_state Scenario.failing_service
      (snd (Scraper.save_quota_state 7 (Some Scenario.today)
              [Scenario.noon_clock 1; Scenario.noon_clock 2]
              Scenario.failing_service Scenario.no_files))
    = (Returned st,
       snd (Scraper.save_quota_state 7 (Some Scenario.today)
              [Scenario.noon_clock 1; Scenario.noon_clock 2]
              Scenario.failing_service Scenario.no_files))
    /\ daily_request_count st = 7
    /\ request_timestamps st
       = [Scenario.noon_clock 1; Scenario.noon_clock 2]
    /\ reparse_reset_date (daily_reset_date st)
       = Returned (Some Scenario.today)
    /\ parse_reset_date (daily_reset_date st)
       = Returned (ResetDate Scenario.today).
Proof.
  apply (save_then_load Scenario.failing_service Scenario.no_files 7
           (Some Scenario.today)
           [Scenario.noon_clock 1; Scenario.noon_clock 2]).
  - reflexivity.
  - repeat constructor.
  - reflexivity.
Defined.

(** C8: on a state file written by [save_quota_state], the decrement of
    the [except] block leaves the reset date and the timestamps as they
    are; the count is the only field that can differ afterwards, and
    then it is the old one less one, floored at zero. *)
Theorem decrement_changes_only_count (E : env) (w : world) (count : Z)
    (d : option date) (ts : list datetime) :
  valid_reset d ->
  all_valid ts ->
  fs w !! Scraper.QUOTA_STATE_FILE = Some (saved count d ts) ->
  exists count',
    fs (snd (Scraper.decrement_after_failure E w))
      !! Scraper.QUOTA_STATE_FILE = Some (saved count' d ts)
    /\ (count' = count \/ count' = Z.max 0 (count - 1)).
Proof.
  intros Hd Hts Hf.
  unfold Scraper.decrement_after_failure.
  rewrite decrement_cases. cbn zeta. rewrite Hf.
  rewrite decode_saved by exact Hts.
  cbn [daily_reset_date request_timestamps daily_request_count].
  rewrite reparse_isoformat by exact Hd.
  destruct ts as [|t r].
  - cbn [snd]. unfold wrote. cbn [fs].
    destruct (disk_writable E (writes w)).
    + exists (Z.max 0 (count - 1)). rewrite lookup_insert_eq.
      split; [reflexivity|]. right. reflexivity.
    + exists count. split; [exact Hf|]. left. reflexivity.
  - exists count. split; [exact Hf|]. left. reflexivity.
Qed.

Lemma decrement_changes_only_count_witness :
  exists count',
    fs (snd (Scraper.decrement_after_failure Scenario.failing_service
               (Scenario.with_state (saved 5 (Some Scenario.today) []))))
      !! Scraper.QUOTA_STATE_FILE
    = Some (saved count' (Some Scenario.today) [])
    /\ (count' = 5 \/ count' = Z.max 0 (5 - 1)).
Proof.
  apply (decrement_changes_only_count Scenario.failing_service
           (Scenario.with_state (saved 5 (Some Scenario.today) []))
           5 (Some Scenario.today) []).
  - reflexivity.
  - constructor.
  - reflexivity.
Defined.

Lemma date_gtb_irrefl (d : date) : date_gtb d d = false.
Proof. unfold date_gtb. lia. Qed.

Lemma fromisoformat_truthy (s : string) (t : datetime) :
  datetime_fromisoformat s = Some t -> truthy s = true.
Proof. destruct s; [discriminate|reflexivity]. Qed.

(** A call that finds a count under the cap on the day of the stored
    reset date is admitted. *)
Lemma granted_under_cap (F : string) (MAX : Z) (E : env) (w : world)
    (s : string) (t : datetime) :
  let st := decode_state (fs w !! F) in
  daily_reset_date st = Some s ->
  datetime_fromisoformat s = Some t ->
  dt_date t = dt_date (clock E (reads w)) ->
  fst (check_and_enforce_quota F MAX E w)
  = Returned (negb (MAX <=? daily_request_count st)).
Proof.
  intros st Hs Ht Hday.
  pose proof (check_cases F MAX E w) as Hc. cbn zeta in Hc. fold st in Hc.
  rewrite Hs in Hc. unfold parse_reset_date, fromisoformat in Hc.
  rewrite (fromisoformat_truthy _ _ Ht), Ht in Hc.
  cbn [reset_if_new_day] in Hc.
  rewrite Hday, date_gtb_irrefl in Hc.
  destruct (MAX <=? daily_request_count st).
  - rewrite Hc. reflexivity.
  - destruct Hc as (t' & w' & -> & _). reflexivity.
Qed.

(** C10: the two copies of the check use one file name and two caps, 20
    in [scraper.py] and 19 in [parse_resume_with_ai.py]; on a state of
    the current day with a count of 19 the scraper's check admits and
    the resume parser's refuses, so the two are different functions. *)
Theorem caps_of_the_two_checks_differ :
  Scraper.QUOTA_STATE_FILE = ParseResume.QUOTA_STATE_FILE
  /\ Scraper.QUOTA_STATE_FILE = "quota_state.json"%string
  /\ Scraper.MAX_REQUESTS_PER_DAY = 20
  /\ ParseResume.MAX_REQUESTS_PER_DAY = 19
  /\ (forall (E : env) (w : world) (s : string) (t : datetime),
         let st := decode_state (fs w !! Scraper.QUOTA_STATE_FILE) in
         daily_request_count st = 19 ->
         daily_reset_date st = Some s ->
         datetime_fromisoformat s = Some t ->
         dt_date t = dt_date (clock E (reads w)) ->
         fst (Scraper.check_and_enforce_quota E w) = Returned true
         /\ fst (ParseResume.check_and_enforce_quota E w) = Returned false)
  /\ Scraper.check_and_enforce_quota <> ParseResume.check_and_enforce_quota.
Proof.
  repeat (split; [reflexivity|]).
  assert (forall (E : env) (w : world) (s : string) (t : datetime),
             let st := decode_state (fs w !! Scraper.QUOTA_STATE_FILE) in
             daily_request_count st = 19 ->
             daily_reset_date st = Some s ->
             datetime_fromisoformat s = Some t ->
             dt_date t = dt_date (clock E (reads w)) ->
             fst (Scraper.check_and_enforce_quota E w) = Returned true
             /\ fst (ParseResume.check_and_enforce_quota E w)
                = Returned false) as Hdiff.
  { intros E w s t st Hcount Hs Ht Hday. split.
    - unfold Scraper.check_and_enforce_quota.
      rewrite (granted_under_cap _ _ _ _ s t Hs Ht Hday).
      fold st. rewrite Hcount. reflexivity.
    - unfold ParseResume.check_and_enforce_quota.
      change ParseResume.QUOTA_STATE_FILE with Scraper.QUOTA_STATE_FILE.
      rewrite (granted_under_cap _ _ _ _ s t Hs Ht Hday).
      fold st. rewrite Hcount. reflexivity. }
  split; [exact Hdiff|].
  intros Heq.
  destruct (Hdiff Scenario.failing_service
              (Scenario.with_state (saved 19 (Some Scenario.today) []))
              "2025-01-15"%string
              (mkdatetime Scenario.today 0 0 0 0))
    as [Ha Hb]; try reflexivity.
  rewrite Heq in Ha. rewrite Ha in Hb. discriminate.
Qed.

Lemma caps_of_the_two_checks_differ_witness :
  fst (Scraper.check_and_enforce_quota Scenario.failing_service
         (Scenario.with_state (saved 19 (Some Scenario.today) [])))
  = Returned true
  /\ fst (ParseResume.check_and_enforce_quota Scenario.failing_service
            (Scenario.with_state (saved 19 (Some Scenario.today) [])))
     = Returned false.
Proof.
  apply (proj1 (proj2 (proj2 (proj2 (proj2 caps_of_the_two_checks_differ))))
           Scenario.failing_service
           (Scenario.with_state (saved 19 (Some Scenario.today) []))
           "2025-01-15"%string (mkdatetime Scenario.today 0 0 0 0)).
  - reflexivity.
  - reflexivity.
  - reflexivity.
  - reflexivity.
Defined.

End QuotaProperties.

(* ===================================================================== *)
(** ** The two callers of the text generation                             *)
(* ===================================================================== *)

Module EnrichmentProperties.
Import Calendar Runtime Quota Views CalendarFacts QuotaFacts.
Import QuotaProperties.

(** The conversion of a non-empty text, by what the check and the
    text generation answer. *)
Lemma convert_cases (text : string) (E : env) (w : world) :
  truthy text = true ->
  Scraper.convert_plain_text_to_markdown_with_ai text E w =
  match Scraper.check_and_enforce_quota E w with
  | (Raised e, w1) => (Raised e, w1)
  | (Returned false, w1) => (Returned text, w1)
  | (Returned true, w1) =>
      match generate_content E (calls w1) (Scraper.markdown_prompt text) with
      | Some answer =>
          (Returned (if truthy (strip answer) then strip answer else text),
           called (Scraper.markdown_prompt text) w1)
      | None =>
          match Scraper.decrement_after_failure E
                  (called (Scraper.markdown_prompt text) w1) with
          | (Returned _, w2) => (Returned text, w2)
          | (Raised e, w2) => (Raised e, w2)
          end
      end
  end.
Proof.
  intros Ht. unfold Scraper.convert_plain_text_to_markdown_with_ai.
  rewrite Ht. cbn [negb]. unfold bind at 1.
  destruct (Scraper.check_and_enforce_quota E w) as [[[|]|e] w1];
    try reflexivity.
  cbn [negb]. unfold try_except, bind at 1, generate.
  fold (called (Scraper.markdown_prompt text) w1).
  destruct (generate_content E (calls w1) (Scraper.markdown_prompt text))
    as [answer|].
  - destruct (truthy (strip answer)); reflexivity.
  - unfold bind, ret.
    destruct (Scraper.decrement_after_failure E _) as [[u|e] w2];
      reflexivity.
Qed.

(** The resume parser, by what the check and the text generation
    answer. *)
Lemma parse_resume_cases (resume_text : string) (E : env) (w : world) :
  ParseResume.parse_resume_with_ai resume_text E w =
  match ParseResume.check_and_enforce_quota E w with
  | (Raised e, w1) => (Raised e, w1)
  | (Returned false, w1) => (Returned None, w1)
  | (Returned true, w1) =>
      match generate_content E (calls w1)
              (ParseResume.resume_prompt resume_text) with
      | Some answer =>
          (Returned (Some answer),
           called (ParseResume.resume_prompt resume_text) w1)
      | None =>
          match ParseResume.decrement_after_failure E
                  (called (ParseResume.resume_prompt resume_text) w1) with
          | (Returned _, w2) => (Raised ServiceError, w2)
          | (Raised e, w2) => (Raised e, w2)
          end
      end
  end.
Proof.
  unfold ParseResume.parse_resume_with_ai. unfold bind at 1.
  destruct (ParseResume.check_and_enforce_quota E w) as [[[|]|e] w1];
    try reflexivity.
  cbn [negb]. unfold try_except, bind at 1, generate.
  fold (called (ParseResume.resume_prompt resume_text) w1).
  destruct (generate_content E (calls w1) _) as [answer|].
  - reflexivity.
  - unfold bind, raise.
    destruct (ParseResume.decrement_after_failure E _) as [[u|e] w2];
      reflexivity.
Qed.

(** C6: [convert_plain_text_to_markdown_with_ai] gives the empty string
    back for the empty string and leaves the world as it is: no quota
    check, no call; and when the quota check refuses, it gives its input
    back and no text-generation call has been made. *)
Theorem conversion_returns_input_unchanged :
  (forall (E : env) (w : world),
      Scraper.convert_plain_text_to_markdown_with_ai ""%string E w
      = (Returned ""%string, w))
  /\ (forall (text : string) (E : env) (w w1 : world),
         Scraper.check_and_enforce_quota E w = (Returned false, w1) ->
         fst (Scraper.convert_plain_text_to_markdown_with_ai text E w)
           = Returned text
         /\ calls (snd (Scraper.convert_plain_text_to_markdown_with_ai
                          text E w)) = calls w
         /\ trace (snd (Scraper.convert_plain_text_to_markdown_with_ai
                          text E w)) = trace w).
Proof.
  split; [reflexivity|].
  intros text E w w1 Hcheck.
  destruct (truthy text) eqn:Ht.
  - rewrite convert_cases by exact Ht. rewrite Hcheck. cbn [fst snd].
    apply rejected_world in Hcheck. subst w1. repeat split.
  - destruct text; [|discriminate]. repeat split.
Qed.

Lemma conversion_returns_input_unchanged_witness :
  fst (Scraper.convert_plain_text_to_markdown_with_ai "Build things."%string
         Scenario.failing_service
         (Scenario.with_state (saved 20 (Some Scenario.today) [])))
  = Returned "Build things."%string
  /\ calls (snd (Scraper.convert_plain_text_to_markdown_with_ai
                   "Build things."%string Scenario.failing_service
                   (Scenario.with_state (saved 20 (Some Scenario.today) []))))
     = calls (Scenario.with_state (saved 20 (Some Scenario.today) []))
  /\ trace (snd (Scraper.convert_plain_text_to_markdown_with_ai
                   "Build things."%string Scenario.failing_service
                   (Scenario.with_state (saved 20 (Some Scenario.today) []))))
     = trace (Scenario.with_state (saved 20 (Some Scenario.today) [])).
Proof.
  apply (proj2 conversion_returns_input_unchanged "Build things."%string
           Scenario.failing_service
           (Scenario.with_state (saved 20 (Some Scenario.today) []))
           (tick (Scenario.with_state (saved 20 (Some Scenario.today) [])))).
  vm_compute. reflexivity.
Defined.




(** The same failure where the admission's own write was lost: the
    state reloaded holds no timestamp, the release completes, the
    conversion hands its input back and the resume parser raises the
    failure of the call. *)
Example release_completes_after_a_lost_write :
  fst (Scraper.convert_plain_text_to_markdown_with_ai "Build things."%string
         Scenario.failing_service_late_disk Scenario.no_files)
  = Returned "Build things."%string
  /\ fst (ParseResume.parse_resume_with_ai "Ada, engineer."%string
            Scenario.failing_service_late_disk Scenario.no_files)
     = Raised ServiceError.
Proof. vm_compute. split; reflexivity. Qed.


End EnrichmentProperties.

(* ===================================================================== *)
(** ** The retry loop                                                     *)
(* ===================================================================== *)

Module FetchProperties.
Import Calendar Runtime Views.
Import Scraper.

Lemma sleeps_app (a b : list event) : sleeps (a ++ b) = sleeps a ++ sleeps b.
Proof. unfold sleeps. apply omap_app. Qed.

(** One turn of the loop. *)
Lemma retry_loop_step (MAX DELAY : Z) (fuel : nat) (url : string)
    (agent : nat) (retries : Z) :
  retry_loop MAX DELAY (S fuel) url agent retries
  = if retries <=? MAX then
      res <- get url (Some agent) ;;
      match res with
      | Response status_code text =>
          if is_http_error status_code then
            if (status_code =? 429) && (retries <? MAX) then
              jitter <- uniform ;;
              sleep (DELAY + jitter) ;;
              agent' <- choice ;;
              retry_loop MAX DELAY fuel url agent' (retries + 1)
            else ret (None, retries)
          else ret (Some text, retries)
      | TransportFailure => ret (None, retries)
      end
    else ret (None, retries).
Proof. reflexivity. Qed.

(** Fuel beyond the retries that are left changes nothing: the loop
    ends by itself. *)
Lemma retry_loop_fuel (MAX DELAY : Z) (url : string) (E : env) :
  forall (fuel : nat) (agent : nat) (retries : Z) (w : world),
    (Z.to_nat (MAX + 1 - retries) <= fuel)%nat ->
    retry_loop MAX DELAY fuel url agent retries E w
    = retry_loop MAX DELAY (Z.to_nat (MAX + 1 - retries)) url agent
                 retries E w.
Proof.
  induction fuel as [|fuel IH]; intros agent retries w Hfuel.
  - replace (Z.to_nat (MAX + 1 - retries)) with 0%nat by lia. reflexivity.
  - destruct (retries <=? MAX) eqn:Hguard.
    + replace (Z.to_nat (MAX + 1 - retries))
        with (S (Z.to_nat (MAX + 1 - (retries + 1)))) in * by lia.
      cbn [retry_loop]. rewrite Hguard.
      unfold bind, get, uniform, sleep, emit, choice.
      destruct (http_get E (requests w) url) as [status text|];
        [|reflexivity].
      destruct (is_http_error status); [|reflexivity].
      destruct ((status =? 429) && (retries <? MAX)); [|reflexivity].
      apply IH. lia.
    + replace (Z.to_nat (MAX + 1 - retries)) with 0%nat by lia.
      cbn [retry_loop]. rewrite Hguard. reflexivity.
Qed.

(** As long as every answer is a 429 the loop asks again, until
    [retries] has reached [MAX_RETRIES]. *)
Lemma retry_loop_all_429 (MAX DELAY : Z) (url : string) (E : env) :
  forall (n : nat) (retries : Z) (agent : nat) (w : world),
    retries + Z.of_nat n = MAX ->
    (forall k, (k <= n)%nat ->
       exists text, http_get E (requests w + k)%nat url = Response 429 text) ->
    exists w',
      retry_loop MAX DELAY (S n) url agent retries E w
      = (Returned (None, MAX), w')
      /\ requests w' = (requests w + S n)%nat
      /\ length (sleeps (trace w')) = (length (sleeps (trace w)) + n)%nat
      /\ fs w' = fs w.
Proof.
  induction n as [|n IH]; intros retries agent w Hmax Hall.
  - destruct (Hall 0%nat (Nat.le_refl _)) as [text Hget].
    rewrite Nat.add_0_r in Hget.
    cbn [retry_loop]. replace (retries <=? MAX) with true by lia.
    unfold bind, get. rewrite Hget.
    change (is_http_error 429) with true. cbn iota.
    replace ((429 =? 429) && (retries <? MAX)) with false by lia.
    eexists. split; [unfold ret; repeat f_equal; lia|].
    cbn. rewrite sleeps_app. cbn. rewrite length_app. cbn.
    repeat split; lia.
  - destruct (Hall 0%nat (Nat.le_0_l _)) as [text Hget].
    rewrite Nat.add_0_r in Hget.
    rewrite retry_loop_step. replace (retries <=? MAX) with true by lia.
    unfold bind at 1. unfold get at 1. rewrite Hget.
    change (is_http_error 429) with true. cbn iota.
    replace ((429 =? 429) && (retries <? MAX)) with true by lia.
    unfold bind, uniform, sleep, emit, choice. cbn [fs reads writes calls
      requests draws trace].
    match goal with
    | |- context [retry_loop MAX DELAY (S n) url ?a ?r E ?w0] =>
        destruct (IH r a w0) as (w' & Heq & Hreq & Hsl & Hfs)
    end.
    + lia.
    + intros k Hk. cbn [requests].
      destruct (Hall (S k) ltac:(lia)) as [text' Hget'].
      exists text'. rewrite <- Hget'. f_equal. lia.
    + exists w'. split; [exact Heq|].
      cbn [requests trace fs] in Hreq, Hsl, Hfs.
      rewrite !sleeps_app in Hsl. cbn in Hsl. rewrite !length_app in Hsl.
      cbn in Hsl. repeat split; [lia | lia | exact Hfs].
Qed.

(** C5: for a [MAX_RETRIES] that is not negative, when every answer is
    a 429 the fetch sends [MAX_RETRIES + 1] requests, backs off
    [MAX_RETRIES] times and ends without a response, [retries] being
    [MAX_RETRIES]; when the first answer is another error status, or the
    transport fails, it ends without a response after that one request,
    with [retries] at zero and no backoff. *)
Theorem retries_on_429_only (MAX_RETRIES RETRY_DELAY_SECONDS : Z)
    (url : string) (E : env) (w : world) :
  0 <= MAX_RETRIES ->
  let run := fetch_with_retries MAX_RETRIES RETRY_DELAY_SECONDS url E w in
  ((forall k, (k <= Z.to_nat MAX_RETRIES)%nat ->
      exists text, http_get E (requests w + k)%nat url = Response 429 text) ->
   fst run = Returned (None, MAX_RETRIES)
   /\ requests (snd run) = (requests w + Z.to_nat MAX_RETRIES + 1)%nat
   /\ length (sleeps (trace (snd run)))
      = (length (sleeps (trace w)) + 1 + Z.to_nat MAX_RETRIES)%nat)
  /\ ((http_get E (requests w) url = TransportFailure
       \/ exists status text,
            http_get E (requests w) url = Response status text
            /\ is_http_error status = true /\ status <> 429) ->
      fst run = Returned (None, 0)
      /\ requests (snd run) = (requests w + 1)%nat
      /\ length (sleeps (trace (snd run)))
         = (length (sleeps (trace w)) + 1)%nat).
Proof.
  intros Hmax run. subst run. unfold fetch_with_retries.
  replace (Z.to_nat (MAX_RETRIES + 1)) with (S (Z.to_nat MAX_RETRIES)) by lia.
  unfold bind, uniform, sleep, emit, choice.
  cbn [fs reads writes calls requests draws trace].
  split.
  - intros Hall.
    match goal with
    | |- context [retry_loop _ _ _ url ?a 0 E ?w0] =>
        destruct (retry_loop_all_429 MAX_RETRIES RETRY_DELAY_SECONDS url E
                    (Z.to_nat MAX_RETRIES) 0 a w0)
          as (w' & Heq & Hreq & Hsl & _)
    end.
    + lia.
    + exact Hall.
    + rewrite Heq. cbn [fst snd]. cbn [requests trace] in Hreq, Hsl.
      rewrite sleeps_app, length_app in Hsl. cbn in Hsl.
      repeat split; lia.
  - intros Hfirst. rewrite retry_loop_step.
    replace (0 <=? MAX_RETRIES) with true by lia.
    unfold bind, get. cbn [requests trace].
    destruct Hfirst as [-> | (status & text & -> & Herr & Hne)].
    + cbn. rewrite !sleeps_app, !length_app. cbn. repeat split; lia.
    + rewrite Herr. replace (status =? 429) with false by lia.
      cbn. rewrite !sleeps_app, !length_app. cbn. repeat split; lia.
Qed.

Lemma retries_on_429_only_witness :
  (fst (fetch_with_retries 3 5000000 "https://example.org/jobs"%string
          Scenario.throttled Scenario.no_files) = Returned (None, 3)
   /\ requests (snd (fetch_with_retries 3 5000000
                       "https://example.org/jobs"%string
                       Scenario.throttled Scenario.no_files)) = 4%nat)
  /\ (fst (fetch_with_retries 3 5000000 "https://example.org/jobs"%string
             Scenario.not_found Scenario.no_files) = Returned (None, 0)
      /\ requests (snd (fetch_with_retries 3 5000000
                          "https://example.org/jobs"%string
                          Scenario.not_found Scenario.no_files)) = 1%nat).
Proof.
  split.
  - destruct (proj1 (retries_on_429_only 3 5000000
                       "https://example.org/jobs"%string
                       Scenario.throttled Scenario.no_files
                       ltac:(lia)))
      as (Hres & Hreq & _).
    + intros k _. exists ""%string. reflexivity.
    + split; [exact Hres | exact Hreq].
  - destruct (proj2 (retries_on_429_only 3 5000000
                       "https://example.org/jobs"%string
                       Scenario.not_found Scenario.no_files
                       ltac:(lia)))
      as (Hres & Hreq & _).
    + right. exists 404, ""%string.
      split; [reflexivity|]. split; [reflexivity | lia].
    + split; [exact Hres | exact Hreq].
Defined.

End FetchProperties.

(* ===================================================================== *)
(** ** The board search loop                                              *)
(* ===================================================================== *)

Module SearchProperties.
Import Calendar Runtime Views.
Import Scraper.

Lemma logged_totals_app (a b : list event) :
  logged_totals (a ++ b) = logged_totals a ++ logged_totals b.
Proof. unfold logged_totals. apply omap_app. Qed.

Lemma posted_app (a b : list event) : posted (a ++ b) = posted a ++ posted b.
Proof. unfold posted. apply omap_app. Qed.

(** One turn of the loop on a URL. *)
Lemma search_loop_step (fuel : nat) (url : string) (n : Z)
    (items : list search_entry) (E : env) (w : world) :
  truthy url = true ->
  search_loop (S fuel) (Some url) n items E w
  = match search_post E (requests w) url with
    | SearchFailed => (Returned (items, RequestFailed), after_post url w)
    | Page p =>
        (log_total p (n + 1) ;;
         search_loop fuel (next_page_url p) (n + 1) (items ++ results p))
          E (after_post url w)
    | NotAnObject => (Raised AttributeError, after_post url w)
    | ResultsNotIterable => (Raised TypeError, after_post url w)
    | LinksNotAnObject reported =>
        (log_total (mkpage [] reported None) (n + 1) ;;
         raise AttributeError) E (after_post url w)
    end.
Proof.
  intros Hu. cbn [search_loop]. rewrite Hu.
  unfold bind at 1, post. fold (after_post url w).
  destruct (search_post E (requests w) url); reflexivity.
Qed.

(** Without a URL the loop ends at once and asks nothing. *)
Lemma search_loop_no_url (fuel : nat) (u : option string) (n : Z)
    (items : list search_entry) (E : env) (w : world) :
  has_url u = false ->
  search_loop fuel u n items E w = (Returned (items, NoMorePages), w).
Proof.
  intros Hu. destruct u as [url|]; cbn in Hu.
  - destruct fuel; cbn [search_loop]; rewrite Hu; reflexivity.
  - destruct fuel; reflexivity.
Qed.

Lemma log_total_world (p : search_page) (n : Z) (E : env) (w : world) :
  log_total p n E w
  = (Returned tt,
     mkworld (fs w) (reads w) (writes w) (calls w) (requests w) (draws w)
             (trace w ++ match total p with
                         | Some t => if n =? 1 then [LoggedTotal t] else []
                         | None => []
                         end)).
Proof.
  unfold log_total. destruct (total p) as [t|].
  - destruct (n =? 1); [reflexivity|].
    unfold ret. rewrite app_nil_r. destruct w; reflexivity.
  - unfold ret. rewrite app_nil_r. destruct w; reflexivity.
Qed.

(** After the first call nothing more is logged about totals. *)
Lemma later_pages_log_no_total (E : env) :
  forall (fuel : nat) (u : option string) (n : Z)
         (items : list search_entry) (w : world),
    1 <= n ->
    logged_totals (trace (snd (search_loop fuel u n items E w)))
    = logged_totals (trace w).
Proof.
  induction fuel as [|fuel IH]; intros u n items w Hn.
  - destruct u as [url|]; cbn [search_loop]; [|reflexivity].
    destruct (truthy url); reflexivity.
  - destruct (has_url u) eqn:Hu;
      [|rewrite search_loop_no_url by exact Hu; reflexivity].
    destruct u as [url|]; [|discriminate]. cbn in Hu.
    rewrite search_loop_step by exact Hu.
    destruct (search_post E (requests w) url) as [p| | | |reported].
    + unfold bind. rewrite log_total_world.
      rewrite IH by lia. unfold after_post. cbn [trace].
      replace (n + 1 =? 1) with false by lia.
      rewrite !logged_totals_app.
      change (logged_totals [Posted url]) with (@nil Z).
      destruct (total p); change (logged_totals []) with (@nil Z);
        rewrite !app_nil_r; reflexivity.
    + unfold after_post. cbn [snd trace]. rewrite logged_totals_app.
      apply app_nil_r.
    + unfold after_post. cbn [snd trace]. rewrite logged_totals_app.
      apply app_nil_r.
    + unfold after_post. cbn [snd trace]. rewrite logged_totals_app.
      apply app_nil_r.
    + unfold bind. rewrite log_total_world. unfold raise, after_post.
      cbn [snd trace total]. replace (n + 1 =? 1) with false by lia.
      rewrite !logged_totals_app.
      change (logged_totals [Posted url]) with (@nil Z).
      destruct reported; change (logged_totals []) with (@nil Z);
        rewrite !app_nil_r; reflexivity.
Qed.

(** Two runs whose servers differ in the totals they report, from
    worlds that agree on the requests sent: the same pages are asked
    for and the same items collected. *)
Lemma totals_do_not_steer (f : nat -> option Z -> option Z) (E : env) :
  forall (fuel : nat) (u : option string) (n : Z)
         (items : list search_entry) (w1 w2 : world),
    requests w1 = requests w2 ->
    posted (trace w1) = posted (trace w2) ->
    fst (search_loop fuel u n items (retotal f E) w1)
    = fst (search_loop fuel u n items E w2)
    /\ requests (snd (search_loop fuel u n items (retotal f E) w1))
       = requests (snd (search_loop fuel u n items E w2))
    /\ posted (trace (snd (search_loop fuel u n items (retotal f E) w1)))
       = posted (trace (snd (search_loop fuel u n items E w2))).
Proof.
  induction fuel as [|fuel IH]; intros u n items w1 w2 Hreq Hposted.
  - destruct u as [url|]; cbn [search_loop]; [|repeat split; assumption].
    destruct (truthy url); repeat split; assumption.
  - destruct (has_url u) eqn:Hu.
    2:{ rewrite !search_loop_no_url by exact Hu. repeat split; assumption. }
    destruct u as [url|]; [|discriminate]. cbn in Hu.
    rewrite !search_loop_step by exact Hu.
    cbn [retotal search_post]. rewrite Hreq.
    destruct (search_post E (requests w2) url) as [p| | | |reported].
    + unfold bind. rewrite !log_total_world.
      change (next_page_url (with_total (f (requests w2) (total p)) p))
        with (next_page_url p).
      change (results (with_total (f (requests w2) (total p)) p))
        with (results p).
      apply IH.
      * cbn. rewrite Hreq. reflexivity.
      * unfold after_post. cbn [trace]. rewrite !posted_app, Hposted.
        f_equal.
        destruct (total (with_total _ p)) as [t|], (total p) as [t'|];
          try destruct (n + 1 =? 1); reflexivity.
    + unfold after_post. cbn [fst snd trace requests].
      rewrite !posted_app, Hposted, Hreq. repeat split.
    + unfold after_post. cbn [fst snd trace requests].
      rewrite !posted_app, Hposted, Hreq. repeat split.
    + unfold after_post. cbn [fst snd trace requests].
      rewrite !posted_app, Hposted, Hreq. repeat split.
    + unfold bind. rewrite !log_total_world. unfold raise, after_post.
      cbn [fst snd trace requests total].
      rewrite !posted_app, Hposted, Hreq.
      repeat split.
      destruct (f (requests w2) reported) as [t|], reported as [t'|];
        try destruct (n + 1 =? 1); reflexivity.
Qed.

(** C9: the search loop posts for a page exactly when it holds a URL:
    with none it ends without a request, and after a page it goes on
    with the [href] of that page's next link, while a failed request
    ends it and an answer whose body it cannot walk raises out of it;
    the reported total is logged by the first call only and only when
    the answer reports one; and a server reporting other totals is
    asked for the same pages and yields the same items. *)
Theorem next_link_alone_steers_the_search (E : env) :
  (forall fuel u n items w,
      has_url u = false ->
      search_loop fuel u n items E w = (Returned (items, NoMorePages), w))
  /\ (forall fuel url n items w,
         truthy url = true ->
         search_loop (S fuel) (Some url) n items E w
         = match search_post E (requests w) url with
           | SearchFailed =>
               (Returned (items, RequestFailed), after_post url w)
           | Page p =>
               (log_total p (n + 1) ;;
                search_loop fuel (next_page_url p) (n + 1)
                            (items ++ results p))
                 E (after_post url w)
           | NotAnObject => (Raised AttributeError, after_post url w)
           | ResultsNotIterable => (Raised TypeError, after_post url w)
           | LinksNotAnObject reported =>
               (log_total (mkpage [] reported None) (n + 1) ;;
                raise AttributeError) E (after_post url w)
           end)
  /\ (forall fuel url items w,
         truthy url = true ->
         logged_totals
           (trace (snd (search_loop (S fuel) (Some url) 0 items E w)))
         = logged_totals (trace w)
           ++ match search_post E (requests w) url with
              | Page p =>
                  match total p with
                  | Some t => [t]
                  | None => []
                  end
              | LinksNotAnObject (Some t) => [t]
              | _ => []
              end)
  /\ (forall f fuel u n items w,
         fst (search_loop fuel u n items (retotal f E) w)
         = fst (search_loop fuel u n items E w)
         /\ posted (trace (snd (search_loop fuel u n items (retotal f E) w)))
            = posted (trace (snd (search_loop fuel u n items E w)))).
Proof.
  split; [intros; apply search_loop_no_url; assumption|].
  split; [intros; apply search_loop_step; assumption|].
  split.
  - intros fuel url items w Hu.
    rewrite search_loop_step by exact Hu.
    destruct (search_post E (requests w) url) as [p| | | |reported].
    + unfold bind. rewrite log_total_world.
      rewrite later_pages_log_no_total by lia.
      unfold after_post. cbn [trace]. rewrite !logged_totals_app.
      change (logged_totals [Posted url]) with (@nil Z).
      rewrite app_nil_r. change (0 + 1 =? 1) with true.
      destruct (total p); reflexivity.
    + unfold after_post. cbn [snd trace]. rewrite logged_totals_app.
      reflexivity.
    + unfold after_post. cbn [snd trace]. rewrite logged_totals_app.
      reflexivity.
    + unfold after_post. cbn [snd trace]. rewrite logged_totals_app.
      reflexivity.
    + unfold bind. rewrite log_total_world. unfold raise, after_post.
      cbn [snd trace total]. rewrite !logged_totals_app.
      change (logged_totals [Posted url]) with (@nil Z).
      rewrite app_nil_r. change (0 + 1 =? 1) with true.
      destruct reported; reflexivity.
  - intros f fuel u n items w.
    destruct (totals_do_not_steer f E fuel u n items w w eq_refl eq_refl)
      as (Hfst & _ & Hposted).
    split; assumption.
Qed.

Lemma next_link_alone_steers_the_search_witness :
  search_loop 5 (Some ""%string) 0 [] Scenario.two_pages Scenario.no_files
  = (Returned ([], NoMorePages), Scenario.no_files)
  /\ logged_totals
       (trace (snd (search_loop 5 (Some Scenario.first_page_url) 0 []
                      Scenario.two_pages Scenario.no_files)))
     = [250]
  /\ posted
       (trace (snd (search_loop 5 (Some Scenario.first_page_url) 0 []
                      Scenario.two_pages Scenario.no_files)))
     = [Scenario.first_page_url; Scenario.second_page_url].
Proof.
  split.
  - apply (proj1 (next_link_alone_steers_the_search Scenario.two_pages)).
    reflexivity.
  - split.
    + apply (proj1 (proj2 (proj2 (next_link_alone_steers_the_search
                                    Scenario.two_pages)))
               4%nat Scenario.first_page_url [] Scenario.no_files).
      reflexivity.
    + vm_compute. reflexivity.
Defined.

End SearchProperties.

(* ===================================================================== *)
(** ** Filtering against the store                                        *)
(* ===================================================================== *)

Module DedupProperties.
Import Calendar Runtime Views TraceFacts.
Import Scraper.



(** What the loop of phase 3 decides for one search entry. *)
Lemma new_job_id_spec (ids : gset string) (pairs : gset (string * string))
    (j : job_item) :
  let c := normalized (_get_careers_future_job_company_name (Dict j)) in
  let t := normalized (item_title j) in
  new_job_id ids pairs (Dict j)
  = if truthy (str_uuid j) && bool_decide (str_uuid j ∈ ids) then None
    else if usable c && usable t
            && bool_decide ((default ""%string c, default ""%string t)
                            ∈ pairs)
         then None
         else Some (str_uuid j).
Proof.
  intros c t. unfold new_job_id. fold c t.
  destruct (truthy (str_uuid j) && bool_decide (str_uuid j ∈ ids));
    [reflexivity|].
  destruct c as [c'|], t as [t'|]; cbn [usable default andb]; try reflexivity.
  destruct (truthy c'); reflexivity.
Qed.





(** A query over two pages whose entries C and D are new: with a
    text generation that answers, both details are fetched and kept. *)
Example board_query_fetches_kept_ids :
  let run := process_careers_future_query 5 "welder"%string
               (Scenario.two_pages_served (Some "**Welder**"%string))
               Scenario.no_files in
  requested (trace (snd run)) = [job_api_url "C"; job_api_url "D"]%string
  /\ option_map (map description)
       (match fst run with Returned l => Some l | Raised _ => None end)
     = Some [Some "**Welder**"%string; Some "**Welder**"%string].
Proof. vm_compute. split; reflexivity. Qed.

(** The same query with a text generation that fails: the decrement
    raises inside the first detail fetch, whose [except] clauses do not
    catch it, and the query ends there. *)
Example board_query_ends_on_failed_generation :
  let run := process_careers_future_query 5 "welder"%string
               (Scenario.two_pages_served None) Scenario.no_files in
  fst run = Raised TypeError
  /\ requested (trace (snd run)) = [job_api_url "C"]%string.
Proof. vm_compute. split; reflexivity. Qed.

End DedupProperties.

(* ===================================================================== *)
(** ** More on the quota ledger                                           *)
(* ===================================================================== *)

Module QuotaBehaviour.
Import Calendar Runtime Quota Views MoreViews CalendarFacts QuotaFacts.

Lemma new_day_check (E : env) (w : world)
    (reset : reset_value) :
  parse_reset_date
    (daily_reset_date (decode_state (fs w !! Scraper.QUOTA_STATE_FILE)))
    = Returned reset ->
  (reset = ResetNone
   \/ exists d, reset = ResetDate d
                /\ date_gtb (dt_date (clock E (reads w))) d = true) ->
  Scraper.check_and_enforce_quota E w
  = (Returned true,
     wrote Scraper.QUOTA_STATE_FILE
       (saved 1 (Some (dt_date (clock E (reads w)))) [clock E (reads w)])
       E (tick w)).
Proof.
  intros Hp Hnew.
  unfold Scraper.check_and_enforce_quota, check_and_enforce_quota.
  unfold bind at 1. rewrite load_eq.
  unfold bind at 1, lift at 1. rewrite Hp.
  unfold bind at 1, now at 1. unfold bind at 1, lift at 1.
  assert (reset_if_new_day (clock E (reads w))
            (daily_request_count
               (decode_state (fs w !! Scraper.QUOTA_STATE_FILE)))
            reset
            (request_timestamps
               (decode_state (fs w !! Scraper.QUOTA_STATE_FILE)))
          = Returned (0, dt_date (clock E (reads w)), [])) as ->.
  { destruct Hnew as [-> | (d & -> & Hgt)]; cbn; [|rewrite Hgt]; reflexivity. }
  reflexivity.
Qed.

(** On a new day, or without a stored reset date, the call is granted
    without a wait, whatever count and timestamps were stored: the file
    then holds a count of 1, the date of the clock reading and that
    reading as the only timestamp. *)
Theorem new_day_restarts_the_count (E : env) (w : world)
    (reset : reset_value) :
  parse_reset_date
    (daily_reset_date (decode_state (fs w !! Scraper.QUOTA_STATE_FILE)))
    = Returned reset ->
  (reset = ResetNone
   \/ exists d, reset = ResetDate d
                /\ date_gtb (dt_date (clock E (reads w))) d = true) ->
  Scraper.check_and_enforce_quota E w
  = (Returned true,
     wrote Scraper.QUOTA_STATE_FILE
       (saved 1 (Some (dt_date (clock E (reads w)))) [clock E (reads w)])
       E (tick w)).
Proof. exact (new_day_check E w reset). Qed.

Lemma new_day_restarts_the_count_witness :
  Scraper.check_and_enforce_quota Scenario.failing_service
    (Scenario.with_state
       (saved 20 (Some (mkdate 2025 1 14)) [Scenario.noon_clock 0]))
  = (Returned true,
     wrote Scraper.QUOTA_STATE_FILE
       (saved 1 (Some Scenario.today) [Scenario.noon_clock 0])
       Scenario.failing_service
       (tick (Scenario.with_state
                (saved 20 (Some (mkdate 2025 1 14))
                       [Scenario.noon_clock 0])))).
Proof.
  apply (new_day_restarts_the_count Scenario.failing_service
           (Scenario.with_state
              (saved 20 (Some (mkdate 2025 1 14)) [Scenario.noon_clock 0]))
           (ResetDate (mkdate 2025 1 14))).
  - vm_compute. reflexivity.
  - right. exists (mkdate 2025 1 14). split; reflexivity.
Defined.

(** A call that does not return [True], because it refuses or because
    it raises, has not touched the state file, has not tried to write
    and has not slept. *)
Theorem only_granted_calls_write (E : env) (w w' : world)
    (r : outcome bool) :
  Scraper.check_and_enforce_quota E w = (r, w') ->
  r <> Returned true ->
  fs w' = fs w /\ writes w' = writes w /\ trace w' = trace w
  /\ calls w' = calls w.
Proof.
  intros Hrun Hr.
  pose proof (check_cases Scraper.QUOTA_STATE_FILE
                Scraper.MAX_REQUESTS_PER_DAY E w) as Hc.
  cbn zeta in Hc. unfold Scraper.check_and_enforce_quota in Hrun.
  destruct (parse_reset_date _) as [reset|e].
  2:{ rewrite Hc in Hrun. injection Hrun as <- <-. repeat split. }
  destruct (reset_if_new_day _ _ reset _) as [[[count d] ts]|e].
  2:{ rewrite Hc in Hrun. injection Hrun as <- <-. repeat split. }
  destruct (Scraper.MAX_REQUESTS_PER_DAY <=? count).
  { rewrite Hc in Hrun. injection Hrun as <- <-. repeat split. }
  destruct Hc as (t & w1 & Heq & _). rewrite Heq in Hrun.
  injection Hrun as <- <-. congruence.
Qed.

Lemma only_granted_calls_write_witness :
  fs (snd (Scraper.check_and_enforce_quota Scenario.failing_service
             (Scenario.with_state
                (Json (mkstored 3 (Some "yesterday"%string) [])))))
  = fs (Scenario.with_state (Json (mkstored 3 (Some "yesterday"%string) []))).
Proof.
  apply (only_granted_calls_write Scenario.failing_service
           (Scenario.with_state
              (Json (mkstored 3 (Some "yesterday"%string) [])))
           _ (Raised ValueError)).
  - vm_compute. reflexivity.
  - discriminate.
Defined.




(** The earliest and the latest of a list of instants are among them. *)
Lemma fold_min_in (l : list Z) (a : Z) : In (fold_left Z.min l a) (a :: l).
Proof.
  revert a. induction l as [|x r IH]; intros a; cbn [fold_left].
  - left. reflexivity.
  - destruct (IH (Z.min a x)) as [H | H].
    + destruct (Z.min_spec a x) as [[_ Hm] | [_ Hm]].
      * left. transitivity (Z.min a x); [symmetry; exact Hm | exact H].
      * right. left.
        transitivity (Z.min a x); [symmetry; exact Hm | exact H].
    + right. right. exact H.
Qed.

Lemma fold_max_ge (l : list Z) (a : Z) : a <= fold_left Z.max l a.
Proof.
  revert a. induction l as [|x r IH]; intros a; cbn [fold_left]; [lia|].
  specialize (IH (Z.max a x)). lia.
Qed.

Lemma prune_recent (now0 : datetime) (ts : list datetime) (t : datetime) :
  In t (prune now0 ts) -> to_micros now0 - 60000000 < to_micros t.
Proof.
  unfold prune. intros H. apply List.filter_In in H as [_ H]. lia.
Qed.

(** When four or more timestamps are less than a minute old, the call
    always waits: the oldest of them is less than a minute old, so the
    computed wait is positive and the sleep, which adds a second, lasts
    more than a second. It lasts at most 61 seconds when no stored
    timestamp is later than the clock reading. *)
Theorem per_minute_cap_always_waits (now0 : datetime)
    (ts : list datetime) (E : env) (w : world) :
  MAX_REQUESTS_PER_MINUTE <= Z.of_nat (length (prune now0 ts)) ->
  exists d,
    enforce_rpm now0 (prune now0 ts) E w
    = (Returned (clock E (reads w)),
       mkworld (fs w) (S (reads w)) (writes w) (calls w) (requests w)
               (draws w) (trace w ++ [Slept d]))
    /\ 1000000 < d
    /\ ((forall t, In t ts -> to_micros t <= to_micros now0) ->
        d <= 61000000).
Proof.
  intros Hlen. unfold enforce_rpm.
  replace (MAX_REQUESTS_PER_MINUTE <=? Z.of_nat (length (prune now0 ts)))
    with true by lia.
  destruct (prune now0 ts) as [|t0 r] eqn:Hpr;
    [unfold MAX_REQUESTS_PER_MINUTE in Hlen; cbn in Hlen; lia|].
  unfold bind, lift, oldest_request.
  set (oldest := fold_left Z.min (map to_micros r) (to_micros t0)).
  assert (In oldest (map to_micros (t0 :: r))) as Hin
    by apply fold_min_in.
  apply List.in_map_iff in Hin as (t & Ht & Hint).
  rewrite <- Hpr in Hint.
  pose proof (prune_recent _ _ _ Hint) as Hrecent.
  replace (0 <? 60000000 - (to_micros now0 - oldest)) with true by lia.
  eexists. split; [reflexivity|]. split; [lia|].
  intros Hpast. unfold prune in Hint.
  apply List.filter_In in Hint as [Hint _].
  specialize (Hpast t Hint). lia.
Qed.

Lemma per_minute_cap_always_waits_witness :
  exists d,
    enforce_rpm (Scenario.noon_clock 2)
      (prune (Scenario.noon_clock 2)
         [Scenario.noon_clock 0; Scenario.noon_clock 0;
          Scenario.noon_clock 1; Scenario.noon_clock 1])
      Scenario.failing_service Scenario.no_files
    = (Returned (Scenario.noon_clock 0),
       mkworld ∅ 1 0 0 0 0 [Slept d])
    /\ 1000000 < d
    /\ ((forall t,
            In t [Scenario.noon_clock 0; Scenario.noon_clock 0;
                  Scenario.noon_clock 1; Scenario.noon_clock 1] ->
            to_micros t <= to_micros (Scenario.noon_clock 2)) ->
        d <= 61000000).
Proof.
  apply (per_minute_cap_always_waits (Scenario.noon_clock 2)
           [Scenario.noon_clock 0; Scenario.noon_clock 0;
            Scenario.noon_clock 1; Scenario.noon_clock 1]
           Scenario.failing_service Scenario.no_files).
  vm_compute. discriminate.
Defined.

(** The trace a wait adds: nothing, or one positive sleep. *)
Lemma enforce_rpm_trace (t : datetime) (ts : list datetime) (E : env)
    (w : world) :
  exists t' w' new,
    enforce_rpm t ts E w = (Returned t', w')
    /\ trace w' = trace w ++ new
    /\ Forall positive_sleep new /\ (length new <= 1)%nat.
Proof.
  unfold enforce_rpm.
  destruct (MAX_REQUESTS_PER_MINUTE <=? Z.of_nat (length ts)) eqn:Hlen.
  - destruct ts as [|t0 r]; [discriminate Hlen|].
    + unfold bind, lift, oldest_request.
      destruct (0 <? _) eqn:Hpos.
      * eexists _, _, [_]. split; [reflexivity|]. split; [reflexivity|].
        split; [|cbn; lia]. repeat constructor.
        eexists. split; [reflexivity|]. lia.
      * eexists _, _, []. split; [reflexivity|]. rewrite app_nil_r.
        repeat split; [constructor | cbn; lia].
  - eexists _, _, []. split; [reflexivity|]. rewrite app_nil_r.
    repeat split; [constructor | cbn; lia].
Qed.

Lemma enforce_spacing_trace (t : datetime) (ts : list datetime) (E : env)
    (w : world) :
  exists t' w' new,
    enforce_spacing t ts E w = (Returned t', w')
    /\ trace w' = trace w ++ new
    /\ Forall positive_sleep new /\ (length new <= 1)%nat.
Proof.
  unfold enforce_spacing.
  destruct ts as [|t0 r].
  - eexists _, _, []. split; [reflexivity|]. rewrite app_nil_r.
    repeat split; [constructor | cbn; lia].
  - unfold bind, lift, last_request.
    destruct (_ <? SECONDS_BETWEEN_REQUESTS) eqn:Hshort.
    + eexists _, _, [_]. split; [reflexivity|]. split; [reflexivity|].
      split; [|cbn; lia]. repeat constructor.
      eexists. split; [reflexivity|]. lia.
    + eexists _, _, []. split; [reflexivity|]. rewrite app_nil_r.
      repeat split; [constructor | cbn; lia].
Qed.

(** Whatever the clock and the stored timestamps, a call adds to the
    trace at most two events, each a sleep of a positive duration:
    [time.sleep] is never handed a negative number. *)
Theorem check_sleeps_are_positive (E : env) (w : world) :
  exists new,
    trace (snd (Scraper.check_and_enforce_quota E w)) = trace w ++ new
    /\ Forall positive_sleep new
    /\ (length new <= 2)%nat.
Proof.
  unfold Scraper.check_and_enforce_quota, check_and_enforce_quota.
  unfold load_quota_state, read_file. unfold bind, lift, now, ret.
  destruct (parse_reset_date _) as [reset|e].
  2:{ exists []. rewrite app_nil_r. repeat split; [constructor|cbn; lia]. }
  destruct (reset_if_new_day _ _ reset _) as [[[count d] ts]|e].
  2:{ exists []. rewrite app_nil_r. repeat split; [constructor|cbn; lia]. }
  destruct (Scraper.MAX_REQUESTS_PER_DAY <=? count).
  { exists []. rewrite app_nil_r. repeat split; [constructor|cbn; lia]. }
  match goal with
  | |- context [enforce_rpm ?t ?l ?E ?w0] =>
      destruct (enforce_rpm_trace t l E w0)
        as (t1 & w1 & new1 & Heq1 & Htr1 & Hpos1 & Hlen1)
  end.
  match goal with
  | |- context [enforce_spacing _ ?l ?E _] =>
      destruct (enforce_spacing_trace t1 l E w1)
        as (t2 & w2 & new2 & Heq2 & Htr2 & Hpos2 & Hlen2)
  end.
  rewrite Heq1, Heq2. unfold save_quota_state, write_file, bind, ret.
  cbn [snd trace]. cbn [trace] in Htr1.
  exists (new1 ++ new2). rewrite Htr2, Htr1, app_assoc.
  split; [reflexivity|]. split.
  - apply Forall_app. split; assumption.
  - rewrite length_app. lia.
Qed.

(** The cap is the only place where the two copies of the check
    differ. *)
Lemma check_cap_irrelevant (F : string) (M1 M2 : Z) (E : env) (w : world) :
  (forall reset count d ts,
      parse_reset_date (daily_reset_date (decode_state (fs w !! F)))
        = Returned reset ->
      reset_if_new_day (clock E (reads w))
        (daily_request_count (decode_state (fs w !! F))) reset
        (request_timestamps (decode_state (fs w !! F)))
        = Returned (count, d, ts) ->
      (M1 <=? count) = (M2 <=? count)) ->
  check_and_enforce_quota F M1 E w = check_and_enforce_quota F M2 E w.
Proof.
  intros Hsame.
  unfold check_and_enforce_quota, load_quota_state, read_file.
  unfold bind, lift, now, ret.
  destruct (parse_reset_date _) as [reset|e]; [|reflexivity].
  destruct (reset_if_new_day _ _ reset _) as [[[count d] ts]|e] eqn:Hr;
    [|reflexivity].
  rewrite (Hsame reset count d ts eq_refl Hr). reflexivity.
Qed.

(** The scraper's check and the resume parser's do the same thing to
    the same world, result and effects, unless the count the call goes
    on with after the new-day step is exactly 19. *)
Theorem checks_agree_off_the_boundary (E : env) (w : world) :
  (forall reset d ts,
      parse_reset_date
        (daily_reset_date (decode_state (fs w !! Scraper.QUOTA_STATE_FILE)))
        = Returned reset ->
      reset_if_new_day (clock E (reads w))
        (daily_request_count
           (decode_state (fs w !! Scraper.QUOTA_STATE_FILE)))
        reset
        (request_timestamps
           (decode_state (fs w !! Scraper.QUOTA_STATE_FILE)))
      <> Returned (19, d, ts)) ->
  Scraper.check_and_enforce_quota E w
  = ParseResume.check_and_enforce_quota E w.
Proof.
  intros Hnot19.
  unfold Scraper.check_and_enforce_quota, ParseResume.check_and_enforce_quota.
  change ParseResume.QUOTA_STATE_FILE with Scraper.QUOTA_STATE_FILE.
  apply check_cap_irrelevant.
  intros reset count d ts Hp Hr.
  assert (count <> 19) as Hne.
  { intros ->. exact (Hnot19 reset d ts Hp Hr). }
  unfold Scraper.MAX_REQUESTS_PER_DAY, ParseResume.MAX_REQUESTS_PER_DAY.
  lia.
Qed.

Lemma checks_agree_off_the_boundary_witness :
  Scraper.check_and_enforce_quota Scenario.failing_service
    (Scenario.with_state (saved 18 (Some Scenario.today) []))
  = ParseResume.check_and_enforce_quota Scenario.failing_service
      (Scenario.with_state (saved 18 (Some Scenario.today) [])).
Proof.
  apply (checks_agree_off_the_boundary Scenario.failing_service
           (Scenario.with_state (saved 18 (Some Scenario.today) []))).
  intros reset d ts Hp Hr.
  vm_compute in Hp. injection Hp as <-.
  vm_compute in Hr. discriminate Hr.
Defined.

Lemma decoded_count (F : string) (w : world) :
  daily_request_count (decode_state (fs w !! F)) = persisted_count F w
  \/ daily_request_count (decode_state (fs w !! F)) = 0.
Proof.
  unfold persisted_count, decode_state.
  destruct (fs w !! F) as [[|j]|]; cbn; auto.
  destruct (comprehension _ _); cbn; auto.
Qed.

Lemma reset_count (now0 : datetime) (c c' : Z) (reset : reset_value)
    (ts ts' : list datetime) (d : date) :
  reset_if_new_day now0 c reset ts = Returned (c', d, ts') ->
  c' = c \/ c' = 0.
Proof.
  destruct reset as [|d0|s]; cbn; [| |discriminate].
  - intros [= <- _ _]. auto.
  - destruct (date_gtb _ _); intros [= <- _ _]; auto.
Qed.

(** A check with a cap of at most [B] keeps the stored count between 0
    and [B]. *)
Lemma check_keeps_range (F : string) (MAX B : Z) (E : env) (w : world) :
  MAX <= B ->
  0 <= persisted_count F w <= B ->
  0 <= persisted_count F (snd (check_and_enforce_quota F MAX E w)) <= B.
Proof.
  intros HB Hin.
  pose proof (check_cases F MAX E w) as Hc. cbn zeta in Hc.
  destruct (parse_reset_date _) as [reset|e]; [|rewrite Hc; exact Hin].
  destruct (reset_if_new_day _ _ reset _) as [[[count d] ts]|e] eqn:Hr;
    [|rewrite Hc; exact Hin].
  destruct (MAX <=? count) eqn:Hcap; [rewrite Hc; exact Hin|].
  destruct Hc as (t & w' & -> & _ & Hfs & _). cbn [snd].
  unfold persisted_count at 1 2. rewrite Hfs.
  destruct (disk_writable E (writes w)); [|exact Hin].
  rewrite lookup_insert_eq. cbn [saved st_daily_request_count].
  apply reset_count in Hr.
  destruct (decoded_count F w) as [Hd | Hd]; rewrite Hd in Hr; lia.
Qed.

(** The decrement keeps the stored count between 0 and [B] too. *)
Lemma decrement_keeps_range (F : string) (B : Z) (E : env) (w : world) :
  0 <= persisted_count F w <= B ->
  0 <= persisted_count F (snd (decrement_after_failure F E w)) <= B.
Proof.
  intros Hin. rewrite decrement_cases. cbn zeta.
  destruct (reparse_reset_date _) as [d|e]; [|exact Hin].
  destruct (request_timestamps _); [|exact Hin].
  cbn [snd]. unfold persisted_count at 1 2, wrote. cbn [fs].
  destruct (disk_writable E (writes w)); [|exact Hin].
  rewrite lookup_insert_eq. cbn [saved st_daily_request_count].
  destruct (decoded_count F w) as [Hd | Hd]; rewrite Hd; lia.
Qed.

(** Whatever the order in which the scraper and the resume parser
    check the quota and run their failure-path decrement on the state
    file they share, a stored count between 0 and 20 stays between 0
    and 20. *)
Theorem shared_count_stays_in_range (ops : list ledger_op) (E : env)
    (w : world) :
  0 <= persisted_count Scraper.QUOTA_STATE_FILE w <= 20 ->
  0 <= persisted_count Scraper.QUOTA_STATE_FILE (ledger_run ops E w) <= 20.
Proof.
  revert w. induction ops as [|op rest IH]; intros w Hin; [exact Hin|].
  cbn [ledger_run]. apply IH.
  destruct op; cbn [ledger_step].
  - apply check_keeps_range; [reflexivity | exact Hin].
  - apply decrement_keeps_range. exact Hin.
  - apply (check_keeps_range Scraper.QUOTA_STATE_FILE
             ParseResume.MAX_REQUESTS_PER_DAY 20);
      [unfold ParseResume.MAX_REQUESTS_PER_DAY; lia | exact Hin].
  - apply (decrement_keeps_range Scraper.QUOTA_STATE_FILE). exact Hin.
Qed.

Lemma shared_count_stays_in_range_witness :
  0 <= persisted_count Scraper.QUOTA_STATE_FILE
         (ledger_run [ScraperCheck; ResumeCheck; ScraperRelease;
                      ResumeCheck; ScraperCheck; ResumeRelease]
            Scenario.failing_service
            (Scenario.with_state (saved 18 (Some Scenario.today) [])))
    <= 20.
Proof.
  apply (shared_count_stays_in_range
           [ScraperCheck; ResumeCheck; ScraperRelease;
            ResumeCheck; ScraperCheck; ResumeRelease]
           Scenario.failing_service
           (Scenario.with_state (saved 18 (Some Scenario.today) []))).
  vm_compute. split; discriminate.
Defined.

End QuotaBehaviour.

(* ===================================================================== *)
(** ** More on the two callers of the text generation                     *)
(* ===================================================================== *)

Module EnrichmentBehaviour.
Import Calendar Runtime Quota Views MoreViews CalendarFacts QuotaFacts.
Import QuotaProperties EnrichmentProperties QuotaBehaviour.

Lemma granted_same_calls (F : string) (MAX : Z) (E : env) (w w1 : world)
    (r : outcome bool) :
  check_and_enforce_quota F MAX E w = (r, w1) -> calls w1 = calls w.
Proof.
  intros Hrun.
  pose proof (check_cases F MAX E w) as Hc. cbn zeta in Hc.
  destruct (parse_reset_date _) as [reset|e];
    [|rewrite Hc in Hrun; injection Hrun as <- <-; reflexivity].
  destruct (reset_if_new_day _ _ reset _) as [[[count d] ts]|e];
    [|rewrite Hc in Hrun; injection Hrun as <- <-; reflexivity].
  destruct (MAX <=? count);
    [rewrite Hc in Hrun; injection Hrun as <- <-; reflexivity|].
  destruct Hc as (t & w' & Heq & _ & _ & _ & Hcalls & _).
  rewrite Heq in Hrun. injection Hrun as <- <-. exact Hcalls.
Qed.

Lemma decrement_same_calls (F : string) (E : env) (w : world) :
  calls (snd (decrement_after_failure F E w)) = calls w.
Proof.
  rewrite decrement_cases. cbn zeta.
  destruct (reparse_reset_date _); [|reflexivity].
  destruct (request_timestamps _); reflexivity.
Qed.

(** Whenever the conversion of a non-empty text returns, what it
    returns is not empty: the stripped answer when there is one, the
    input otherwise. *)
Theorem conversion_never_returns_empty (text result : string) (E : env)
    (w w' : world) :
  truthy text = true ->
  Scraper.convert_plain_text_to_markdown_with_ai text E w
    = (Returned result, w') ->
  truthy result = true
  /\ (result = text
      \/ exists answer,
           generate_content E (calls w) (Scraper.markdown_prompt text)
             = Some answer
           /\ result = strip answer).
Proof.
  intros Ht Hrun. rewrite convert_cases in Hrun by exact Ht.
  destruct (Scraper.check_and_enforce_quota E w) as [[[|]|e] w1] eqn:Hcheck;
    [| |discriminate].
  - rewrite (granted_same_calls _ _ _ _ _ _ Hcheck) in Hrun.
    destruct (generate_content E (calls w) (Scraper.markdown_prompt text))
      as [answer|] eqn:Hgen.
    + destruct (truthy (strip answer)) eqn:Hs;
        injection Hrun as <- <-; split; eauto.
    + destruct (Scraper.decrement_after_failure E _) as [[u|e] w2];
        [|discriminate].
      injection Hrun as <- <-. split; auto.
  - injection Hrun as <- <-. split; auto.
Qed.

Lemma conversion_never_returns_empty_witness :
  truthy "Weld, daily."%string = true
  /\ ("Weld, daily."%string = "Build things."%string
      \/ exists answer,
           generate_content
             (Scenario.two_pages_served (Some "  Weld, daily.  "%string))
             (calls Scenario.no_files)
             (Scraper.markdown_prompt "Build things."%string)
             = Some answer
           /\ "Weld, daily."%string = strip answer).
Proof.
  apply (conversion_never_returns_empty "Build things."%string
           "Weld, daily."%string
           (Scenario.two_pages_served (Some "  Weld, daily.  "%string))
           Scenario.no_files
           (snd (Scraper.convert_plain_text_to_markdown_with_ai
                   "Build things."%string
                   (Scenario.two_pages_served
                      (Some "  Weld, daily.  "%string))
                   Scenario.no_files))).
  - reflexivity.
  - vm_compute. reflexivity.
Defined.

(** A conversion makes at most one text-generation call, and makes one
    exactly when the input is not empty and the quota check returned
    [True]. *)
Theorem conversion_calls_once_when_granted (text : string) (E : env)
    (w : world) :
  let run := Scraper.convert_plain_text_to_markdown_with_ai text E w in
  (calls (snd run) = calls w \/ calls (snd run) = S (calls w))
  /\ (calls (snd run) = S (calls w)
      <-> truthy text = true
          /\ fst (Scraper.check_and_enforce_quota E w) = Returned true).
Proof.
  intros run. subst run.
  destruct (truthy text) eqn:Ht.
  2:{ destruct text; [|discriminate]. cbn. split; [auto|].
      split; [lia | intros [H _]; discriminate]. }
  rewrite convert_cases by exact Ht.
  destruct (Scraper.check_and_enforce_quota E w) as [[[|]|e] w1] eqn:Hcheck;
    pose proof (granted_same_calls _ _ _ _ _ _ Hcheck) as Hcalls;
    cbn [fst snd].
  - assert (calls (snd
              match generate_content E (calls w1)
                      (Scraper.markdown_prompt text) with
              | Some answer =>
                  (Returned (if truthy (strip answer) then strip answer
                             else text),
                   called (Scraper.markdown_prompt text) w1)
              | None =>
                  match Scraper.decrement_after_failure E
                          (called (Scraper.markdown_prompt text) w1) with
                  | (Returned _, w2) => (Returned text, w2)
                  | (Raised e, w2) => (Raised e, w2)
                  end
              end) = S (calls w)) as Hone.
    { destruct (generate_content E (calls w1) _).
      - cbn. rewrite Hcalls. reflexivity.
      - pose proof (decrement_same_calls Scraper.QUOTA_STATE_FILE E
                      (called (Scraper.markdown_prompt text) w1)) as Hd.
        unfold Scraper.decrement_after_failure.
        destruct (decrement_after_failure _ E _) as [[u|e] w2];
          cbn [snd] in *; rewrite Hd; cbn; rewrite Hcalls; reflexivity. }
    rewrite Hone. split; [auto|]. split; auto.
  - rewrite Hcalls. split; [auto|].
    split; [lia | intros [_ H]; discriminate].
  - rewrite Hcalls. split; [auto|].
    split; [lia | intros [_ H]; discriminate].
Qed.

(** The resume parser returns [None] exactly when its quota check
    refuses; it has then made no text-generation call and left the state
    file as it was. *)
Theorem resume_parser_returns_none_when_refused (resume_text : string)
    (E : env) (w w' : world) :
  (ParseResume.parse_resume_with_ai resume_text E w = (Returned None, w')
   <-> ParseResume.check_and_enforce_quota E w = (Returned false, w'))
  /\ (ParseResume.parse_resume_with_ai resume_text E w = (Returned None, w')
      -> calls w' = calls w /\ fs w' = fs w).
Proof.
  assert (ParseResume.parse_resume_with_ai resume_text E w
          = (Returned None, w')
          <-> ParseResume.check_and_enforce_quota E w = (Returned false, w'))
    as Hiff.
  { rewrite parse_resume_cases.
    destruct (ParseResume.check_and_enforce_quota E w) as [[[|]|e] w1].
    - split; [|discriminate].
      destruct (generate_content E (calls w1) _); [discriminate|].
      destruct (ParseResume.decrement_after_failure E _) as [[u|e] w2];
        discriminate.
    - split; intros [= <-]; reflexivity.
    - split; discriminate. }
  split; [exact Hiff|].
  intros Hnone. apply Hiff in Hnone.
  apply rejected_world in Hnone. subst w'. split; reflexivity.
Qed.

Lemma resume_parser_returns_none_when_refused_witness :
  calls (snd (ParseResume.parse_resume_with_ai "Ada, engineer."%string
                Scenario.failing_service
                (Scenario.with_state (saved 19 (Some Scenario.today) []))))
  = calls (Scenario.with_state (saved 19 (Some Scenario.today) []))
  /\ fs (snd (ParseResume.parse_resume_with_ai "Ada, engineer."%string
                Scenario.failing_service
                (Scenario.with_state (saved 19 (Some Scenario.today) []))))
     = fs (Scenario.with_state (saved 19 (Some Scenario.today) [])).
Proof.
  apply (proj2 (resume_parser_returns_none_when_refused
                  "Ada, engineer."%string Scenario.failing_service
                  (Scenario.with_state (saved 19 (Some Scenario.today) []))
                  _)).
  vm_compute. reflexivity.
Defined.

End EnrichmentBehaviour.

(* ===================================================================== *)
(** ** More on the retry loop                                             *)
(* ===================================================================== *)

Module FetchBehaviour.
Import Calendar Runtime Views.
Import Scraper FetchProperties.

(** Whatever the answers, the loop ends with [retries] between where
    it started and [MAX_RETRIES], having sent one request more than it
    made retries and slept once per retry. *)
Lemma retry_loop_bounded (MAX DELAY : Z) (url : string) (E : env) :
  forall (fuel : nat) (agent : nat) (retries : Z) (w : world),
    retries <= MAX ->
    (Z.to_nat (MAX - retries) < fuel)%nat ->
    exists res r w',
      retry_loop MAX DELAY fuel url agent retries E w
      = (Returned (res, r), w')
      /\ retries <= r <= MAX
      /\ requests w' = (requests w + Z.to_nat (r - retries) + 1)%nat
      /\ length (sleeps (trace w'))
         = (length (sleeps (trace w)) + Z.to_nat (r - retries))%nat
      /\ fs w' = fs w /\ calls w' = calls w.
Proof.
  induction fuel as [|fuel IH]; intros agent retries w Hle Hfuel; [lia|].
  rewrite retry_loop_step. replace (retries <=? MAX) with true by lia.
  unfold bind at 1, get at 1.
  destruct (http_get E (requests w) url) as [status text|].
  - destruct (is_http_error status).
    + destruct ((status =? 429) && (retries <? MAX)) eqn:Hretry.
      * unfold bind, uniform, sleep, emit, choice.
        cbn [fs reads writes calls requests draws trace].
        match goal with
        | |- context [retry_loop MAX DELAY fuel url ?a ?r0 E ?w0] =>
            destruct (IH a r0 w0) as (res & r & w' & Heq & Hr & Hreq & Hsl
                                      & Hfs & Hcalls)
        end; [lia | lia |].
        exists res, r, w'. split; [exact Heq|].
        cbn [requests trace fs calls] in Hreq, Hsl, Hfs, Hcalls.
        rewrite !sleeps_app, !length_app in Hsl. cbn in Hsl.
        repeat split; try lia; assumption.
      * eexists None, retries, _. split; [reflexivity|].
        cbn. rewrite sleeps_app, length_app. cbn.
        replace (Z.to_nat (retries - retries)) with 0%nat by lia.
        repeat split; lia.
    + eexists (Some text), retries, _. split; [reflexivity|].
      cbn. rewrite sleeps_app, length_app. cbn.
      replace (Z.to_nat (retries - retries)) with 0%nat by lia.
      repeat split; lia.
  - eexists None, retries, _. split; [reflexivity|].
    cbn. rewrite sleeps_app, length_app. cbn.
    replace (Z.to_nat (retries - retries)) with 0%nat by lia.
    repeat split; lia.
Qed.

(** For any answers of the server, a fetch returns, with [retries]
    between 0 and [MAX_RETRIES]; it has sent exactly [retries + 1]
    requests, slept the initial delay and once per retry, and touched
    neither the state file nor the text generation. *)
Theorem fetch_attempts_are_bounded (MAX_RETRIES RETRY_DELAY_SECONDS : Z)
    (url : string) (E : env) (w : world) :
  0 <= MAX_RETRIES ->
  exists res retries w',
    fetch_with_retries MAX_RETRIES RETRY_DELAY_SECONDS url E w
    = (Returned (res, retries), w')
    /\ 0 <= retries <= MAX_RETRIES
    /\ requests w' = (requests w + Z.to_nat retries + 1)%nat
    /\ length (sleeps (trace w'))
       = (length (sleeps (trace w)) + 1 + Z.to_nat retries)%nat
    /\ fs w' = fs w /\ calls w' = calls w.
Proof.
  intros Hmax. unfold fetch_with_retries.
  unfold bind, uniform, sleep, emit, choice.
  cbn [fs reads writes calls requests draws trace].
  match goal with
  | |- context [retry_loop _ _ ?f url ?a 0 E ?w0] =>
      destruct (retry_loop_bounded MAX_RETRIES RETRY_DELAY_SECONDS url E
                  f a 0 w0)
        as (res & r & w' & Heq & Hr & Hreq & Hsl & Hfs & Hcalls)
  end; [lia | lia |].
  exists res, r, w'. split; [exact Heq|].
  cbn [requests trace fs calls] in Hreq, Hsl, Hfs, Hcalls.
  rewrite sleeps_app, length_app in Hsl. cbn in Hsl.
  replace (r - 0) with r in * by lia.
  repeat split; try lia; assumption.
Qed.

Lemma fetch_attempts_are_bounded_witness :
  exists res retries w',
    fetch_with_retries 3 5000000 "https://example.org/jobs"%string
      Scenario.throttled Scenario.no_files
    = (Returned (res, retries), w')
    /\ 0 <= retries <= 3
    /\ requests w' = (requests Scenario.no_files + Z.to_nat retries + 1)%nat
    /\ length (sleeps (trace w'))
       = (length (sleeps (trace Scenario.no_files)) + 1
          + Z.to_nat retries)%nat
    /\ fs w' = fs Scenario.no_files /\ calls w' = calls Scenario.no_files.
Proof.
  apply (fetch_attempts_are_bounded 3 5000000
           "https://example.org/jobs"%string
           Scenario.throttled Scenario.no_files).
  lia.
Defined.

(** A run of [n] answers 429 while retries are left brings the loop to
    [retries + n], one request and one backoff later each. *)
Lemma retry_loop_throttled (MAX DELAY : Z) (url : string) (E : env) :
  forall (n fuel : nat) (agent : nat) (retries : Z) (w : world),
    retries + Z.of_nat n <= MAX ->
    (forall k, (k < n)%nat ->
       exists text, http_get E (requests w + k)%nat url = Response 429 text) ->
    exists agent' w',
      retry_loop MAX DELAY (n + fuel) url agent retries E w
      = retry_loop MAX DELAY fuel url agent' (retries + Z.of_nat n) E w'
      /\ requests w' = (requests w + n)%nat
      /\ length (sleeps (trace w')) = (length (sleeps (trace w)) + n)%nat
      /\ fs w' = fs w.
Proof.
  induction n as [|n IH]; intros fuel agent retries w Hle Hall.
  - exists agent, w. rewrite Z.add_0_r, !Nat.add_0_r.
    repeat split; reflexivity.
  - destruct (Hall 0%nat ltac:(lia)) as [text Hget].
    rewrite Nat.add_0_r in Hget.
    cbn [Nat.add]. rewrite retry_loop_step.
    replace (retries <=? MAX) with true by lia.
    unfold bind at 1, get at 1. rewrite Hget.
    change (is_http_error 429) with true. cbn iota.
    replace ((429 =? 429) && (retries <? MAX)) with true by lia.
    unfold bind, uniform, sleep, emit, choice.
    cbn [fs reads writes calls requests draws trace].
    match goal with
    | |- context [retry_loop MAX DELAY (n + fuel) url ?a ?r0 E ?w0] =>
        destruct (IH fuel a r0 w0) as (agent' & w' & Heq & Hreq & Hsl & Hfs)
    end.
    + lia.
    + intros k Hk. cbn [requests].
      destruct (Hall (S k) ltac:(lia)) as [text' Hget'].
      exists text'. rewrite <- Hget'. f_equal. lia.
    + exists agent', w'. rewrite Heq.
      cbn [requests trace fs] in Hreq, Hsl, Hfs.
      rewrite !sleeps_app, !length_app in Hsl. cbn in Hsl.
      split; [f_equal; lia|]. repeat split; [lia | lia | exact Hfs].
Qed.

(** When the server answers 429 [n] times, with [n] at most
    [MAX_RETRIES], and then with a status that is no error, the fetch
    returns the text of that answer after [n] retries and [n + 1]
    requests. *)
Theorem fetch_recovers_after_throttling
    (MAX_RETRIES RETRY_DELAY_SECONDS : Z) (url : string) (E : env)
    (w : world) (n : nat) (status : Z) (text : string) :
  Z.of_nat n <= MAX_RETRIES ->
  (forall k, (k < n)%nat ->
     exists body, http_get E (requests w + k)%nat url = Response 429 body) ->
  http_get E (requests w + n)%nat url = Response status text ->
  is_http_error status = false ->
  let run := fetch_with_retries MAX_RETRIES RETRY_DELAY_SECONDS url E w in
  fst run = Returned (Some text, Z.of_nat n)
  /\ requests (snd run) = (requests w + n + 1)%nat.
Proof.
  intros Hn Hall Hok Hstatus run. subst run. unfold fetch_with_retries.
  replace (Z.to_nat (MAX_RETRIES + 1))
    with (n + S (Z.to_nat MAX_RETRIES - n))%nat by lia.
  unfold bind, uniform, sleep, emit, choice.
  cbn [fs reads writes calls requests draws trace].
  match goal with
  | |- context [retry_loop _ _ _ url ?a 0 E ?w0] =>
      destruct (retry_loop_throttled MAX_RETRIES RETRY_DELAY_SECONDS url E
                  n (S (Z.to_nat MAX_RETRIES - n)) a 0 w0)
        as (agent' & w' & Heq & Hreq & _)
  end; [lia | exact Hall |].
  rewrite Heq. cbn [requests] in Hreq.
  rewrite retry_loop_step.
  replace (0 + Z.of_nat n <=? MAX_RETRIES) with true by lia.
  unfold bind, get. rewrite Hreq, Hok, Hstatus. cbn.
  split; [reflexivity | lia].
Qed.

Lemma fetch_recovers_after_throttling_witness :
  fst (fetch_with_retries 3 5000000 "https://example.org/jobs"%string
         (Scenario.outside (fun _ => true) None
            (fun k => match k with
                      | 0%nat | 1%nat => Response 429 ""%string
                      | _ => Response 200 "<li></li>"%string
                      end)
            (fun _ => SearchFailed) None)
         Scenario.no_files)
  = Returned (Some "<li></li>"%string, 2)
  /\ requests
       (snd (fetch_with_retries 3 5000000 "https://example.org/jobs"%string
               (Scenario.outside (fun _ => true) None
                  (fun k => match k with
                            | 0%nat | 1%nat => Response 429 ""%string
                            | _ => Response 200 "<li></li>"%string
                            end)
                  (fun _ => SearchFailed) None)
               Scenario.no_files))
     = 3%nat.
Proof.
  apply (fetch_recovers_after_throttling 3 5000000
           "https://example.org/jobs"%string _ Scenario.no_files 2 200
           "<li></li>"%string).
  - lia.
  - intros k Hk. exists ""%string.
    destruct k as [|[|k]]; [reflexivity | reflexivity | lia].
  - reflexivity.
  - reflexivity.
Defined.

(** With a negative [MAX_RETRIES] the loop body never runs: the fetch
    sleeps its initial delay, sends nothing and has no response. *)
Theorem negative_retry_limit_sends_nothing
    (MAX_RETRIES RETRY_DELAY_SECONDS : Z) (url : string) (E : env)
    (w : world) :
  MAX_RETRIES < 0 ->
  let run := fetch_with_retries MAX_RETRIES RETRY_DELAY_SECONDS url E w in
  fst run = Returned (None, 0)
  /\ requests (snd run) = requests w
  /\ requested (trace (snd run)) = requested (trace w).
Proof.
  intros Hneg run. subst run. unfold fetch_with_retries.
  replace (Z.to_nat (MAX_RETRIES + 1)) with 0%nat by lia.
  unfold bind, uniform, sleep, emit, choice, ret. cbn.
  unfold requested. rewrite omap_app. cbn. rewrite app_nil_r.
  repeat split.
Qed.

Lemma negative_retry_limit_sends_nothing_witness :
  fst (fetch_with_retries (-1) 5000000 "https://example.org/jobs"%string
         Scenario.throttled Scenario.no_files) = Returned (None, 0)
  /\ requests (snd (fetch_with_retries (-1) 5000000
                      "https://example.org/jobs"%string
                      Scenario.throttled Scenario.no_files))
     = requests Scenario.no_files
  /\ requested (trace (snd (fetch_with_retries (-1) 5000000
                              "https://example.org/jobs"%string
                              Scenario.throttled Scenario.no_files)))
     = requested (trace Scenario.no_files).
Proof.
  apply (negative_retry_limit_sends_nothing (-1) 5000000
           "https://example.org/jobs"%string
           Scenario.throttled Scenario.no_files).
  lia.
Defined.

End FetchBehaviour.

(* ===================================================================== *)
(** ** More on the board source                                           *)
(* ===================================================================== *)

Module BoardBehaviour.
Import Calendar Runtime Quota Views MoreViews TraceFacts.
Import Scraper SearchProperties DedupProperties EnrichmentProperties.
Import QuotaBehaviour EnrichmentBehaviour.



(** A search whose second page comes back as a list instead of an
    object: the first page's entry is lost with the [AttributeError]
    that leaves the function. *)
Example board_search_raises_on_a_body_that_is_no_object :
  let E := mkenv (clock Scenario.two_pages)
                 (disk_writable Scenario.two_pages)
                 (generate_content Scenario.two_pages)
                 (http_get Scenario.two_pages)
                 (fun k url =>
                    if String.eqb url Scenario.first_page_url
                    then search_post Scenario.two_pages k url
                    else NotAnObject)
                 (skill_suggestions Scenario.two_pages)
                 (decode_job Scenario.two_pages)
                 (html2text Scenario.two_pages)
                 (existing_jobs Scenario.two_pages)
                 (random_uniform Scenario.two_pages)
                 (random_choice Scenario.two_pages) in
  let run := _fetch_careers_future_jobs 5 "welder"%string E
               Scenario.no_files in
  fst run = Raised AttributeError
  /\ posted (trace (snd run))
     = [careers_future_suggestions_api_url; Scenario.first_page_url;
        Scenario.second_page_url].
Proof. vm_compute. split; reflexivity. Qed.

(** Phase 4 keeps only details with a description that is not blank
    and with an identifier. *)
Lemma fetch_new_details_described (E : env) :
  forall (ids : list string) (w w' : world) (found : list job_details),
    fetch_new_details ids E w = (Returned found, w') ->
    Forall (fun d => has_description d = true /\ is_Some (job_id d)) found.
Proof.
  induction ids as [|id rest IH]; intros w w' found Hrun.
  - injection Hrun as <- <-. constructor.
  - cbn [fetch_new_details] in Hrun. unfold bind at 1 in Hrun.
    destruct (_fetch_careers_future_job_details id E w) as [[details|e] w1];
      [|discriminate].
    unfold bind at 1 in Hrun.
    destruct (fetch_new_details rest E w1) as [[detailed|e] w2] eqn:Hrest;
      [|discriminate].
    specialize (IH _ _ _ Hrest).
    destruct details as [d|].
    + destruct (has_description d && bool_decide (is_Some (job_id d)))
        eqn:Hkeep; injection Hrun as <- <-; [|exact IH].
      apply andb_true_iff in Hkeep as [Hd Hid].
      apply bool_decide_eq_true_1 in Hid. constructor; [split|]; assumption.
    + injection Hrun as <- <-. exact IH.
Qed.

(** Every job a board query returns has an identifier and a description
    with something other than white space in it. *)
Theorem board_jobs_have_descriptions (fuel : nat) (search_query : string)
    (E : env) (w w' : world) (found : list job_details) :
  process_careers_future_query fuel search_query E w = (Returned found, w') ->
  Forall (fun d => is_Some (job_id d)
                   /\ exists text, description d = Some text
                                   /\ truthy (strip text) = true)
         found.
Proof.
  intros Hrun.
  assert (Forall (fun d => has_description d = true /\ is_Some (job_id d))
                 found) as Hall.
  { unfold process_careers_future_query in Hrun. unfold bind at 1 in Hrun.
    destruct (_fetch_careers_future_jobs fuel search_query E w)
      as [[[jobs exit]|e] w1]; [|discriminate].
    cbn [fst] in Hrun. destruct jobs as [|job rest].
    - injection Hrun as <- <-. constructor.
    - unfold bind, ask in Hrun.
      eapply fetch_new_details_described. exact Hrun. }
  eapply Forall_impl; [exact Hall|].
  intros d [Hd Hid]. split; [exact Hid|].
  unfold has_description in Hd.
  destruct (description d) as [text|]; [|discriminate].
  exists text. apply andb_true_iff in Hd as [_ Hd]. split; [reflexivity|exact Hd].
Qed.

Lemma board_jobs_have_descriptions_witness :
  Forall (fun d => is_Some (job_id d)
                   /\ exists text, description d = Some text
                                   /\ truthy (strip text) = true)
    (match fst (process_careers_future_query 5 "welder"%string
                  (Scenario.two_pages_served (Some "**Welder**"%string))
                  Scenario.no_files) with
     | Returned l => l
     | Raised _ => []
     end).
Proof.
  apply (board_jobs_have_descriptions 5 "welder"%string
           (Scenario.two_pages_served (Some "**Welder**"%string))
           Scenario.no_files
           (snd (process_careers_future_query 5 "welder"%string
                   (Scenario.two_pages_served (Some "**Welder**"%string))
                   Scenario.no_files))).
  vm_compute. reflexivity.
Defined.

(** Against an empty index, which is also what a failing store leaves
    the query with, the filter drops nothing but the entries that are
    not JSON objects; an entry without [uuid] is kept under the
    identifier ["None"]. *)
Theorem empty_index_keeps_every_entry (jobs : list search_entry) :
  new_job_ids_to_process jobs ∅ ∅
  = omap (fun entry =>
            match entry with
            | NotADict => None
            | Dict j => Some (default "None"%string (item_uuid j))
            end) jobs.
Proof.
  unfold new_job_ids_to_process. induction jobs as [|entry rest IH];
    [reflexivity|].
  cbn [omap list_omap]. fold (omap (new_job_id ∅ ∅) rest). rewrite IH.
  destruct entry as [|j]; [reflexivity|].
  rewrite new_job_id_spec. cbn zeta.
  rewrite (bool_decide_eq_false_2 _ (not_elem_of_empty (str_uuid j))).
  rewrite andb_false_r.
  rewrite (bool_decide_eq_false_2 _ (not_elem_of_empty _)).
  rewrite andb_false_r. unfold str_uuid.
  destruct (item_uuid j); reflexivity.
Qed.

(** A detail fetch, by the answer to its request. *)
Lemma detail_fetch_cases (id : string) (E : env) (w : world) :
  truthy id = true ->
  _fetch_careers_future_job_details id E w =
  match http_get E (requests w) (job_api_url id) with
  | TransportFailure => (Returned None, after_get (job_api_url id) None w)
  | Response status text =>
      if is_http_error status
      then (Returned None, after_get (job_api_url id) None w)
      else
        match decode_job E text with
        | None => (Returned None, after_get (job_api_url id) None w)
        | Some job =>
            let plain := html2text E (data_description job) in
            let details markdown :=
              mkdetails (item_uuid (data_fields job))
                        (_get_careers_future_job_company_name
                           (Dict (data_fields job)))
                        (item_title (data_fields job)) markdown in
            if truthy (strip plain) then
              match convert_plain_text_to_markdown_with_ai plain E
                      (after_get (job_api_url id) None w) with
              | (Returned markdown, w') =>
                  (Returned (Some (details (Some markdown))), w')
              | (Raised e, w') => (Raised e, w')
              end
            else (Returned (Some (details None)),
                  after_get (job_api_url id) None w)
        end
  end.
Proof.
  intros Hid. unfold _fetch_careers_future_job_details.
  rewrite Hid. cbn [negb]. unfold bind at 1, get.
  fold (after_get (job_api_url id) None w).
  destruct (http_get E (requests w) (job_api_url id)) as [status text|];
    [|reflexivity].
  destruct (is_http_error status); [reflexivity|].
  unfold bind at 1, ask.
  destruct (decode_job E text) as [job|]; [|reflexivity].
  cbn zeta.
  destruct (truthy (strip (html2text E (data_description job))));
    [|reflexivity].
  unfold bind.
  destruct (convert_plain_text_to_markdown_with_ai _ E _) as [[md|e] w'];
    reflexivity.
Qed.

(** A detail fetch spends quota or calls the text generation only for
    a response that is no error, decodes to a job and has a description
    with something other than white space in it. *)
Theorem detail_fetch_spends_quota_on_descriptions_only (id : string)
    (E : env) (w : world) :
  let run := _fetch_careers_future_job_details id E w in
  (fs (snd run) <> fs w \/ calls (snd run) <> calls w) ->
  exists status text job,
    http_get E (requests w) (job_api_url id) = Response status text
    /\ is_http_error status = false
    /\ decode_job E text = Some job
    /\ truthy (strip (html2text E (data_description job))) = true.
Proof.
  intros run Hspent. subst run.
  destruct (truthy id) eqn:Hid.
  2:{ unfold _fetch_careers_future_job_details in Hspent.
      rewrite Hid in Hspent. cbn in Hspent.
      destruct Hspent as [H | H]; congruence. }
  rewrite detail_fetch_cases in Hspent by exact Hid.
  destruct (http_get E (requests w) (job_api_url id)) as [status text|];
    [|cbn in Hspent; destruct Hspent as [H | H]; congruence].
  destruct (is_http_error status) eqn:Herr;
    [cbn in Hspent; destruct Hspent as [H | H]; congruence|].
  destruct (decode_job E text) as [job|] eqn:Hjob;
    [|cbn in Hspent; destruct Hspent as [H | H]; congruence].
  cbn zeta in Hspent.
  destruct (truthy (strip (html2text E (data_description job)))) eqn:Hdesc.
  - exists status, text, job. repeat split; assumption.
  - cbn in Hspent. destruct Hspent as [H | H]; congruence.
Qed.

Lemma detail_fetch_spends_quota_on_descriptions_only_witness :
  exists status text job,
    http_get (Scenario.two_pages_served (Some "**Welder**"%string))
      (requests Scenario.no_files) (job_api_url "C"%string)
    = Response status text
    /\ is_http_error status = false
    /\ decode_job (Scenario.two_pages_served (Some "**Welder**"%string)) text
       = Some job
    /\ truthy (strip (html2text
                        (Scenario.two_pages_served
                           (Some "**Welder**"%string))
                        (data_description job))) = true.
Proof.
  apply (detail_fetch_spends_quota_on_descriptions_only "C"%string
           (Scenario.two_pages_served (Some "**Welder**"%string))
           Scenario.no_files).
  right. vm_compute. discriminate.
Defined.

End BoardBehaviour.

(* ===================================================================== *)
(** ** The guest source                                                   *)
(* ===================================================================== *)

Module GuestBehaviour.
Import Calendar Runtime Quota Views MoreViews TraceFacts.
Import Scraper ScraperGuest FetchProperties FetchBehaviour.

(** *** Identifiers read from URNs *)

Lemma split_chars_plain (sep : ascii) (l current : list ascii) :
  ~ In sep l ->
  split_chars sep current l = [string_of_list_ascii (rev current ++ l)].
Proof.
  revert current. induction l as [|c rest IH]; intros current Hno.
  - cbn. rewrite app_nil_r. reflexivity.
  - cbn [split_chars].
    destruct (Ascii.eqb c sep) eqn:Hc.
    + apply Ascii.eqb_eq in Hc. subst c. exfalso. apply Hno. left. reflexivity.
    + rewrite IH by (intros H; apply Hno; right; exact H).
      cbn [rev]. rewrite <- app_assoc. reflexivity.
Qed.

Lemma list_ascii_of_append (a b : string) :
  list_ascii_of_string (a +:+ b)
  = list_ascii_of_string a ++ list_ascii_of_string b.
Proof.
  induction a as [|c a IH]; [reflexivity|].
  change (String c a +:+ b) with (String c (a +:+ b)).
  cbn [list_ascii_of_string app]. rewrite IH. reflexivity.
Qed.

(** The identifier of a posting whose URN has the usual shape is read
    back from it, whatever the identifier, as long as it holds no
    colon. *)
Theorem job_id_is_read_from_urn (id : string) :
  ~ In ":"%char (list_ascii_of_string id) ->
  job_id_of (Some (Some ("urn:li:jobPosting:" +:+ id))) = Some id.
Proof.
  intros Hno. unfold job_id_of.
  change (truthy ("urn:li:jobPosting:" +:+ id)) with true.
  assert (contains "jobPosting:" ("urn:li:jobPosting:" +:+ id) = true) as ->
    by (destruct id; reflexivity).
  cbn [andb]. unfold split. rewrite list_ascii_of_append.
  change (list_ascii_of_string "urn:li:jobPosting:")
    with (map ascii_of_nat
              [117; 114; 110; 58; 108; 105; 58; 106; 111; 98; 80; 111; 115;
               116; 105; 110; 103; 58]%nat).
  cbn [map app]. cbn [split_chars].
  repeat match goal with
         | |- context [Ascii.eqb ?a ?b] =>
             let v := eval vm_compute in (Ascii.eqb a b) in
             change (Ascii.eqb a b) with v; cbn iota
         end.
  rewrite split_chars_plain by exact Hno.
  cbn [nth_error rev app]. rewrite string_of_list_ascii_of_string.
  reflexivity.
Qed.

Lemma job_id_is_read_from_urn_witness :
  job_id_of (Some (Some ("urn:li:jobPosting:" +:+ "4012345678")))
  = Some "4012345678"%string.
Proof.
  apply (job_id_is_read_from_urn "4012345678"%string).
  vm_compute. intuition discriminate.
Defined.

(** *** The listing loop *)

Lemma scan_page_nodup (all : list li_element) :
  forall (l : list string) (n : Z),
    NoDup l -> NoDup (fst (scan_page all l n)).
Proof.
  induction all as [|e rest IH]; intros l n Hl; [exact Hl|].
  cbn [scan_page]. destruct (job_id_of e) as [jobid|]; [|apply IH, Hl].
  destruct (bool_decide (jobid ∈ l)) eqn:Hin; [apply IH, Hl|].
  apply bool_decide_eq_false_1 in Hin. apply IH.
  apply NoDup_app. split; [exact Hl|]. split.
  - intros x Hx Hx'. apply list_elem_of_singleton in Hx'. subst x. auto.
  - apply NoDup_singleton.
Qed.

Lemma retry_loop_returns (MAX DELAY : Z) (url : string) (E : env) :
  forall (fuel : nat) (agent : nat) (retries : Z) (w : world),
    exists res r w' k,
      retry_loop MAX DELAY fuel url agent retries E w
      = (Returned (res, r), w')
      /\ requested (trace w') = requested (trace w) ++ repeat url k
      /\ (k <= fuel)%nat.
Proof.
  induction fuel as [|fuel IH]; intros agent retries w.
  - exists None, retries, w, 0%nat. cbn. rewrite app_nil_r.
    repeat split; lia.
  - rewrite retry_loop_step. destruct (retries <=? MAX).
    2:{ exists None, retries, w, 0%nat. cbn. rewrite app_nil_r.
        repeat split; lia. }
    unfold bind at 1, get at 1.
    destruct (http_get E (requests w) url) as [status text|].
    + destruct (is_http_error status).
      * destruct ((status =? 429) && (retries <? MAX)).
        -- unfold bind, uniform, sleep, emit, choice.
           cbn [fs reads writes calls requests draws trace].
           match goal with
           | |- context [retry_loop MAX DELAY fuel url ?a ?r0 E ?w0] =>
               destruct (IH a r0 w0) as (res & r & w' & k & Heq & Hreq & Hk)
           end.
           exists res, r, w', (S k). split; [exact Heq|].
           cbn [trace] in Hreq. rewrite Hreq, !requested_app.
           cbn [repeat]. split; [|lia].
           change (requested [Requested url (Some agent)]) with [url].
           change (requested [Slept (DELAY + random_uniform E (draws w))])
             with (@nil string).
           rewrite app_nil_r, <- app_assoc. reflexivity.
        -- eexists None, retries, _, 1%nat. split; [reflexivity|].
           cbn [trace]. rewrite requested_app. split; [reflexivity | lia].
      * eexists (Some text), retries, _, 1%nat. split; [reflexivity|].
        cbn [trace]. rewrite requested_app. split; [reflexivity | lia].
    + eexists None, retries, _, 1%nat. split; [reflexivity|].
      cbn [trace]. rewrite requested_app. split; [reflexivity | lia].
Qed.

(** A fetch always returns, and its requests all go to its URL, at
    most [MAX_RETRIES + 1] of them. *)
Lemma fetch_returns (MAX DELAY : Z) (url : string) (E : env) (w : world) :
  exists res r w' k,
    fetch_with_retries MAX DELAY url E w = (Returned (res, r), w')
    /\ requested (trace w') = requested (trace w) ++ repeat url k
    /\ (k <= Z.to_nat (MAX + 1))%nat.
Proof.
  unfold fetch_with_retries, bind, uniform, sleep, emit, choice.
  cbn [fs reads writes calls requests draws trace].
  match goal with
  | |- context [retry_loop _ _ ?f url ?a 0 E ?w0] =>
      destruct (retry_loop_returns MAX DELAY url E f a 0 w0)
        as (res & r & w' & k & Heq & Hreq & Hk)
  end.
  exists res, r, w', k. split; [exact Heq|]. split; [|exact Hk].
  cbn [trace] in Hreq. rewrite Hreq, requested_app.
  change (requested [Slept (random_uniform E (draws w))]) with (@nil string).
  rewrite app_nil_r. reflexivity.
Qed.

Section Guest.

Variable LINKEDIN_MAX_START : Z.
Variables LINKEDIN_GEO_ID LINKEDIN_JOB_POSTING_DATE : string.
Variables LINKEDIN_JOB_TYPE LINKEDIN_F_WT : string.
Variables MAX_RETRIES RETRY_DELAY_SECONDS : Z.
Variable find_all_li : string -> list li_element.
Variable read_posting : string -> option posting.
Variable list_of_set : list string -> list string.
Variable store_failure : exn.

Local Abbreviation url_of :=
  (target_url LINKEDIN_GEO_ID LINKEDIN_JOB_POSTING_DATE
              LINKEDIN_JOB_TYPE LINKEDIN_F_WT).
Local Abbreviation loop :=
  (listing_loop LINKEDIN_MAX_START LINKEDIN_GEO_ID
     LINKEDIN_JOB_POSTING_DATE LINKEDIN_JOB_TYPE LINKEDIN_F_WT
     MAX_RETRIES RETRY_DELAY_SECONDS find_all_li).

(** The listing loop always returns; it keeps a list without
    duplicates free of them; its requests go to the URLs of the offsets
    from [start] to [LINKEDIN_MAX_START] in steps of 10, and number at
    most [MAX_RETRIES + 1] per turn. *)
Lemma listing_loop_spec (search_query location : string) (E : env) :
  forall (fuel : nat) (start : Z) (l : list string) (w : world),
    NoDup l ->
    exists ids w' urls,
      loop fuel search_query location start l E w = (Returned ids, w')
      /\ NoDup ids
      /\ requested (trace w') = requested (trace w) ++ urls
      /\ Forall (fun u => exists s,
                    start <= s <= LINKEDIN_MAX_START
                    /\ (s - start) mod 10 = 0
                    /\ u = url_of search_query location s) urls
      /\ (length urls <= fuel * Z.to_nat (MAX_RETRIES + 1))%nat.
Proof.
  induction fuel as [|fuel IH]; intros start l w Hl.
  - exists l, w, []. cbn. rewrite app_nil_r.
    repeat split; [exact Hl | constructor | lia].
  - cbn [listing_loop].
    destruct (start <=? LINKEDIN_MAX_START) eqn:Hstart.
    2:{ exists l, w, []. cbn. rewrite app_nil_r.
        repeat split; [exact Hl | constructor | lia]. }
    unfold bind at 1.
    destruct (fetch_returns MAX_RETRIES RETRY_DELAY_SECONDS
                (url_of search_query location start) E w)
      as (res & r & w1 & k & Heq & Hreq & Hk).
    fold url_of. rewrite Heq. cbn [fst].
    assert (Forall (fun u => exists s,
                       start <= s <= LINKEDIN_MAX_START
                       /\ (s - start) mod 10 = 0
                       /\ u = url_of search_query location s)
                   (repeat (url_of search_query location start) k)) as Hhere.
    { apply Forall_forall. intros u Hu.
      apply list_elem_of_In, repeat_spec in Hu. subst u.
      exists start. rewrite Z.sub_diag. repeat split; lia. }
    assert (exists ids w' urls,
               ret (A:=list string) l E w1 = (Returned ids, w')
               /\ NoDup ids
               /\ requested (trace w') = requested (trace w) ++ urls
               /\ Forall (fun u => exists s,
                             start <= s <= LINKEDIN_MAX_START
                             /\ (s - start) mod 10 = 0
                             /\ u = url_of search_query location s) urls
               /\ (length urls <= S fuel * Z.to_nat (MAX_RETRIES + 1))%nat)
      as Hstop.
    { exists l, w1, (repeat (url_of search_query location start) k).
      rewrite repeat_length.
      repeat split; [exact Hl | exact Hreq | exact Hhere | lia]. }
    destruct res as [text|]; [|exact Hstop].
    destruct (truthy text); cbn [negb]; [|exact Hstop].
    destruct (find_all_li text) as [|e rest] eqn:Hli; [exact Hstop|].
    pose proof (scan_page_nodup (e :: rest) l 0 Hl) as Hscan.
    destruct (snd (scan_page (e :: rest) l 0) =? 0).
    + exists (fst (scan_page (e :: rest) l 0)), w1,
        (repeat (url_of search_query location start) k).
      rewrite repeat_length.
      repeat split; [exact Hscan | exact Hreq | exact Hhere | lia].
    + destruct (IH (start + 10) (fst (scan_page (e :: rest) l 0)) w1 Hscan)
        as (ids & w' & urls & Heq' & Hnd & Hreq' & Hurls & Hlen).
      exists ids, w', (repeat (url_of search_query location start) k ++ urls).
      split; [exact Heq'|]. split; [exact Hnd|].
      split; [rewrite Hreq', Hreq, app_assoc; reflexivity|].
      split.
      * apply Forall_app. split; [exact Hhere|].
        eapply Forall_impl; [exact Hurls|].
        intros u (s & Hs & Hmod & ->). exists s.
        split; [lia|]. split; [|reflexivity].
        replace (s - start) with ((s - (start + 10)) + 1 * 10) by lia.
        rewrite Z.mod_add by lia. exact Hmod.
      * rewrite length_app, repeat_length. lia.
Qed.

Lemma listing_ids_spec
    (search_query location : string) (E : env) (w : world) :
  exists ids w' urls,
    _fetch_linkedin_job_ids LINKEDIN_MAX_START LINKEDIN_GEO_ID
      LINKEDIN_JOB_POSTING_DATE LINKEDIN_JOB_TYPE LINKEDIN_F_WT
      MAX_RETRIES RETRY_DELAY_SECONDS find_all_li search_query location E w
    = (Returned ids, w')
    /\ NoDup ids
    /\ requested (trace w') = requested (trace w) ++ urls
    /\ Forall (fun u => exists s,
                  0 <= s <= LINKEDIN_MAX_START /\ s mod 10 = 0
                  /\ u = target_url LINKEDIN_GEO_ID LINKEDIN_JOB_POSTING_DATE
                           LINKEDIN_JOB_TYPE LINKEDIN_F_WT
                           search_query location s) urls
    /\ (length urls
        <= Z.to_nat (LINKEDIN_MAX_START / 10 + 1)
           * Z.to_nat (MAX_RETRIES + 1))%nat.
Proof.
  unfold _fetch_linkedin_job_ids.
  destruct (listing_loop_spec search_query location E
              (Z.to_nat (LINKEDIN_MAX_START / 10 + 1)) 0 [] w
              (NoDup_nil_2))
    as (ids & w' & urls & Heq & Hnd & Hreq & Hurls & Hlen).
  exists ids, w', urls. split; [exact Heq|]. split; [exact Hnd|].
  split; [exact Hreq|]. split; [|exact Hlen].
  eapply Forall_impl; [exact Hurls|].
  intros u (s & Hs & Hmod & ->). exists s.
  rewrite Z.sub_0_r in Hmod. repeat split; lia || assumption.
Qed.

(** [_fetch_linkedin_job_ids] always returns, and the identifiers it
    returns are all different; every request it sends goes to the
    listing URL of an offset that is a multiple of 10 between 0 and
    [LINKEDIN_MAX_START], and it sends at most
    [(LINKEDIN_MAX_START / 10 + 1) * (MAX_RETRIES + 1)] of them. *)
Theorem listing_ids_are_distinct_and_paging_is_bounded
    (search_query location : string) (E : env) (w : world) :
  exists ids w' urls,
    _fetch_linkedin_job_ids LINKEDIN_MAX_START LINKEDIN_GEO_ID
      LINKEDIN_JOB_POSTING_DATE LINKEDIN_JOB_TYPE LINKEDIN_F_WT
      MAX_RETRIES RETRY_DELAY_SECONDS find_all_li search_query location E w
    = (Returned ids, w')
    /\ NoDup ids
    /\ requested (trace w') = requested (trace w) ++ urls
    /\ Forall (fun u => exists s,
                  0 <= s <= LINKEDIN_MAX_START /\ s mod 10 = 0
                  /\ u = target_url LINKEDIN_GEO_ID LINKEDIN_JOB_POSTING_DATE
                           LINKEDIN_JOB_TYPE LINKEDIN_F_WT
                           search_query location s) urls
    /\ (length urls
        <= Z.to_nat (LINKEDIN_MAX_START / 10 + 1)
           * Z.to_nat (MAX_RETRIES + 1))%nat.
Proof. exact (listing_ids_spec search_query location E w). Qed.

Local Abbreviation details_of :=
  (_fetch_linkedin_job_details MAX_RETRIES RETRY_DELAY_SECONDS
     read_posting).

Lemma detail_fetch_spec (job_id : string) (E : env)
    (w : world) :
  exists r w' k,
    details_of job_id E w = (Returned r, w')
    /\ (forall d, r = Some d -> Runtime.job_id d = Some job_id)
    /\ requested (trace w')
       = requested (trace w) ++ repeat (job_detail_url job_id) k
    /\ (k <= Z.to_nat (MAX_RETRIES + 1))%nat.
Proof.
  unfold _fetch_linkedin_job_details. unfold bind at 1.
  destruct (fetch_returns MAX_RETRIES RETRY_DELAY_SECONDS
              (job_detail_url job_id) E w)
    as (res & retries & w1 & k & -> & Hreq & Hk).
  cbn [fst]. destruct res as [text|].
  2:{ exists None, w1, k. repeat split; try assumption. discriminate. }
  unfold try_except.
  destruct (read_posting text) as [page|].
  2:{ exists None, w1, k. repeat split; try assumption. discriminate. }
  destruct (truthy (strip (posting_raw_description_text page))).
  - unfold bind.
    pose proof (quiet_convert (posting_raw_description_text page) E w1)
      as Hquiet.
    destruct (convert_plain_text_to_markdown_with_ai _ E w1)
      as [[markdown|e] w2]; cbn [snd] in Hquiet.
    + eexists _, w2, k. split; [reflexivity|].
      rewrite Hquiet. repeat split; try assumption.
      intros d [= <-]. reflexivity.
    + exists None, w2, k. split; [reflexivity|].
      rewrite Hquiet. repeat split; try assumption. discriminate.
  - eexists _, w1, k. split; [reflexivity|].
    repeat split; try assumption. intros d [= <-]. reflexivity.
Qed.

(** [_fetch_linkedin_job_details] never raises, not even when the
    conversion of the description does: it then returns [None]. What it
    returns otherwise carries the identifier it was asked for, and all
    its requests go to the posting URL of that identifier. *)
Theorem guest_detail_fetch_never_raises (job_id : string) (E : env)
    (w : world) :
  exists r w' k,
    details_of job_id E w = (Returned r, w')
    /\ (forall d, r = Some d -> Runtime.job_id d = Some job_id)
    /\ requested (trace w')
       = requested (trace w) ++ repeat (job_detail_url job_id) k
    /\ (k <= Z.to_nat (MAX_RETRIES + 1))%nat.
Proof. exact (detail_fetch_spec job_id E w). Qed.

Local Abbreviation details_loop :=
  (ScraperGuest.fetch_new_details MAX_RETRIES RETRY_DELAY_SECONDS
     read_posting).

(** Phase 2 always returns; what it returns are details of identifiers
    it was given, each with a description that is not blank, and its
    requests go to the posting URLs of those identifiers. *)
Lemma guest_details_loop_spec (E : env) :
  forall (ids : list string) (w : world),
    exists found w' urls,
      details_loop ids E w = (Returned found, w')
      /\ Forall (fun d => exists id, id ∈ ids
                                     /\ Runtime.job_id d = Some id
                                     /\ has_description d = true) found
      /\ requested (trace w') = requested (trace w) ++ urls
      /\ Forall (fun u => exists id, id ∈ ids /\ u = job_detail_url id) urls.
Proof.
  induction ids as [|id rest IH]; intros w.
  - exists [], w, []. cbn. rewrite app_nil_r.
    repeat split; constructor.
  - cbn [ScraperGuest.fetch_new_details].
    fold details_loop. fold details_of. unfold bind at 1.
    destruct (detail_fetch_spec id E w)
      as (r & w1 & k & -> & Hid & Hreq & _).
    unfold bind at 1.
    destruct (IH w1) as (found & w2 & urls & -> & Hfound & Hreq2 & Hurls).
    assert (Forall (fun d => exists id0, id0 ∈ id :: rest
                                         /\ Runtime.job_id d = Some id0
                                         /\ has_description d = true) found)
      as Hfound'.
    { eapply Forall_impl; [exact Hfound|].
      intros d (id0 & Hin & Hd). exists id0.
      split; [right; exact Hin | exact Hd]. }
    assert (Forall (fun u => exists id0, id0 ∈ id :: rest
                                         /\ u = job_detail_url id0)
                   (repeat (job_detail_url id) k ++ urls)) as Hurls'.
    { apply Forall_app. split.
      - apply Forall_forall. intros u Hu.
        apply list_elem_of_In, repeat_spec in Hu. subst u.
        exists id. split; [left|reflexivity].
      - eapply Forall_impl; [exact Hurls|].
        intros u (id0 & Hin & ->). exists id0.
        split; [right; exact Hin | reflexivity]. }
    assert (requested (trace w2)
            = requested (trace w) ++ repeat (job_detail_url id) k ++ urls)
      as Hreq'.
    { rewrite Hreq2, Hreq, app_assoc. reflexivity. }
    destruct r as [d|].
    + destruct (has_description d
                && bool_decide (is_Some (Runtime.job_id d))) eqn:Hkeep.
      * exists (d :: found), w2, (repeat (job_detail_url id) k ++ urls).
        split; [reflexivity|]. split; [|split; assumption].
        constructor; [|exact Hfound'].
        apply andb_true_iff in Hkeep as [Hd _].
        exists id. split; [left|]. split; [apply Hid; reflexivity | exact Hd].
      * exists found, w2, (repeat (job_detail_url id) k ++ urls).
        split; [reflexivity|]. repeat split; assumption.
    + exists found, w2, (repeat (job_detail_url id) k ++ urls).
      split; [reflexivity|]. repeat split; assumption.
Qed.

(** A guest query with a store that answers never raises. Provided
    [list(set(ids))] lists nothing but the identifiers it is given,
    every job the query returns has an identifier that is not in the
    store and a description that is not blank, and every request it
    sends is either to a listing URL or to the posting URL of an
    identifier that is not in the store. *)
Theorem guest_query_skips_stored_ids (search_query location : string)
    (E : env) (w : world) (job_ids_set : gset string)
    (company_title_set : gset (string * string)) :
  (forall l x, x ∈ list_of_set l -> x ∈ l) ->
  existing_jobs E = Some (job_ids_set, company_title_set) ->
  exists found w' urls,
    process_linkedin_query LINKEDIN_MAX_START LINKEDIN_GEO_ID
      LINKEDIN_JOB_POSTING_DATE LINKEDIN_JOB_TYPE LINKEDIN_F_WT
      MAX_RETRIES RETRY_DELAY_SECONDS find_all_li read_posting list_of_set
      store_failure search_query location E w
    = (Returned found, w')
    /\ Forall (fun d => exists id, Runtime.job_id d = Some id
                                   /\ (id ∉ job_ids_set)
                                   /\ has_description d = true) found
    /\ requested (trace w') = requested (trace w) ++ urls
    /\ Forall (fun u =>
                 (exists s, u = url_of search_query location s)
                 \/ (exists id, (id ∉ job_ids_set) /\ u = job_detail_url id))
              urls.
Proof.
  intros Hset Hstore. unfold process_linkedin_query. unfold bind at 1.
  destruct (listing_ids_spec
              search_query location E w)
    as (ids & w1 & urls1 & -> & _ & Hreq1 & Hurls1 & _).
  assert (Forall (fun u =>
                    (exists s, u = url_of search_query location s)
                    \/ (exists id, (id ∉ job_ids_set)
                                   /\ u = job_detail_url id)) urls1)
    as Hlisting.
  { eapply Forall_impl; [exact Hurls1|].
    intros u (s & _ & _ & ->). left. exists s. reflexivity. }
  destruct ids as [|id0 ids].
  { exists [], w1, urls1. split; [reflexivity|].
    repeat split; [constructor | exact Hreq1 | exact Hlisting]. }
  unfold bind at 1, ask. rewrite Hstore.
  set (kept := linkedin_new_job_ids (list_of_set (id0 :: ids)) job_ids_set).
  assert (forall id, id ∈ kept -> id ∉ job_ids_set) as Hkept.
  { intros id Hin. unfold kept, linkedin_new_job_ids in Hin.
    apply list_elem_of_filter in Hin. tauto. }
  destruct (guest_details_loop_spec E kept w1)
    as (found & w2 & urls2 & Heq & Hfound & Hreq2 & Hurls2).
  assert (exists found w' urls,
             details_loop kept E w1 = (Returned found, w')
             /\ Forall (fun d => exists id, Runtime.job_id d = Some id
                                            /\ (id ∉ job_ids_set)
                                            /\ has_description d = true)
                       found
             /\ requested (trace w') = requested (trace w) ++ urls
             /\ Forall (fun u =>
                          (exists s, u = url_of search_query location s)
                          \/ (exists id, (id ∉ job_ids_set)
                                         /\ u = job_detail_url id)) urls)
    as Hrun.
  { exists found, w2, (urls1 ++ urls2). split; [exact Heq|]. split.
    - eapply Forall_impl; [exact Hfound|].
      intros d (id & Hin & Hid & Hd). exists id. auto.
    - split; [rewrite Hreq2, Hreq1, app_assoc; reflexivity|].
      apply Forall_app. split; [exact Hlisting|].
      eapply Forall_impl; [exact Hurls2|].
      intros u (id & Hin & ->). right. exists id. auto. }
  destruct kept as [|k0 kept'] eqn:Hk; [|exact Hrun].
  exists [], w1, urls1. split; [reflexivity|].
  repeat split; [constructor | exact Hreq1 | exact Hlisting].
Qed.

End Guest.

Lemma guest_query_skips_stored_ids_witness :
  exists found w' urls,
    process_linkedin_query 20 "104738515" "r86400" "F" "2" 3 5000000
      Scenario.three_postings Scenario.posting_of (fun l => l) ValueError
      "welder" "Singapore" Scenario.guest_run Scenario.no_files
    = (Returned found, w')
    /\ Forall (fun d => exists id, Runtime.job_id d = Some id
                                   /\ (id ∉ ({[ "101"%string ]} : gset string))
                                   /\ has_description d = true) found
    /\ requested (trace w') = requested (trace Scenario.no_files) ++ urls
    /\ Forall (fun u =>
                 (exists s, u = target_url "104738515" "r86400" "F" "2"
                                  "welder" "Singapore" s)
                 \/ (exists id, (id ∉ ({[ "101"%string ]} : gset string))
                                /\ u = job_detail_url id))
              urls.
Proof.
  apply (guest_query_skips_stored_ids 20 "104738515" "r86400" "F" "2" 3
           5000000 Scenario.three_postings Scenario.posting_of (fun l => l)
           ValueError "welder" "Singapore" Scenario.guest_run
           Scenario.no_files {[ "101"%string ]} ∅).
  - intros l x H. exact H.
  - reflexivity.
Defined.

(** A guest query that finds 101, 102 and 103 when the store knows 101
    and the posting 102 cannot be fetched: 103 alone is returned, and
    no request is made for 101. *)
Example guest_query_returns_the_one_new_job :
  let run := process_linkedin_query 20 "104738515" "r86400" "F" "2" 3
               5000000 Scenario.three_postings Scenario.posting_of
               (fun l => l) ValueError "welder" "Singapore"
               Scenario.guest_run Scenario.no_files in
  fst run
  = Returned [mkdetails (Some "103"%string) (Some "Initech"%string)
                        (Some "Welder"%string) (Some "**Welder**"%string)]
  /\ filter (fun u => u = job_detail_url "101") (requested (trace (snd run)))
     = [].
Proof. vm_compute. split; reflexivity. Qed.

End GuestBehaviour.

(* ===================================================================== *)
(** ** [resume_parser.py]                                                 *)
(* ===================================================================== *)

Module ResumeBehaviour.
Import Calendar Runtime Quota Views MoreViews QuotaFacts.
Import QuotaProperties EnrichmentProperties EnrichmentBehaviour.
Import ResumeParser.

Lemma extract_text_spec (pages : list (option string)) :
  forall (text : string),
    (None ∈ pages /\ extract_text text pages = Raised TypeError)
    \/ ((None ∉ pages)
        /\ exists result,
             extract_text text pages = Returned result
             /\ (truthy result = false <-> truthy text = false /\ pages = [])).
Proof.
  induction pages as [|page rest IH]; intros text.
  - right. split; [apply not_elem_of_nil|].
    exists text. split; [reflexivity|]. tauto.
  - destruct page as [page_text|].
    + cbn [extract_text].
      destruct (IH (text +:+ page_text +:+ String "010" EmptyString))
        as [[Hin Heq] | (Hno & result & Heq & Hempty)].
      * left. split; [right; exact Hin | exact Heq].
      * right. split.
        { intros Hin. apply elem_of_cons in Hin as [H | H];
            [discriminate | auto]. }
        exists result. split; [exact Heq|].
        split; [|intros [_ H]; discriminate].
        intros Hr. apply Hempty in Hr as [Hr _].
        destruct text, page_text; discriminate.
    + left. split; [left | reflexivity].
Qed.

(** [extract_text_from_pdf] raises [TypeError] exactly when some page
    gives [None] for its text; otherwise it returns a text that is
    empty only for a PDF without pages: a page without any text still
    adds its line break. *)
Theorem extracted_text_is_empty_only_without_pages
    (pages : list (option string)) :
  (extract_text_from_pdf pages = Raised TypeError <-> None ∈ pages)
  /\ (forall text,
         extract_text_from_pdf pages = Returned text ->
         (truthy text = false <-> pages = [])).
Proof.
  unfold extract_text_from_pdf.
  destruct (extract_text_spec pages ""%string)
    as [[Hin Heq] | (Hno & result & Heq & Hempty)].
  - split; [tauto|]. intros text H. congruence.
  - split.
    + split; [congruence | contradiction].
    + intros text H. rewrite Heq in H. injection H as <-.
      rewrite Hempty. tauto.
Qed.

Section Main.

Variable resume : Type.
Variable json_loads : string -> option resume.

(** [main] hands a resume to the store only after text was extracted,
    the quota check returned [True], the text generation answered and
    the answer decoded as JSON; it has then made exactly one
    text-generation call. *)
Theorem resume_is_saved_only_after_a_granted_answer
    (pages : list (option string)) (E : env) (w w' : world) (r : resume) :
  main resume json_loads pages E w = (Returned (Some r), w') ->
  exists text answer,
    extract_text_from_pdf pages = Returned text
    /\ truthy text = true
    /\ fst (ParseResume.check_and_enforce_quota E w) = Returned true
    /\ generate_content E (calls w) (ParseResume.resume_prompt text)
       = Some answer
    /\ json_loads answer = Some r
    /\ calls w' = S (calls w).
Proof.
  unfold main. unfold bind at 1, lift. intros Hrun.
  destruct (extract_text_from_pdf pages) as [text|e]; [|discriminate].
  destruct (truthy text) eqn:Htext; cbn [negb] in Hrun; [|discriminate].
  unfold bind in Hrun. rewrite parse_resume_cases in Hrun.
  destruct (ParseResume.check_and_enforce_quota E w) as [[[|]|e] w1]
    eqn:Hcheck; [| discriminate | discriminate].
  pose proof (granted_same_calls _ _ _ _ _ _ Hcheck) as Hcalls.
  rewrite Hcalls in Hrun.
  destruct (generate_content E (calls w) (ParseResume.resume_prompt text))
    as [answer|] eqn:Hgen.
  - destruct (truthy answer); cbn [negb] in Hrun; [|discriminate].
    destruct (json_loads answer) as [decoded|] eqn:Hjson; [|discriminate].
    injection Hrun as <- <-.
    exists text, answer. repeat split; try assumption.
    cbn. rewrite Hcalls. reflexivity.
  - destruct (ParseResume.decrement_after_failure E _) as [[u|e] w2];
      discriminate.
Qed.

(** For a PDF with at least one page, and text for each, even an empty
    one, [main] goes on to the quota check: it makes a text-generation
    call exactly when the check returns [True]. *)
Theorem any_page_reaches_the_quota_check
    (pages : list (option string)) (E : env) (w : world) :
  pages <> [] ->
  None ∉ pages ->
  (calls (snd (main resume json_loads pages E w)) = S (calls w)
   <-> fst (ParseResume.check_and_enforce_quota E w) = Returned true).
Proof.
  intros Hpages Hsome.
  destruct (extract_text_spec pages ""%string)
    as [[Hin _] | (_ & text & Heq & Hempty)]; [contradiction|].
  assert (truthy text = true) as Htext.
  { destruct (truthy text); [reflexivity|].
    exfalso. apply Hpages. apply Hempty. reflexivity. }
  unfold main, extract_text_from_pdf. unfold bind at 1, lift.
  rewrite Heq, Htext. cbn [negb]. unfold bind.
  rewrite parse_resume_cases.
  destruct (ParseResume.check_and_enforce_quota E w) as [[[|]|e] w1]
    eqn:Hcheck;
    pose proof (granted_same_calls _ _ _ _ _ _ Hcheck) as Hcalls;
    cbn [fst].
  - split; [reflexivity|]. intros _.
    destruct (generate_content E (calls w1) _) as [answer|].
    + destruct (truthy answer); cbn [negb];
        [destruct (json_loads answer)|];
        cbn; rewrite Hcalls; reflexivity.
    + pose proof (decrement_same_calls ParseResume.QUOTA_STATE_FILE E
                    (called (ParseResume.resume_prompt text) w1)) as Hd.
      unfold ParseResume.decrement_after_failure.
      destruct (decrement_after_failure _ E _) as [[u|e] w2];
        cbn [snd] in *; rewrite Hd; cbn; rewrite Hcalls; reflexivity.
  - cbn. rewrite Hcalls. split; [lia | discriminate].
  - cbn. rewrite Hcalls. split; [lia | discriminate].
Qed.

End Main.

Lemma resume_is_saved_only_after_a_granted_answer_witness :
  exists text answer,
    extract_text_from_pdf [Some "Ada"%string; Some ""%string] = Returned text
    /\ truthy text = true
    /\ fst (ParseResume.check_and_enforce_quota
              (Scenario.two_pages_served (Some "{}"%string))
              Scenario.no_files) = Returned true
    /\ generate_content (Scenario.two_pages_served (Some "{}"%string))
         (calls Scenario.no_files) (ParseResume.resume_prompt text)
       = Some answer
    /\ (fun s => Some (String.length s)) answer = Some 2%nat
    /\ calls (snd (main nat (fun s => Some (String.length s))
                     [Some "Ada"%string; Some ""%string]
                     (Scenario.two_pages_served (Some "{}"%string))
                     Scenario.no_files))
       = S (calls Scenario.no_files).
Proof.
  apply (resume_is_saved_only_after_a_granted_answer nat
           (fun s => Some (String.length s))
           [Some "Ada"%string; Some ""%string]
           (Scenario.two_pages_served (Some "{}"%string))
           Scenario.no_files).
  vm_compute. reflexivity.
Defined.

Lemma any_page_reaches_the_quota_check_witness :
  calls (snd (main nat (fun s => Some (String.length s))
                [Some ""%string]
                (Scenario.two_pages_served (Some "{}"%string))
                Scenario.no_files))
  = S (calls Scenario.no_files)
  <-> fst (ParseResume.check_and_enforce_quota
             (Scenario.two_pages_served (Some "{}"%string))
             Scenario.no_files) = Returned true.
Proof.
  apply (any_page_reaches_the_quota_check nat
           (fun s => Some (String.length s)) [Some ""%string]
           (Scenario.two_pages_served (Some "{}"%string))
           Scenario.no_files).
  - discriminate.
  - intros H. apply elem_of_cons in H as [H | H];
      [discriminate | inversion H].
Defined.

End ResumeBehaviour.
